(** * BrainyPal: a shallow embedding of the study-aid backend

    The development follows the Python sources file by file:

    - [Text]       the [str] and [re] primitives the sources rely on;
    - [Py]         exceptions, list indexing and slicing as Python has them;
    - [Utils]      [utils.py]: text cleaning, sentence ranking, [RateLimiter];
    - [Models]     [models.py]: the rows and the helper functions on them;
    - [App]        [app.py]: the route handlers of the main Flask application;
    - [BackendApp] [backend/app.py]: the route handlers of the second one;
    - [AI]         [backend/ai_service.py]: the [AIService] class;
    - [DynAI]      [ai_service.py]: the module-level generators.

    Conventions.  A Python [str] is a [string]; every character stands for
    the code point given by [nat_of_ascii], so the embedding covers the
    texts whose code points are below 256.  A Python [int] is a [Z].  The
    scores of [calculate_sentence_importance] are floats that are all
    multiples of one half, they are kept as a number of half points.  The
    mastery level of a flashcard is kept as an exact rational.  Library
    calls (NLTK, spaCy, requests, random, the clocks) are not part of the
    repository: they are fields of the classes [Nltk], [Spacy] and of the
    [World] the effectful code runs in.  A name that a file reads and does
    not bind, and a method that a class calls and does not have, raise
    [NameError] and [AttributeError] as they do when the code runs. *)

From Stdlib Require Import ZArith QArith Qminmax String Ascii List Bool Lia.
From Stdlib Require Import Permutation Sorted DecimalString.
From stdpp Require Import gmap strings.

Import ListNotations.
Local Open Scope string_scope.
Local Open Scope list_scope.
Local Open Scope Z_scope.

(* ===================================================================== *)
(** * Python text primitives *)
(* ===================================================================== *)

Module Text.

Definition code (c : ascii) : nat := nat_of_ascii c.

Definition between (lo hi : nat) (c : ascii) : bool :=
  (Nat.leb lo (code c) && Nat.leb (code c) hi)%bool.

(** [str.isspace] on one character, which is also [\s] of [re] on [str]
    patterns: the ASCII blanks, the four separators 28..31, NEL and the
    no-break space. *)
Definition is_space (c : ascii) : bool :=
  (between 9 13 c || between 28 32 c || Nat.eqb (code c) 133
   || Nat.eqb (code c) 160)%bool.

(** [\d] of [re]: below 256 the only decimal digits are 0..9. *)
Definition is_digit (c : ascii) : bool := between 48 57 c.

Definition is_upper_az (c : ascii) : bool := between 65 90 c.
Definition is_lower_az (c : ascii) : bool := between 97 122 c.

(** [str.isalpha] on one character below 256. *)
Definition is_alpha (c : ascii) : bool :=
  (is_upper_az c || is_lower_az c || Nat.eqb (code c) 170
   || Nat.eqb (code c) 181 || Nat.eqb (code c) 186
   || between 192 214 c || between 216 246 c || between 248 255 c)%bool.

(** [\w] of [re] on [str] patterns: alphanumeric characters (letters,
    digits, and the superscripts and fractions of Latin-1, which are
    numeric) and the underscore. *)
Definition is_word (c : ascii) : bool :=
  (is_alpha c || is_digit c || Nat.eqb (code c) 95
   || between 178 179 c || Nat.eqb (code c) 185 || between 188 190 c)%bool.

(** [str.lower] on one character below 256. *)
Definition lower_char (c : ascii) : ascii :=
  if (is_upper_az c || between 192 214 c || between 216 222 c)%bool
  then ascii_of_nat (code c + 32) else c.

(** [ord(c.upper())] for the characters whose upper case is one
    character: the micro sign and y with diaeresis go above 255. *)
Definition upper_code (c : ascii) : Z :=
  if (is_lower_az c || between 224 246 c || between 248 254 c)%bool
  then Z.of_nat (code c) - 32
  else if Nat.eqb (code c) 181 then 924
  else if Nat.eqb (code c) 255 then 376
  else Z.of_nat (code c).

Abbreviation chars := list_ascii_of_string.
Abbreviation text := string_of_list_ascii.

Definition lower (s : string) : string := text (map lower_char (chars s)).

(** [len(s)] *)
Definition len (s : string) : Z := Z.of_nat (String.length s).

(** Truth value of a [str]: the empty string is false. *)
Definition truthy (s : string) : bool :=
  match s with EmptyString => false | String _ _ => true end.

Fixpoint drop_while {A} (p : A -> bool) (l : list A) : list A :=
  match l with
  | [] => []
  | x :: r => if p x then drop_while p r else l
  end.

Definition lstrip_chars (l : list ascii) : list ascii := drop_while is_space l.
Definition rstrip_chars (l : list ascii) : list ascii :=
  rev (drop_while is_space (rev l)).

(** [s.strip()] *)
Definition strip (s : string) : string :=
  text (rstrip_chars (lstrip_chars (chars s))).

Fixpoint prefix_chars (p l : list ascii) : bool :=
  match p, l with
  | [], _ => true
  | _ :: _, [] => false
  | a :: p', b :: l' => if Ascii.eqb a b then prefix_chars p' l' else false
  end.

(** [s.startswith(p)] *)
Definition startswith (s p : string) : bool := prefix_chars (chars p) (chars s).

(** [s.endswith(p)] *)
Definition endswith (s p : string) : bool :=
  prefix_chars (rev (chars p)) (rev (chars s)).

Fixpoint contains_chars (p l : list ascii) : bool :=
  if prefix_chars p l then true
  else match l with
       | [] => false
       | _ :: r => contains_chars p r
       end.

(** [p in s] *)
Definition contains (p s : string) : bool := contains_chars (chars p) (chars s).

(** [re.search(r'\d+', s)] as a truth value: some digit occurs. *)
Definition has_digit (s : string) : bool := existsb is_digit (chars s).

(** [s.split()]: the maximal runs of characters that are not blank. *)
Fixpoint split_ws_aux (cur : list ascii) (l : list ascii) : list string :=
  match l with
  | [] => match cur with [] => [] | _ => [text (rev cur)] end
  | c :: r =>
      if is_space c
      then match cur with
           | [] => split_ws_aux [] r
           | _ => text (rev cur) :: split_ws_aux [] r
           end
      else split_ws_aux (c :: cur) r
  end.

Definition split_ws (s : string) : list string := split_ws_aux [] (chars s).

(** [s.split(sep)] for a separator that is not empty: the pieces between
    the occurrences of [sep], found from the left. *)
Fixpoint split_on_aux (sep : list ascii) (skip : nat) (cur : list ascii)
  (l : list ascii) : list string :=
  match l with
  | [] => [text (rev cur)]
  | c :: r =>
      match skip with
      | S k => split_on_aux sep k cur r
      | O =>
          if prefix_chars sep l
          then text (rev cur) :: split_on_aux sep (List.length sep - 1)%nat [] r
          else split_on_aux sep O (c :: cur) r
      end
  end.

Definition split_on (s sep : string) : list string :=
  split_on_aux (chars sep) O [] (chars s).

(** [re.sub(r'\s+', ' ', s)]: every maximal run of blanks becomes one
    space. *)
Fixpoint collapse_ws_aux (in_run : bool) (l : list ascii) : list ascii :=
  match l with
  | [] => []
  | c :: r =>
      if is_space c
      then if in_run then collapse_ws_aux true r
           else " "%char :: collapse_ws_aux true r
      else c :: collapse_ws_aux false r
  end.

Definition collapse_ws (s : string) : string :=
  text (collapse_ws_aux false (chars s)).

(** [re.sub(cls, '', s)] for a negated character class: the characters of
    the class [keep] stay. *)
Definition keep_only (keep : ascii -> bool) (s : string) : string :=
  text (List.filter keep (chars s)).

(** [s[:n]] for [n >= 0] *)
Definition take (n : nat) (s : string) : string := text (firstn n (chars s)).

(** [s[n:]] for [n >= 0] *)
Definition drop (n : nat) (s : string) : string := text (skipn n (chars s)).

Fixpoint concat (l : list string) : string :=
  match l with
  | [] => ""
  | s :: r => s +:+ concat r
  end.

(** [str(n)] for an [int] *)
Definition str_of_Z (n : Z) : string := NilZero.string_of_int (Z.to_int n).

(** The line feed. *)
Definition nl : string := String (ascii_of_nat 10) "".

(** The maximal runs of word characters: where [\b...\b] can match. *)
Fixpoint word_runs_aux (cur : list ascii) (l : list ascii) : list string :=
  match l with
  | [] => match cur with [] => [] | _ => [text (rev cur)] end
  | c :: r =>
      if is_word c then word_runs_aux (c :: cur) r
      else match cur with
           | [] => word_runs_aux [] r
           | _ => text (rev cur) :: word_runs_aux [] r
           end
  end.

Definition word_runs (s : string) : list string := word_runs_aux [] (chars s).

(** [s.isalpha()] *)
Definition isalpha (s : string) : bool :=
  (truthy s && forallb is_alpha (chars s))%bool.

(** [x in l] for a list of strings *)
Definition mem (x : string) (l : list string) : bool :=
  existsb (String.eqb x) l.

End Text.

(* ===================================================================== *)
(** * Exceptions, indexing and slicing *)
(* ===================================================================== *)

Module Py.

(** The exception classes the sources can meet; all of them derive from
    [Exception].  [SystemExit] and [KeyboardInterrupt], which no [except]
    clause of the sources is written for, are left out. *)
Inductive exn : Type :=
| KeyError (key : string)
| IndexError
| AttributeError (what : string)
| NameError (what : string)
| TypeError (what : string)
| ValueError (what : string)
| LookupError (what : string)
| RecursionError
| RequestException (what : string)
| PlainException (what : string).

(** [isinstance(e, requests.exceptions.RequestException)] *)
Definition is_RequestException (e : exn) : bool :=
  match e with RequestException _ => true | _ => false end.

(** [str(e)] *)
Definition str_of_exn (e : exn) : string :=
  match e with
  | KeyError k => "'" +:+ k +:+ "'"
  | IndexError => "list index out of range"
  | AttributeError w | NameError w | TypeError w | ValueError w | LookupError w
  | RequestException w | PlainException w => w
  | RecursionError => "maximum recursion depth exceeded"
  end.

Inductive result (A : Type) : Type :=
| Ok (a : A)
| Raise (e : exn).
Arguments Ok {A} a.
Arguments Raise {A} e.

Definition bind {A B} (r : result A) (k : A -> result B) : result B :=
  match r with
  | Ok a => k a
  | Raise e => Raise e
  end.

(** [try: body  except Exception as e: handler] *)
Definition try_except {A} (body : result A) (handler : exn -> result A)
  : result A :=
  match body with
  | Ok a => Ok a
  | Raise e => handler e
  end.

Definition returns {A} (r : result A) : Prop := exists a, r = Ok a.

(** [l[i]]: negative indices count from the end, an index out of range
    raises [IndexError]. *)
Definition index {A} (l : list A) (i : Z) : result A :=
  let n := Z.of_nat (List.length l) in
  let j := if i <? 0 then i + n else i in
  if (0 <=? j) && (j <? n)
  then match nth_error l (Z.to_nat j) with
       | Some x => Ok x
       | None => Raise IndexError
       end
  else Raise IndexError.

(** [l[:n]]: a negative bound counts from the end. *)
Definition slice_to {A} (l : list A) (n : Z) : list A :=
  if n <? 0 then firstn (Z.to_nat (Z.of_nat (List.length l) + n)) l
  else firstn (Z.to_nat n) l.

(** [range(a, b)] as the list of its values. *)
Definition range (a b : Z) : list Z :=
  map (fun k => a + Z.of_nat k) (seq 0 (Z.to_nat (b - a))).

(** [list(dict.fromkeys(l))]: the first occurrence of every element, in
    order. *)
Fixpoint unique_aux (seen : list string) (l : list string) : list string :=
  match l with
  | [] => []
  | x :: r =>
      if existsb (String.eqb x) seen then unique_aux seen r
      else x :: unique_aux (x :: seen) r
  end.

Definition unique (l : list string) : list string := unique_aux [] l.

(** [l.sort(key=key, reverse=True)]: the sort is stable, elements with
    equal keys keep their order. *)
Fixpoint insert_desc {A} (key : A -> Z) (x : A) (l : list A) : list A :=
  match l with
  | [] => [x]
  | y :: r => if key x <? key y then y :: insert_desc key x r else x :: l
  end.

Fixpoint sort_desc {A} (key : A -> Z) (l : list A) : list A :=
  match l with
  | [] => []
  | x :: r => insert_desc key x (sort_desc key r)
  end.

(** [max(l, key=key)] on a list that is not empty: the first element whose
    key is maximal. *)
Fixpoint max_by {A} (key : A -> Z) (best : A) (l : list A) : A :=
  match l with
  | [] => best
  | x :: r => if key best <? key x then max_by key x r else max_by key best r
  end.

End Py.

Export Py.

#[export] Instance result_ret : MRet result := @Ok.
#[export] Instance result_bind : MBind result := fun A B k r => Py.bind r k.

(* ===================================================================== *)
(** * utils.py *)
(* ===================================================================== *)

(** The NLTK functions the sources import.  [HAS_NLTK] tells whether the
    import succeeded; a tokenizer raises [LookupError] when its data is
    not installed. *)
Class Nltk : Type := {
  HAS_NLTK : bool;
  sent_tokenize : string -> result (list string);
  word_tokenize : string -> result (list string);
  pos_tag : list string -> result (list (string * string));
  stopwords_english : result (list string)
}.

Module Utils.

Import Text.

(** [[^\x20-\x7E\n\t]] negated: the printable ASCII characters, the line
    feed and the tabulation. *)
Definition printable (c : ascii) : bool :=
  (between 32 126 c || Nat.eqb (code c) 10 || Nat.eqb (code c) 9)%bool.

Definition is_newline (c : ascii) : bool := Nat.eqb (code c) 10.

(** For [\n\s*\n] at a line feed followed by [l]: the number of characters
    up to and including the last line feed of the run of blanks that
    starts [l], if there is one ([\s*] is greedy and gives back until a
    line feed ends the match). *)
Fixpoint blank_run_to_newline (l : list ascii) : option nat :=
  match l with
  | [] => None
  | c :: r =>
      if is_space c
      then match blank_run_to_newline r with
           | Some n => Some (S n)
           | None => if is_newline c then Some 1%nat else None
           end
      else None
  end.

(** [re.sub(r'\n\s*\n', '\n\n', s)] *)
Fixpoint squeeze_blank_lines (skip : nat) (l : list ascii) : list ascii :=
  match l with
  | [] => []
  | c :: r =>
      match skip with
      | S k => squeeze_blank_lines k r
      | O =>
          if is_newline c
          then match blank_run_to_newline r with
               | Some n => c :: c :: squeeze_blank_lines n r
               | None => c :: squeeze_blank_lines O r
               end
          else c :: squeeze_blank_lines O r
      end
  end.

Definition clean_extracted_text (s : string) : string :=
  if negb (truthy s) then ""
  else
    let s1 := collapse_ws s in
    let s2 := keep_only printable s1 in
    let s3 := text (squeeze_blank_lines O (chars s2)) in
    strip s3.

Section WithNltk.
Context {nltk : Nltk}.

(** The word count of [calculate_sentence_importance]: NLTK's tokenizer
    when it is there and does not fail, [sentence.split()] otherwise. *)
Definition word_count (sentence : string) : Z :=
  if HAS_NLTK
  then match word_tokenize sentence with
       | Ok ws => Z.of_nat (List.length ws)
       | Raise _ => Z.of_nat (List.length (split_ws sentence))
       end
  else Z.of_nat (List.length (split_ws sentence)).

Definition importance_keywords : list string :=
  ["important"; "significant"; "crucial"; "essential"; "key"; "main";
   "primary"; "fundamental"; "critical"; "major"; "principal"; "central";
   "vital"].

Definition definition_indicators : list string :=
  [" is "; " are "; " means "; " refers to "; " defined as "; " known as "].

Definition causal_words : list string :=
  ["because"; "therefore"; "thus"; "consequently"; "as a result"; "due to"].

(** [for w in ws: if w in hay: score += pts] *)
Definition add_hits (pts : Z) (ws : list string) (hay : string) (score : Z) : Z :=
  fold_left (fun sc w => if contains w hay then sc + pts else sc) ws score.

(** The score is counted in half points: the source adds 2.0, 1.0, 1.5,
    1.0, 0.5, 1.0 and subtracts 1.0. *)
Definition calculate_sentence_importance (sentence : string) : Z :=
  if (negb (truthy sentence) || negb (truthy (strip sentence)))%bool then 0
  else
    let sentence := strip sentence in
    let score := 0 in
    let wc := word_count sentence in
    let score :=
      if (10 <=? wc) && (wc <=? 25) then score + 4
      else if (8 <=? wc) && (wc <=? 30) then score + 2
      else score in
    let score := add_hits 3 importance_keywords (lower sentence) score in
    let score := add_hits 2 definition_indicators (lower sentence) score in
    let score := if has_digit sentence then score + 1 else score in
    let score := add_hits 2 causal_words (lower sentence) score in
    let score := if (wc <? 5) || (40 <? wc) then score - 2 else score in
    Z.max 0 score.

(** The loop that fills [scored_sentences]. *)
Fixpoint score_sentences (sentences : list string) : list (string * Z) :=
  match sentences with
  | [] => []
  | sentence :: rest =>
      if truthy (strip sentence)
      then (strip sentence, calculate_sentence_importance sentence)
             :: score_sentences rest
      else score_sentences rest
  end.

Definition rank_sentences_by_importance (sentences : list string)
  : list string :=
  match sentences with
  | [] => []
  | _ =>
      let scored_sentences := score_sentences sentences in
      let scored_sentences := sort_desc snd scored_sentences in
      map fst scored_sentences
  end.

End WithNltk.

(** ** RateLimiter *)

(** A [datetime] is a number of microseconds, [timedelta(minutes=m)] is
    [m] minutes in that unit. *)
Definition minutes (m : Z) : Z := m * 60000000.

(** [self.requests]: the accepted request times of every user. *)
Abbreviation RateLimiter := (gmap Z (list Z)).

(** [RateLimiter()] *)
Definition new_rate_limiter : RateLimiter := ∅.

Definition recent (window_start : Z) (times : list Z) : list Z :=
  List.filter (fun req_time => window_start <? req_time) times.

(** [is_allowed] called at the time [now]: the answer and the limiter as
    the call leaves it. *)
Definition is_allowed (self : RateLimiter) (now : Z)
  (user_id limit window_minutes : Z) : bool * RateLimiter :=
  let window_start := now - minutes window_minutes in
  let self :=
    match self !! user_id with
    | Some times => <[user_id := recent window_start times]> self
    | None => <[user_id := []]> self
    end in
  let times := default [] (self !! user_id) in
  if Z.of_nat (List.length times) <? limit
  then (true, <[user_id := times ++ [now]]> self)
  else (false, self).

Definition get_remaining_requests (self : RateLimiter) (now : Z)
  (user_id limit window_minutes : Z) : Z :=
  let window_start := now - minutes window_minutes in
  match self !! user_id with
  | Some times =>
      let recent_requests := recent window_start times in
      Z.max 0 (limit - Z.of_nat (List.length recent_requests))
  | None => limit
  end.

(** A sequence of [is_allowed] calls, each with its user and its time,
    under one limit and one window: the answers in order and the final
    limiter. *)
Fixpoint run_calls (self : RateLimiter) (limit window_minutes : Z)
  (calls : list (Z * Z)) : list bool * RateLimiter :=
  match calls with
  | [] => ([], self)
  | (user_id, now) :: rest =>
      let '(ok, self) := is_allowed self now user_id limit window_minutes in
      let '(oks, self) := run_calls self limit window_minutes rest in
      (ok :: oks, self)
  end.

(** The times of the calls of [user_id] that were answered [True]. *)
Fixpoint accepted_times (user_id : Z) (calls : list (Z * Z))
  (answers : list bool) : list Z :=
  match calls, answers with
  | (u, now) :: calls, ok :: answers =>
      if (ok && (u =? user_id))%bool
      then now :: accepted_times user_id calls answers
      else accepted_times user_id calls answers
  | _, _ => []
  end.

(** The times that fall in the window of [window_minutes] minutes that
    starts at [start]. *)
Definition in_window (start window_minutes : Z) (times : list Z) : list Z :=
  List.filter
    (fun t => (start <=? t) && (t <? start + minutes window_minutes)) times.

End Utils.

(* ===================================================================== *)
(** * models.py *)
(* ===================================================================== *)

Module Models.

Record User := {
  user_id : Z;
  email : string;
  password_hash : string;
  user_created_at : Z;
  last_active : Z
}.

Record Conversation := {
  conv_id : Z;
  conv_user_id : Z;
  title : string;
  conv_created_at : Z;
  updated_at : Z
}.

Record Message := {
  msg_id : Z;
  conversation_id : Z;
  content : string;
  is_user : bool;
  timestamp : Z;
  ai_model : option string;
  confidence : option Q;
  processing_time : option Q
}.

Record Flashcard := {
  fc_user_id : Z;
  question : string;
  answer : string;
  topic : string;
  difficulty : string;
  times_reviewed : Z;
  times_correct : Z;
  last_reviewed : option Z;
  mastery_level : Q
}.

(** The tables the handlers below touch.  Flashcards are read by primary
    key, so the table is a map from the key to the row. *)
Record DB := {
  users : list User;
  conversations : list Conversation;
  messages : list Message;
  flashcards : gmap Z Flashcard
}.

(** The next value of an autoincrement primary key. *)
Definition next_id (ids : list Z) : Z := 1 + fold_right Z.max 0 ids.

(** [User.query.filter_by(email=email).first()] *)
Definition find_user_by_email (db : DB) (e : string) : option User :=
  find (fun u => String.eqb (email u) e) (users db).

(** [Conversation.query.filter_by(id=cid, user_id=uid).first()] *)
Definition find_conversation (db : DB) (cid uid : Z) : option Conversation :=
  find (fun c => (conv_id c =? cid) && (conv_user_id c =? uid))
       (conversations db).

Definition create_conversation (db : DB) (now : Z) (uid : Z) (t : string)
  : Conversation * DB :=
  let conversation :=
    {| conv_id := next_id (map conv_id (conversations db));
       conv_user_id := uid; title := t;
       conv_created_at := now; updated_at := now |} in
  (conversation,
   {| users := users db;
      conversations := conversations db ++ [conversation];
      messages := messages db;
      flashcards := flashcards db |}).

Definition add_message (db : DB) (now : Z) (cid : Z) (text : string)
  (from_user : bool) (model : option string) (conf time : option Q)
  : Message * DB :=
  let message :=
    {| msg_id := next_id (map msg_id (messages db));
       conversation_id := cid; content := text; is_user := from_user;
       timestamp := now; ai_model := model; confidence := conf;
       processing_time := time |} in
  (message,
   {| users := users db;
      conversations := conversations db;
      messages := messages db ++ [message];
      flashcards := flashcards db |}).

(** [Message.query.filter_by(conversation_id=cid)
      .order_by(Message.timestamp.asc()).all()] *)
Definition get_conversation_messages (db : DB) (cid : Z) : list Message :=
  sort_desc (fun m => - timestamp m)
    (List.filter (fun m => conversation_id m =? cid) (messages db)).

(** The learning metrics of a flashcard after one review.  The two
    divisions are true divisions, of floats in the source and of exact
    rationals here: the level can differ from the float of the source by
    its rounding, and only what the rounding keeps (the bounds, the
    formula as it is written) is stated of it. *)
Definition reviewed (flashcard : Flashcard) (now : Z) (correct : bool)
  : Flashcard :=
  let reviewed_n := times_reviewed flashcard + 1 in
  let correct_n :=
    if correct then times_correct flashcard + 1
    else times_correct flashcard in
  let mastery :=
    if 0 <? reviewed_n
    then
      let accuracy := (inject_Z correct_n / inject_Z reviewed_n)%Q in
      Qmin 1 (accuracy * (inject_Z reviewed_n / 10))%Q
    else mastery_level flashcard in
  {| fc_user_id := fc_user_id flashcard;
     question := question flashcard;
     answer := answer flashcard;
     topic := topic flashcard;
     difficulty := difficulty flashcard;
     times_reviewed := reviewed_n;
     times_correct := correct_n;
     last_reviewed := Some now;
     mastery_level := mastery |}.

(** [update_flashcard_performance(flashcard_id, correct)] at the time
    [now]: the flashcard table after the commit and the value returned. *)
Definition update_flashcard_performance (cards : gmap Z Flashcard) (now : Z)
  (flashcard_id : Z) (correct : bool) : gmap Z Flashcard * option Flashcard :=
  match cards !! flashcard_id with
  | Some flashcard =>
      let flashcard := reviewed flashcard now correct in
      (<[flashcard_id := flashcard]> cards, Some flashcard)
  | None => (cards, None)
  end.

(** A sequence of reviews: the flashcard, whether the answer was correct,
    and the time. *)
Fixpoint review_all (cards : gmap Z Flashcard) (reviews : list (Z * bool * Z))
  : gmap Z Flashcard :=
  match reviews with
  | [] => cards
  | (flashcard_id, correct, now) :: rest =>
      review_all (fst (update_flashcard_performance cards now flashcard_id correct))
                 rest
  end.

(** The learning metrics of a row as its column defaults give them. *)
Definition fresh (flashcard : Flashcard) : Prop :=
  times_reviewed flashcard = 0 /\ times_correct flashcard = 0
  /\ mastery_level flashcard = 0%Q.

(** What the claim asks of the learning metrics of a flashcard. *)
Definition consistent (flashcard : Flashcard) : Prop :=
  0 <= times_correct flashcard <= times_reviewed flashcard
  /\ (0 <= mastery_level flashcard)%Q /\ (mastery_level flashcard <= 1)%Q
  /\ (0 < times_reviewed flashcard ->
      mastery_level flashcard =
      Qmin 1 ((inject_Z (times_correct flashcard)
               / inject_Z (times_reviewed flashcard))
              * (inject_Z (times_reviewed flashcard) / 10))%Q).

End Models.

(* ===================================================================== *)
(** * Flask: responses, views and dispatch *)
(* ===================================================================== *)

Module Flask.

(** JSON values.  [JDate t] is the [isoformat()] text of the datetime
    [t]. *)
#[warnings="-register-all"]
Inductive json : Type :=
| JNull
| JBool (b : bool)
| JInt (n : Z)
| JNum (q : Q)
| JStr (s : string)
| JDate (t : Z)
| JArr (items : list json)
| JObj (fields : list (string * json)).

Inductive payload : Type :=
| Json (j : json)          (* [jsonify(...)] *)
| Plain (s : string).      (* a bare string *)

Record response := { body : payload; status : Z }.

(** [return jsonify(fields), code] *)
Definition jsonify (fields : list (string * json)) (code : Z) : response :=
  {| body := Json (JObj fields); status := code |}.

(** The body is a JSON object with the field [k]. *)
Definition has_field (k : string) (r : response) : bool :=
  match body r with
  | Json (JObj fields) => existsb (fun kv => String.eqb (fst kv) k) fields
  | _ => false
  end.

(** A view function runs against the database: it returns a response or
    raises, and leaves the database in some state. *)
Definition View (St : Type) : Type := St -> result response * St.

(** Flask around a view: an exception that escapes the view is answered
    by the handler registered for 500, unless the application propagates
    exceptions (debug or testing). *)
Definition dispatch {St} (propagate_exceptions : bool)
  (handler_500 : exn -> response) (view : View St) : View St :=
  fun st =>
    match view st with
    | (Ok r, st) => (Ok r, st)
    | (Raise e, st) =>
        if propagate_exceptions then (Raise e, st)
        else (Ok (handler_500 e), st)
    end.

(** [@jwt_required()]: without a valid token the view is not entered. *)
Definition jwt_required {St} (identity : option Z) (view : Z -> View St)
  : View St :=
  match identity with
  | Some uid => view uid
  | None => fun st =>
      (Ok (jsonify [("msg", JStr "Missing Authorization Header")] 401), st)
  end.

End Flask.

(* ===================================================================== *)
(** * app.py *)
(* ===================================================================== *)

(** werkzeug and flask_jwt_extended. *)
Class Auth : Type := {
  generate_password_hash : string -> string;
  check_password_hash : string -> string -> bool;
  create_access_token : Z -> string
}.

(** [handle_user_request("chat", ...)] of ai_service.py: the reply to a
    message given the history, a list of (from the user?, content).  The
    confidence it reports is absent, the handler falls back on 0.7. *)
Class ChatModel : Type := {
  chat_with_user : string -> list (bool * string) -> string
}.

Module App.

Import Text Flask Models.

Inductive route : Type :=
| health_check | signup | login | get_conversations
| get_conversation_detail | send_chat_message | upload_file
| get_flashcards | generate_flashcards | review_flashcard | generate_quiz
| generate_practice_questions | get_user_progress | get_dashboard_data
| search_content | get_user_history | get_user_topics.

Definition all_routes : list route :=
  [health_check; signup; login; get_conversations; get_conversation_detail;
   send_chat_message; upload_file; get_flashcards; generate_flashcards;
   review_flashcard; generate_quiz; generate_practice_questions;
   get_user_progress; get_dashboard_data; search_content; get_user_history;
   get_user_topics].

(** [except Exception as e: return jsonify({"error": str(e)}), 500] *)
Definition error_500 (e : exn) : response :=
  jsonify [("error", JStr (str_of_exn e))] 500.

(** [try: body  except Exception as e: return jsonify(...), 500] *)
Definition guarded {St} (try_body : View St) : View St :=
  fun st =>
    let '(r, st) := try_body st in
    (try_except r (fun e => Ok (error_500 e)), st).

(** The view function of a route, given the statements of its [try]
    block.  [health_check] has no [try]: its body is the view. *)
Definition view {St} (r : route) (try_body : View St) : View St :=
  match r with
  | health_check => try_body
  | _ => guarded try_body
  end.

(** [@app.errorhandler(500)] *)
Definition internal_error (e : exn) : response :=
  jsonify [("error", JStr "Internal server error")] 500.

(** A request as the application answers it. *)
Definition serve {St} (propagate_exceptions : bool) (r : route)
  (try_body : View St) : View St :=
  dispatch propagate_exceptions internal_error (view r try_body).

Section Handlers.
Context {auth : Auth} {chat : ChatModel}.

(** The JSON object of a signup request: the two fields are absent or
    strings.  [None] for the payload stands for a request without a JSON
    object, on which [data.get] raises. *)
Record signup_data := { su_email : option string; su_password : option string }.

Definition falsy (field : option string) : bool :=
  match field with
  | None => true
  | Some s => negb (truthy s)
  end.

Definition signup_body (now : Z) (payload : option signup_data) : View DB :=
  fun db =>
    match payload with
    | None =>
        (Raise (AttributeError "'NoneType' object has no attribute 'get'"), db)
    | Some data =>
        if (falsy (su_email data) || falsy (su_password data))%bool
        then (Ok (jsonify [("error", JStr "Email and password required")] 400),
              db)
        else
          let email_ := default "" (su_email data) in
          let password := default "" (su_password data) in
          match find_user_by_email db email_ with
          | Some _ => (Ok (jsonify [("error", JStr "User already exists")] 409), db)
          | None =>
              let user :=
                {| user_id := next_id (map user_id (users db));
                   email := email_;
                   password_hash := generate_password_hash password;
                   user_created_at := now; last_active := now |} in
              let db :=
                {| users := users db ++ [user];
                   conversations := conversations db;
                   messages := messages db;
                   flashcards := flashcards db |} in
              let access_token := create_access_token (user_id user) in
              let '(conversation, db) :=
                create_conversation db now (user_id user) "Welcome Chat" in
              (Ok (jsonify
                     [("message", JStr "User created successfully");
                      ("user", JObj [("id", JInt (user_id user));
                                     ("email", JStr (email user));
                                     ("created_at", JDate (user_created_at user))]);
                      ("access_token", JStr access_token);
                      ("conversation_id", JInt (conv_id conversation))] 201),
               db)
          end
    end.

(** [POST /api/auth/signup] *)
Definition signup_view (now : Z) (payload : option signup_data) : View DB :=
  view signup (signup_body now payload).

Definition message_json (msg : Message) : json :=
  JObj [("id", JInt (msg_id msg)); ("content", JStr (content msg));
        ("is_user", JBool (is_user msg)); ("timestamp", JDate (timestamp msg));
        ("ai_model", match ai_model msg with Some m => JStr m | None => JNull end);
        ("confidence", match confidence msg with Some q => JNum q | None => JNull end)].

Definition not_found_404 : response :=
  jsonify [("error", JStr "Conversation not found")] 404.

Definition get_conversation_detail_body (user_id conversation_id : Z)
  : View DB :=
  fun db =>
    match find_conversation db conversation_id user_id with
    | None => (Ok not_found_404, db)
    | Some conversation =>
        let messages := get_conversation_messages db conversation_id in
        (Ok (jsonify
               [("conversation",
                 JObj [("id", JInt (conv_id conversation));
                       ("title", JStr (title conversation));
                       ("created_at", JDate (conv_created_at conversation));
                       ("updated_at", JDate (updated_at conversation))]);
                ("messages", JArr (map message_json messages))] 200),
         db)
    end.

(** [GET /api/chat/conversation/<int:conversation_id>] *)
Definition get_conversation_detail_view (identity : option Z)
  (conversation_id : Z) : View DB :=
  jwt_required identity (fun user_id =>
    view get_conversation_detail
         (get_conversation_detail_body user_id conversation_id)).

(** The JSON object of a chat request: [message] is absent or a string,
    [conversation_id] is absent or an integer. *)
Record chat_data := { ch_message : option string; ch_conversation_id : option Z }.

(** [Conversation.updated_at = now] on the row [cid]. *)
Definition touch_conversation (db : DB) (cid now : Z) : DB :=
  {| users := users db;
     conversations :=
       map (fun c =>
              if conv_id c =? cid
              then {| conv_id := conv_id c; conv_user_id := conv_user_id c;
                      title := title c; conv_created_at := conv_created_at c;
                      updated_at := now |}
              else c) (conversations db);
     messages := messages db;
     flashcards := flashcards db |}.

(** The statements of [send_chat_message] from "Save user message" on. *)
Definition exchange (now : Z) (elapsed : Q) (message_content : string)
  (conversation_id : Z) (db : DB) : result response * DB :=
  let '(user_message, db) :=
    add_message db now conversation_id message_content true None None None in
  let recent_messages :=
    firstn 6 (sort_desc timestamp
                (List.filter (fun m => Models.conversation_id m =? conversation_id)
                             (messages db))) in
  let history :=
    map (fun msg => (is_user msg, content msg))
        (rev (slice_to recent_messages (-1))) in
  let ai_response := chat_with_user message_content history in
  let confidence := (7 # 10)%Q in
  let '(ai_message, db) :=
    add_message db now conversation_id ai_response false
                (Some "huggingface") (Some confidence) (Some elapsed) in
  let db := touch_conversation db conversation_id now in
  (Ok (jsonify
         [("user_message",
           JObj [("id", JInt (msg_id user_message));
                 ("content", JStr (content user_message));
                 ("timestamp", JDate (timestamp user_message))]);
          ("ai_response",
           JObj [("id", JInt (msg_id ai_message));
                 ("content", JStr (content ai_message));
                 ("timestamp", JDate (timestamp ai_message));
                 ("confidence", JNum confidence);
                 ("processing_time", JNum elapsed)]);
          ("conversation_id", JInt conversation_id)] 200),
   db).

(** [conversation_id] when it is given and true: [None] and [0] are
    false. *)
Definition requested_conversation (data : chat_data) : option Z :=
  match ch_conversation_id data with
  | Some conversation_id =>
      if conversation_id =? 0 then None else Some conversation_id
  | None => None
  end.

Definition send_chat_message_body (now : Z) (elapsed : Q) (user_id : Z)
  (payload : option chat_data) : View DB :=
  fun db =>
    match payload with
    | None =>
        (Raise (AttributeError "'NoneType' object has no attribute 'get'"), db)
    | Some data =>
        let message_content := strip (default "" (ch_message data)) in
        if negb (truthy message_content)
        then (Ok (jsonify [("error", JStr "Message cannot be empty")] 400), db)
        else
          let title_ :=
            if 50 <? len message_content
            then take 50 message_content +:+ "..."
            else message_content in
          match requested_conversation data with
          | None =>
              let '(conversation, db) :=
                create_conversation db now user_id title_ in
              exchange now elapsed message_content (conv_id conversation) db
          | Some conversation_id =>
              match find_conversation db conversation_id user_id with
              | None => (Ok not_found_404, db)
              | Some _ =>
                  exchange now elapsed message_content conversation_id db
              end
          end
    end.

(** [POST /api/chat/send] *)
Definition send_chat_message_view (now : Z) (elapsed : Q)
  (identity : option Z) (payload : option chat_data) : View DB :=
  jwt_required identity (fun user_id =>
    view send_chat_message (send_chat_message_body now elapsed user_id payload)).

End Handlers.

End App.

(* ===================================================================== *)
(** * backend/app.py and backend/payment_service.py *)
(* ===================================================================== *)

Module BackendApp.

Import Flask.

Inductive route : Type :=
| health_check | signup | login | generate_materials | get_user_materials
| create_payment | track_analytics | get_profile
| initialize_paystack_payment | handle_paystack_webhook
| verify_paystack_payment.

(** The [except Exception] clause of every route that has one. *)
Definition on_exception (r : route) (e : exn) : option response :=
  let failed msg :=
    Some (jsonify [("success", JBool false); ("message", JStr msg)] 500) in
  match r with
  | health_check => None
  | signup => failed "Registration failed"
  | login => failed "Login failed"
  | generate_materials => failed "Generation failed"
  | get_user_materials => failed "Failed to load materials"
  | create_payment => failed "Payment failed"
  | track_analytics => Some (jsonify [("success", JBool false)] 500)
  | get_profile => failed "Failed to get profile"
  | initialize_paystack_payment | verify_paystack_payment =>
      Some (jsonify [("success", JBool false);
                     ("error", JStr (str_of_exn e))] 500)
  | handle_paystack_webhook =>
      Some {| body := Plain "Webhook processing failed"; status := 500 |}
  end.

Definition view {St} (r : route) (try_body : View St) : View St :=
  fun st =>
    let '(res, st) := try_body st in
    (match res with
     | Ok resp => Ok resp
     | Raise e =>
         match on_exception r e with
         | Some resp => Ok resp
         | None => Raise e
         end
     end, st).

End BackendApp.

(* ===================================================================== *)
(** * The world of the effectful code *)
(* ===================================================================== *)

(** What a call of the Hugging Face inference API can answer. *)
Module Http.

(** The value under ['generated_text']: a string, or something else. *)
Inductive generated : Type :=
| GenText (s : string)
| GenOther.

(** An element of a JSON list: an object, with or without the key
    ['generated_text'], or a value that has no [get]. *)
Inductive item : Type :=
| ItemDict (g : option generated)
| ItemOther.

(** [response.json()]: a list, an object, or another value, of which the
    sources take [str(...)]. *)
Inductive json_result : Type :=
| HfList (items : list item)
| HfDict (g : option generated)
| HfOther (str : string).

(** [json] raises when the body is not JSON. *)
Record response := {
  status_code : Z;
  json : result json_result;
  text : string
}.

End Http.

(** The state the effectful code reads and writes: the random generator
    (the values it yields and how many were drawn), the network (what the
    successive [requests.post] get: a response, or an exception), the
    clock of [time.time()] in microseconds, [self.last_request_time], the
    depth the interpreter allows to recursive calls, and the wall clock
    (what the successive [datetime.now()] give, in microseconds, and how
    many were read). *)
Record World := {
  draws : nat -> nat;
  drawn : nat;
  answers : nat -> result Http.response;
  posted : nat;
  clock : Z;
  last_request_time : Z;
  recursion_limit : nat;
  datetimes : nat -> Z;
  datetime_reads : nat
}.

(** A computation in the world: it returns or raises, and leaves a
    world. *)
Definition M (A : Type) : Type := World -> result A * World.

Module Eff.

Definition ret {A} (a : A) : M A := fun w => (Ok a, w).

Definition bind {A B} (m : M A) (k : A -> M B) : M B :=
  fun w =>
    match m w with
    | (Ok a, w) => k a w
    | (Raise e, w) => (Raise e, w)
    end.

Definition raise {A} (e : exn) : M A := fun w => (Raise e, w).

Definition lift {A} (r : result A) : M A := fun w => (r, w).

(** [try: body  except Exception as e: handler] *)
Definition try_except {A} (body : M A) (handler : exn -> M A) : M A :=
  fun w =>
    match body w with
    | (Ok a, w) => (Ok a, w)
    | (Raise e, w) => handler e w
    end.

(** [for x in l: state = body(x, state)] *)
Fixpoint for_each {A S} (l : list A) (body : A -> S -> M S) (s : S) : M S :=
  match l with
  | [] => ret s
  | x :: r => bind (body x s) (for_each r body)
  end.

(** [random]'s [_randbelow(n)] *)
Definition randbelow (n : nat) : M nat :=
  fun w =>
    (Ok (draws w (drawn w) mod n)%nat,
     {| draws := draws w; drawn := S (drawn w); answers := answers w;
        posted := posted w; clock := clock w;
        last_request_time := last_request_time w;
        recursion_limit := recursion_limit w;
        datetimes := datetimes w; datetime_reads := datetime_reads w |}).

(** [requests.post(...)] *)
Definition post : M Http.response :=
  fun w =>
    (answers w (posted w),
     {| draws := draws w; drawn := drawn w; answers := answers w;
        posted := S (posted w); clock := clock w;
        last_request_time := last_request_time w;
        recursion_limit := recursion_limit w;
        datetimes := datetimes w; datetime_reads := datetime_reads w |}).

(** [time.sleep(d)] *)
Definition sleep (d : Z) : M unit :=
  fun w =>
    (Ok tt,
     {| draws := draws w; drawn := drawn w; answers := answers w;
        posted := posted w; clock := clock w + Z.max 0 d;
        last_request_time := last_request_time w;
        recursion_limit := recursion_limit w;
        datetimes := datetimes w; datetime_reads := datetime_reads w |}).

(** [self.last_request_time = time.time()] *)
Definition stamp_request : M unit :=
  fun w =>
    (Ok tt,
     {| draws := draws w; drawn := drawn w; answers := answers w;
        posted := posted w; clock := clock w;
        last_request_time := clock w;
        recursion_limit := recursion_limit w;
        datetimes := datetimes w; datetime_reads := datetime_reads w |}).

(** [datetime.now()]: the next reading of the wall clock. *)
Definition datetime_now : M Z :=
  fun w =>
    (Ok (datetimes w (datetime_reads w)),
     {| draws := draws w; drawn := drawn w; answers := answers w;
        posted := posted w; clock := clock w;
        last_request_time := last_request_time w;
        recursion_limit := recursion_limit w;
        datetimes := datetimes w; datetime_reads := S (datetime_reads w) |}).

Definition get {A} (f : World -> A) : M A := fun w => (Ok (f w), w).

(** A computation that neither reads nor writes the world. *)
Definition pure {A} (m : M A) : Prop := exists r, forall w, m w = (r, w).

(** A computation that does not raise. *)
Definition total {A} (m : M A) : Prop := forall w, exists a w', m w = (Ok a, w').

End Eff.

#[export] Instance M_ret : MRet M := @Eff.ret.
#[export] Instance M_bind : MBind M := fun A B k m => Eff.bind m k.

(* ===================================================================== *)
(** * backend/ai_service.py *)
(* ===================================================================== *)

(** What the sources read of a document parsed by spaCy: the entities
    (text and label), the noun chunks, the tokens (text and part of
    speech). *)
Record spacy_doc := {
  ents : list (string * string);
  noun_chunks : list string;
  doc_tokens : list (string * string)
}.

(** A flashcard as [AIService] produces it: ['question'], ['answer']. *)
Record card := { c_question : string; c_answer : string }.

(** A quiz question as [AIService] produces it.  A key can be missing,
    [validate_questions] checks that. *)
Record quiz := {
  q_question : option string;
  q_options : option (list string);
  q_correct_answer : option Z
}.

Module AI.

Import Text.

(** The fields of an [AIService] that its methods only read.
    [os.getenv] gives the key as a string: the variable's value, or the
    placeholder when the variable is not set. *)
Record AIService := {
  huggingface_api_key : string;
  nlp : option (string -> result spacy_doc);
  stop_words : list string
}.

Definition placeholder_key : string := "hf_your_api_key_here".

(** [self.huggingface_api_key and self.huggingface_api_key != '...'] *)
Definition key_configured (self : AIService) : bool :=
  (truthy (huggingface_api_key self)
   && negb (String.eqb (huggingface_api_key self) placeholder_key))%bool.

Definition known_difficulty (difficulty : string) : Prop :=
  difficulty = "beginner" \/ difficulty = "intermediate"
  \/ difficulty = "advanced".

(** [self.name] for a method that the class does not define, in
    backend/ai_service.py or elsewhere: the lookup raises. *)
Definition missing_attribute {A} (name : string) : result A :=
  Raise (AttributeError ("'AIService' object has no attribute '" +:+ name +:+ "'")).

(** A question generator: [generator(concept, topic, content, info)]; the
    last argument is the value of [extract_factual_information], left
    out. *)
Definition generator : Type := string -> string -> string -> M (option quiz).

(** The methods that [AIService] calls and that the class does not
    define, as the attribute lookups [self.name] that they are. *)
Definition create_question_from_sentence
  : result (string -> string -> string -> M (string * string)) :=
  missing_attribute "create_question_from_sentence".
Definition create_question_from_sentence_analysis : result generator :=
  missing_attribute "create_question_from_sentence_analysis".
Definition extract_definition : result (string -> string -> M string) :=
  missing_attribute "extract_definition".
Definition create_identification_question : result generator :=
  missing_attribute "create_identification_question".
Definition create_true_false_question : result generator :=
  missing_attribute "create_true_false_question".
Definition create_cause_effect_question : result generator :=
  missing_attribute "create_cause_effect_question".
Definition create_analysis_question : result generator :=
  missing_attribute "create_analysis_question".
Definition create_synthesis_question : result generator :=
  missing_attribute "create_synthesis_question".
Definition create_evaluation_question : result generator :=
  missing_attribute "create_evaluation_question".

(** [HAS_NLTK] is read in backend/ai_service.py and bound nowhere in it
    (utils.py binds a name of its own): reading it raises. *)
Definition HAS_NLTK : result bool :=
  Raise (NameError "name 'HAS_NLTK' is not defined").

Section WithLibraries.
Context {nltk : Nltk}.

(** ** Preprocessing *)

(** The characters that the second [re.sub] of [preprocess_content]
    leaves: word characters, blanks, the punctuation . , ! ? ; : ( ) -
    and the two quotes (codes 39 and 34). *)
Definition kept_char (c : ascii) : bool :=
  (is_word c || is_space c
   || existsb (Nat.eqb (code c)) [46; 44; 33; 63; 59; 58; 40; 41; 45; 39; 34]%nat)%bool.

Definition max_length : Z := 1500.

(** [for sentence in sentences: if len(content + sentence) <= max_length:
    content += sentence + " " else: break] *)
Fixpoint pack_sentences (sentences : list string) (content : string) : string :=
  match sentences with
  | [] => content
  | sentence :: rest =>
      if len (content +:+ sentence) <=? max_length
      then pack_sentences rest (content +:+ sentence +:+ " ")
      else content
  end.

Definition preprocess_content (content : string) : result string :=
  if negb (truthy content) then Ok ""
  else
    let content := collapse_ws (strip content) in
    let content := keep_only kept_char content in
    content ←
      (if max_length <? len content
       then
         has_nltk ← HAS_NLTK;
         let sentences :=
           if has_nltk : bool
           then match sent_tokenize content with
                | Ok sentences => sentences
                | Raise _ => split_on content "."
                end
           else split_on content "." in
         Ok (pack_sentences sentences "")
       else Ok content);
    Ok (strip content).

(** ** Key concepts *)

(** A run of word characters that [\b[A-Z][a-z]+\b] matches. *)
Definition capitalized_word (w : string) : bool :=
  match chars w with
  | c :: ((_ :: _) as r) => (is_upper_az c && forallb is_lower_az r)%bool
  | _ => false
  end.

(** A run of word characters that [\b[a-z]{6,}\b] matches. *)
Definition long_word (w : string) : bool :=
  (forallb is_lower_az (chars w) && (6 <=? len w))%bool.

Definition extract_concepts_simple (self : AIService) (content : string)
  : list string :=
  let capitalized := List.filter capitalized_word (word_runs content) in
  let long_words := List.filter long_word (word_runs content) in
  let all_words := capitalized ++ long_words in
  let filtered_words :=
    List.filter (fun word => (negb (mem (lower word) (stop_words self))
                              && (3 <? len word))%bool) all_words in
  let unique_words := unique filtered_words in
  firstn 15 unique_words.

(** [Counter(l).most_common(n)]: the distinct elements in the order of
    their first occurrence, sorted by decreasing count, the first [n]. *)
Definition most_common (n : nat) (l : list string) : list string :=
  firstn n
    (sort_desc (fun x => Z.of_nat (List.length (List.filter (String.eqb x) l)))
               (unique l)).

Definition extract_concepts_nltk (self : AIService) (content : string)
  : result (list string) :=
  has_nltk ← HAS_NLTK;
  if negb has_nltk then Ok (extract_concepts_simple self content)
  else
    match tokens ← word_tokenize (lower content); pos_tag tokens with
    | Ok tagged =>
        let concepts :=
          map fst
            (List.filter
               (fun wp : string * string =>
                  (mem (snd wp) ["NN"; "NNS"; "NNP"; "NNPS"]
                   && negb (mem (fst wp) (stop_words self))
                   && (3 <? len (fst wp))
                   && isalpha (fst wp))%bool) tagged) in
        Ok (most_common 20 concepts)
    | Raise _ => Ok (extract_concepts_simple self content)
    end.

Definition spacy_concepts (self : AIService) (doc : spacy_doc) : list string :=
  let entities :=
    map fst
      (List.filter
         (fun ent : string * string =>
            mem (snd ent)
              ["PERSON"; "ORG"; "EVENT"; "LAW"; "LANGUAGE"; "NORP"; "PRODUCT"])
         (ents doc)) in
  let phrases :=
    List.filter
      (fun chunk =>
         let n := Z.of_nat (List.length (split_ws chunk)) in
         (2 <=? n) && (n <=? 4)) (noun_chunks doc) in
  let nouns :=
    map fst
      (List.filter
         (fun token : string * string =>
            (mem (snd token) ["NOUN"; "PROPN"]
             && (3 <? len (fst token))
             && negb (mem (lower (fst token)) (stop_words self)))%bool)
         (doc_tokens doc)) in
  firstn 25 (unique (entities ++ phrases ++ nouns)).

(** The [try] of [extract_key_concepts] catches what the parser and
    [extract_concepts_nltk] raise. *)
Definition extract_key_concepts (self : AIService) (content : string)
  : list string :=
  if negb (truthy content) then []
  else
    match
      match nlp self with
      | Some parse => doc ← parse content; Ok (spacy_concepts self doc)
      | None => extract_concepts_nltk self content
      end
    with
    | Ok concepts => concepts
    | Raise _ => extract_concepts_simple self content
    end.

(** [extract_factual_information] builds a dictionary and reaches its end
    without a [return]: its value is [None], whatever the content.  It is
    the fourth argument of every question generator, left out below. *)
Definition extract_factual_information (content : string) : option unit := None.

(** ** Answers, ranking, validation *)

Definition generate_contextual_answer (concept topic content difficulty : string)
  : result string :=
  sentences ← sent_tokenize content;
  let relevant_sentences :=
    List.filter (fun s => contains (lower concept) (lower s)) sentences in
  match relevant_sentences with
  | first :: others =>
      let base_sentence := max_by len first others in
      if String.eqb difficulty "beginner"
      then Ok (concept +:+ " refers to " +:+ lower base_sentence)
      else if String.eqb difficulty "intermediate"
      then Ok (concept +:+ " is an important aspect of " +:+ topic +:+ ". "
               +:+ base_sentence
               +:+ " This concept helps in understanding the broader principles of "
               +:+ topic +:+ ".")
      else Ok (concept +:+ " represents a complex element within " +:+ topic
               +:+ ". " +:+ base_sentence +:+ " Understanding " +:+ concept
               +:+ " is crucial for mastering advanced applications and theoretical frameworks in "
               +:+ topic +:+ ".")
  | [] =>
      Ok (concept +:+ " is a key concept in " +:+ topic
          +:+ " that plays an important role in understanding the fundamental principles and applications within this field.")
  end.

Definition indicators : list string :=
  ["because"; "therefore"; "however"; "important"; "significant"; "main";
   "primary"].

Definition sentence_score (topic sentence : string) : Z :=
  let score := 0 in
  let length := Z.of_nat (List.length (split_ws sentence)) in
  let score :=
    if (10 <=? length) && (length <=? 25) then score + 2
    else if (8 <=? length) && (length <=? 30) then score + 1
    else score in
  let score := if contains (lower topic) (lower sentence) then score + 3 else score in
  let score := if has_digit sentence then score + 1 else score in
  fold_left
    (fun score indicator =>
       if contains indicator (lower sentence) then score + 1 else score)
    indicators score.

Definition rank_sentences_by_importance (sentences : list string)
  (topic : string) : list string :=
  map fst
    (sort_desc snd
       (map (fun sentence => (sentence, sentence_score topic sentence))
            sentences)).

Definition enhance_answer_quality (answer difficulty : string) : string :=
  if String.eqb difficulty "beginner"
  then if 100 <? len answer then take 100 answer +:+ "..." else answer
  else if String.eqb difficulty "advanced"
  then if len answer <? 50
       then answer +:+ " This concept involves multiple interconnected elements that require deeper understanding and analysis."
       else answer
  else answer.

Fixpoint validate_flashcards (flashcards : list card) (difficulty : string)
  : list card :=
  match flashcards with
  | [] => []
  | card :: rest =>
      let validated := validate_flashcards rest difficulty in
      if (negb (truthy (c_question card)) || negb (truthy (c_answer card)))%bool
      then validated
      else
        let question := strip (c_question card) in
        let answer := strip (c_answer card) in
        if (len question <? 10) || (len answer <? 15) then validated
        else if String.eqb (lower question) (lower answer) then validated
        else
          let question :=
            if endswith question "?" then question else question +:+ "?" in
          let answer := enhance_answer_quality answer difficulty in
          {| c_question := question; c_answer := answer |} :: validated
  end.

Fixpoint validate_questions (questions : list quiz) (difficulty : string)
  : list quiz :=
  match questions with
  | [] => []
  | question :: rest =>
      let validated := validate_questions rest difficulty in
      match q_question question, q_options question, q_correct_answer question with
      | Some text_, Some options, Some correct =>
          if negb (Z.of_nat (List.length options) =? 4) then validated
          else if negb ((0 <=? correct) && (correct <? 4)) then validated
          else
            let question_text := strip text_ in
            let options := map strip options in
            if len question_text <? 10 then validated
            else if existsb (fun opt => len opt <? 3) options then validated
            else
              let question_text :=
                if endswith question_text "?" then question_text
                else question_text +:+ "?" in
              {| q_question := Some question_text; q_options := Some options;
                 q_correct_answer := Some correct |} :: validated
      | _, _, _ => validated
      end
  end.

(** ** The Hugging Face path *)

(** [self.rate_limit_delay], two seconds. *)
Definition rate_limit_delay : Z := 2000000.

Definition rate_limit_check : M unit :=
  current_time ← Eff.get clock;
  last ← Eff.get last_request_time;
  _ ← (if current_time - last <? rate_limit_delay
       then Eff.sleep (rate_limit_delay - (current_time - last))
       else Eff.ret tt);
  Eff.stamp_request.

Definition flashcard_instructions (difficulty : string) : result string :=
  if String.eqb difficulty "beginner"
  then Ok "Focus on basic definitions and simple concepts. Use clear, simple language."
  else if String.eqb difficulty "intermediate"
  then Ok "Include both definitions and applications. Mix conceptual and practical questions."
  else if String.eqb difficulty "advanced"
  then Ok "Focus on complex relationships, analysis, and synthesis. Include challenging scenarios."
  else Raise (KeyError difficulty).

Definition build_flashcard_prompt (content topic difficulty : string)
  (count : Z) : result string :=
  instructions ← flashcard_instructions difficulty;
  Ok (concat
        [nl; "Task: Create "; str_of_Z count;
         " educational flashcards about "; topic; "."; nl; nl;
         "Content to study: "; content; nl; nl;
         "Instructions:"; nl;
         "- "; instructions; nl;
         "- Each flashcard should test understanding, not just memorization"; nl;
         "- Questions should be clear and unambiguous"; nl;
         "- Answers should be comprehensive but concise"; nl;
         "- Cover different aspects of the topic"; nl; nl;
         "Format:"; nl; "Q: [question]"; nl; "A: [answer]"; nl; "---"; nl; nl;
         "Generate "; str_of_Z count; " flashcards now:"; nl]).

Definition question_instructions (difficulty : string) : result string :=
  if String.eqb difficulty "beginner"
  then Ok "Simple multiple choice questions testing basic recall and understanding."
  else if String.eqb difficulty "intermediate"
  then Ok "Questions requiring application and analysis of concepts."
  else if String.eqb difficulty "advanced"
  then Ok "Complex questions involving synthesis, evaluation, and critical thinking."
  else Raise (KeyError difficulty).

Definition build_question_prompt (content topic difficulty : string)
  (count : Z) : result string :=
  instructions ← question_instructions difficulty;
  Ok (concat
        [nl; "Task: Create "; str_of_Z count;
         " multiple choice questions about "; topic; "."; nl; nl;
         "Content: "; content; nl; nl;
         "Requirements:"; nl;
         "- "; instructions; nl;
         "- Each question has exactly 4 options (A, B, C, D)"; nl;
         "- Only one correct answer per question"; nl;
         "- Distractors should be plausible but clearly wrong"; nl;
         "- Questions should test understanding, not just memorization"; nl; nl;
         "Format:"; nl; "Q: [question]"; nl; "A) [option 1]"; nl;
         "B) [option 2]"; nl; "C) [option 3]"; nl; "D) [option 4]"; nl;
         "Correct: [A/B/C/D]"; nl; "---"; nl; nl;
         "Generate "; str_of_Z count; " questions now:"; nl]).

Inductive section : Type := NoSection | InQuestion | InAnswer.

(** The loop over the lines of one card. *)
Definition card_line (st : string * string * section) (line : string)
  : string * string * section :=
  let '(question, answer, current_section) := st in
  let line := strip line in
  if startswith line "Q:" then (strip (drop 2 line), answer, InQuestion)
  else if startswith line "A:" then (question, strip (drop 2 line), InAnswer)
  else
    match current_section with
    | InQuestion =>
        if truthy line then (question +:+ " " +:+ line, answer, current_section)
        else st
    | InAnswer =>
        if truthy line then (question, answer +:+ " " +:+ line, current_section)
        else st
    | NoSection => st
    end.

Definition parse_card (card_text : string) : list card :=
  let card_text := strip card_text in
  if negb (truthy card_text) then []
  else
    let lines := split_on card_text nl in
    let '(question, answer, _) := fold_left card_line lines ("", "", NoSection) in
    if (truthy question && truthy answer && (5 <? len question)
        && (10 <? len answer))%bool
    then [{| c_question := strip question; c_answer := strip answer |}]
    else [].

(** [parse_flashcards_response]: a response text that is not a string has
    no [split], the method then returns the empty list. *)
Definition parse_flashcards_response (response_text : Http.generated)
  : list card :=
  match response_text with
  | Http.GenText response_text =>
      flat_map parse_card (split_on response_text "---")
  | Http.GenOther => []
  end.

(** [ord(correct_letter.upper()) - ord('A')]: [ord] wants one character,
    and the upper case of the sharp s is two. *)
Definition letter_index (correct_letter : string) : result Z :=
  match chars correct_letter with
  | [c] =>
      if Nat.eqb (code c) 223
      then Raise (TypeError "ord() expected a character")
      else Ok (upper_code c - 65)
  | _ => Raise (TypeError "ord() expected a character")
  end.

(** The loop over the lines of one question. *)
Definition option_line (st : list string * Z) (line : string)
  : result (list string * Z) :=
  let '(options, correct_answer) := st in
  if (startswith line "A)" || startswith line "B)" || startswith line "C)"
      || startswith line "D)")%bool
  then Ok (options ++ [strip (drop 2 line)], correct_answer)
  else if startswith line "Correct:"
  then
    part ← index (split_on line ":") 1;
    correct_answer ← letter_index (strip part);
    Ok (options, correct_answer)
  else Ok st.

Fixpoint fold_result {A B} (f : B -> A -> result B) (l : list A) (b : B)
  : result B :=
  match l with
  | [] => Ok b
  | x :: r => b ← f b x; fold_result f r b
  end.

Definition parse_question (question_text : string) : result (list quiz) :=
  let question_text := strip question_text in
  if negb (truthy question_text) then Ok []
  else
    let lines := List.filter truthy (map strip (split_on question_text nl)) in
    if Z.of_nat (List.length lines) <? 6 then Ok []
    else
      match find (fun line => startswith line "Q:") lines with
      | None => Ok []
      | Some question_line =>
          let question := strip (drop 2 question_line) in
          '(options, correct_answer) ← fold_result option_line lines ([], 0);
          if ((Z.of_nat (List.length options) =? 4) && (0 <=? correct_answer)
              && (correct_answer <? 4) && truthy question)%bool
          then Ok [{| q_question := Some question; q_options := Some options;
                      q_correct_answer := Some correct_answer |}]
          else Ok []
      end.

Definition parse_questions_response (response_text : Http.generated)
  : list quiz :=
  match response_text with
  | Http.GenText response_text =>
      match fold_result (fun questions question_text =>
                           parsed ← parse_question question_text;
                           Ok (questions ++ parsed))
                        (split_on response_text "---") [] with
      | Ok questions => questions
      | Raise _ => []
      end
  | Http.GenOther => []
  end.

(** The text the sources take from [response.json()]. *)
Definition generated_text (result_ : Http.json_result) : result Http.generated :=
  match result_ with
  | Http.HfList (Http.ItemDict g :: _) => Ok (default (Http.GenText "") g)
  | Http.HfList (Http.ItemOther :: _) =>
      Raise (AttributeError "object has no attribute 'get'")
  | Http.HfList [] => Ok (Http.GenText "[]")
  | Http.HfDict g => Ok (default (Http.GenText "") g)
  | Http.HfOther str => Ok (Http.GenText str)
  end.

(** One call of the API and what the sources make of the answer; [retry]
    is the recursive call on status 503. *)
Definition huggingface_call {A} (prompt : result string)
  (parse : Http.generated -> list A) (retry : M (list A)) : M (list A) :=
  _ ← rate_limit_check;
  _ ← Eff.lift prompt;
  response ← Eff.post;
  if Http.status_code response =? 200
  then
    result_ ← Eff.lift (Http.json response);
    text_ ← Eff.lift (generated_text result_);
    match parse text_ with
    | [] => Eff.raise (PlainException "Failed to parse AI response")
    | parsed => Eff.ret parsed
    end
  else if Http.status_code response =? 503
  then _ ← Eff.sleep 10000000; retry
  else Eff.raise (PlainException
                    ("API returned status " +:+ str_of_Z (Http.status_code response))).

(** [depth] is the number of calls the interpreter still allows: past it
    a call raises [RecursionError]. *)
Fixpoint generate_flashcards_huggingface (depth : nat)
  (content topic difficulty : string) (count : Z) : M (list card) :=
  match depth with
  | O => Eff.raise RecursionError
  | S depth =>
      huggingface_call (build_flashcard_prompt content topic difficulty count)
        parse_flashcards_response
        (generate_flashcards_huggingface depth content topic difficulty count)
  end.

Fixpoint generate_questions_huggingface (depth : nat)
  (content topic difficulty : string) (count : Z) : M (list quiz) :=
  match depth with
  | O => Eff.raise RecursionError
  | S depth =>
      huggingface_call (build_question_prompt content topic difficulty count)
        parse_questions_response
        (generate_questions_huggingface depth content topic difficulty count)
  end.

(** ** The fallback generators *)

(** [templates[difficulty]] of [generate_flashcards_fallback]; a template
    is the function that [template.format(concept=..., topic=...)]
    computes. *)
Definition flashcard_templates (difficulty : string)
  : result (list (string -> string -> string)) :=
  if String.eqb difficulty "beginner"
  then Ok [ (fun concept topic => "What is " +:+ concept +:+ "?");
            (fun concept topic => "Define " +:+ concept +:+ ".");
            (fun concept topic => "What does " +:+ concept
                                  +:+ " mean in the context of " +:+ topic +:+ "?");
            (fun concept topic => "Explain " +:+ concept +:+ " in simple terms.");
            (fun concept topic => "What is the purpose of " +:+ concept +:+ "?") ]
  else if String.eqb difficulty "intermediate"
  then Ok [ (fun concept topic => "How does " +:+ concept +:+ " relate to "
                                  +:+ topic +:+ "?");
            (fun concept topic => "What are the key features of " +:+ concept +:+ "?");
            (fun concept topic => "Why is " +:+ concept +:+ " important in "
                                  +:+ topic +:+ "?");
            (fun concept topic => "What are the main components of " +:+ concept +:+ "?");
            (fun concept topic => "How would you explain " +:+ concept
                                  +:+ " to someone learning " +:+ topic +:+ "?") ]
  else if String.eqb difficulty "advanced"
  then Ok [ (fun concept topic => "Analyze the relationship between " +:+ concept
                                  +:+ " and other elements in " +:+ topic +:+ ".");
            (fun concept topic => "Evaluate the significance of " +:+ concept
                                  +:+ " in the broader context of " +:+ topic +:+ ".");
            (fun concept topic => "What are the implications of " +:+ concept
                                  +:+ " for understanding " +:+ topic +:+ "?");
            (fun concept topic => "How might " +:+ concept
                                  +:+ " be applied in real-world scenarios related to "
                                  +:+ topic +:+ "?");
            (fun concept topic => "Compare and contrast " +:+ concept
                                  +:+ " with related concepts in " +:+ topic +:+ ".") ]
  else Raise (KeyError difficulty).

(** The first loop of [generate_flashcards_fallback], at the index [i],
    over the concepts that are left. *)
Fixpoint concept_cards (content topic difficulty : string) (i : Z)
  (concepts used_concepts : list string) (flashcards : list card)
  : result (list card) :=
  match concepts with
  | [] => Ok flashcards
  | concept :: rest =>
      if mem concept used_concepts
      then concept_cards content topic difficulty (i + 1) rest used_concepts
                         flashcards
      else
        templates ← flashcard_templates difficulty;
        template ← index templates (i mod Z.of_nat (List.length templates));
        let question := template concept topic in
        answer ← generate_contextual_answer concept topic content difficulty;
        concept_cards content topic difficulty (i + 1) rest
                      (concept :: used_concepts)
                      (flashcards ++ [{| c_question := question; c_answer := answer |}])
  end.

(** The body of the second loop, at the index [i]. *)
Definition sentence_card (key_concepts important_sentences : list string)
  (topic difficulty : string) (i : Z) (flashcards : list card) : M (list card) :=
  if i - Z.of_nat (List.length key_concepts)
     <? Z.of_nat (List.length important_sentences)
  then
    sentence ← Eff.lift (index important_sentences
                               (i - Z.of_nat (List.length key_concepts)));
    method ← Eff.lift create_question_from_sentence;
    qa ← method sentence topic difficulty;
    if (truthy (fst qa) && truthy (snd qa))%bool
    then Eff.ret (flashcards ++ [{| c_question := fst qa; c_answer := snd qa |}])
    else Eff.ret flashcards
  else Eff.ret flashcards.

Definition generate_flashcards_fallback (self : AIService)
  (content topic difficulty : string) (count : Z)
  (key_concepts : option (list string)) : M (list card) :=
  let key_concepts :=
    match key_concepts with
    | Some ((_ :: _) as given) => given
    | _ => extract_key_concepts self content
    end in
  flashcards ←
    Eff.lift
      (concept_cards content topic difficulty 0
         (firstn (Z.to_nat (Z.min count (Z.of_nat (List.length key_concepts))))
                 key_concepts)
         [] []);
  sentences ← Eff.lift (sent_tokenize content);
  let important_sentences := rank_sentences_by_importance sentences topic in
  Eff.for_each (range (Z.of_nat (List.length flashcards)) count)
    (sentence_card key_concepts important_sentences topic difficulty)
    flashcards.

(** [x[i], x[j] = x[j], x[i]] *)
Definition swap (i j : nat) (x : list string) : list string :=
  match x !! i, x !! j with
  | Some a, Some b => <[j := a]> (<[i := b]> x)
  | _, _ => x
  end.

(** [random.shuffle(x)]: [for i in reversed(range(1, len(x))): j =
    randbelow(i + 1); x[i], x[j] = x[j], x[i]], from the index [i] down. *)
Fixpoint shuffle_from (i : nat) (x : list string) : M (list string) :=
  match i with
  | O => Eff.ret x
  | S below =>
      j ← Eff.randbelow (S i);
      shuffle_from below (swap i j x)
  end.

Definition shuffle (x : list string) : M (list string) :=
  shuffle_from (List.length x - 1) x.

(** [l.index(x)] for an [x] that is in [l]. *)
Fixpoint index_of (x : string) (l : list string) : Z :=
  match l with
  | [] => 0
  | y :: r => if String.eqb y x then 0 else 1 + index_of x r
  end.

Definition create_definition_question (concept topic content : string)
  : M (option quiz) :=
  let question :=
    "What is " +:+ concept +:+ " in the context of " +:+ topic +:+ "?" in
  method ← Eff.lift extract_definition;
  correct_answer ← method concept content;
  let distractors :=
    [ "A method used primarily in other fields";
      "An outdated concept no longer relevant to " +:+ topic;
      "A complex theory that applies only to advanced " +:+ topic ] in
  let options := [correct_answer] ++ firstn 3 distractors in
  options ← shuffle options;
  let correct_index := index_of correct_answer options in
  Eff.ret (Some {| q_question := Some question; q_options := Some options;
                   q_correct_answer := Some correct_index |}).

Definition create_application_question (concept topic content : string)
  : M (option quiz) :=
  let question :=
    "How would " +:+ concept +:+ " be applied in a practical " +:+ topic
    +:+ " scenario?" in
  let scenarios :=
    [ "When implementing " +:+ concept +:+ " in real-world " +:+ topic
      +:+ " applications";
      "In theoretical discussions about " +:+ topic;
      "Only in academic research about " +:+ topic;
      "Never, as " +:+ concept +:+ " is purely theoretical" ] in
  Eff.ret (Some {| q_question := Some question; q_options := Some scenarios;
                   q_correct_answer := Some 0 |}).

Definition create_comparison_question (concept topic content : string)
  : M (option quiz) :=
  let question :=
    "How does " +:+ concept +:+ " compare to other elements in " +:+ topic
    +:+ "?" in
  let options :=
    [ concept +:+ " provides unique advantages in " +:+ topic +:+ " applications";
      concept +:+ " is identical to all other " +:+ topic +:+ " concepts";
      concept +:+ " is less important than any other " +:+ topic +:+ " element";
      concept +:+ " has no relationship to other " +:+ topic +:+ " concepts" ] in
  Eff.ret (Some {| q_question := Some question; q_options := Some options;
                   q_correct_answer := Some 0 |}).

(** The dictionary [templates] of [generate_questions_fallback]: its
    display looks the nine methods up, in this order, when it is
    evaluated. *)
Definition question_templates : result (list (string * list generator)) :=
  definition ← Ok create_definition_question;
  identification ← create_identification_question;
  true_false ← create_true_false_question;
  application ← Ok create_application_question;
  comparison ← Ok create_comparison_question;
  cause_effect ← create_cause_effect_question;
  analysis ← create_analysis_question;
  synthesis ← create_synthesis_question;
  evaluation ← create_evaluation_question;
  Ok [("beginner", [definition; identification; true_false]);
      ("intermediate", [application; comparison; cause_effect]);
      ("advanced", [analysis; synthesis; evaluation])].

(** [templates[difficulty]] *)
Definition question_generators (difficulty : string) : result (list generator) :=
  templates ← question_templates;
  match find (fun entry => String.eqb (fst entry) difficulty) templates with
  | Some entry => Ok (snd entry)
  | None => Raise (KeyError difficulty)
  end.

(** The body of the loop of [generate_questions_fallback], at the index
    [i]. *)
Definition fallback_question (generators : list generator)
  (key_concepts sentences : list string) (content topic difficulty : string)
  (i : Z) (questions : list quiz) : M (list quiz) :=
  generator ← Eff.lift (index generators (i mod Z.of_nat (List.length generators)));
  question_data ←
    (if i <? Z.of_nat (List.length key_concepts)
     then
       concept ← Eff.lift (index key_concepts i);
       generator concept topic content
     else if i <? Z.of_nat (List.length sentences)
     then
       sentence ← Eff.lift (index sentences (i mod Z.of_nat (List.length sentences)));
       method ← Eff.lift create_question_from_sentence_analysis;
       method sentence topic difficulty
     else generator topic topic content);
  match question_data with
  | Some question => Eff.ret (questions ++ [question])
  | None => Eff.ret questions
  end.

Definition generate_questions_fallback (self : AIService)
  (content topic difficulty : string) (count : Z) : M (list quiz) :=
  let key_concepts := extract_key_concepts self content in
  sentences ← Eff.lift (sent_tokenize content);
  let important_info := extract_factual_information content in
  generators ← Eff.lift (question_generators difficulty);
  Eff.for_each (range 0 count)
    (fallback_question generators key_concepts sentences content topic difficulty)
    [].

(** ** The two entry points *)

Definition generate_flashcards (self : AIService)
  (content topic difficulty : string) (count : Z) : M (list card) :=
  Eff.try_except
    (processed_content ← Eff.lift (preprocess_content content);
     let key_concepts := extract_key_concepts self processed_content in
     flashcards ←
       (if key_configured self
        then
          depth ← Eff.get recursion_limit;
          generate_flashcards_huggingface depth processed_content topic
                                          difficulty count
        else
          generate_flashcards_fallback self processed_content topic difficulty
                                       count (Some key_concepts));
     let flashcards := validate_flashcards flashcards difficulty in
     Eff.ret (slice_to flashcards count))
    (fun e => generate_flashcards_fallback self content topic difficulty count None).

Definition generate_questions (self : AIService)
  (content topic difficulty : string) (count : Z) : M (list quiz) :=
  Eff.try_except
    (processed_content ← Eff.lift (preprocess_content content);
     questions ←
       (if key_configured self
        then
          depth ← Eff.get recursion_limit;
          generate_questions_huggingface depth processed_content topic
                                         difficulty count
        else
          generate_questions_fallback self processed_content topic difficulty
                                      count);
     let questions := validate_questions questions difficulty in
     Eff.ret (slice_to questions count))
    (fun e => generate_questions_fallback self content topic difficulty count).

End WithLibraries.

End AI.

(* ===================================================================== *)
(** * ai_service.py *)
(* ===================================================================== *)

(** The question-answering pipeline of [transformers]: loading it can
    fail, and so can a call; a call gives the answer and its score. *)
Class QaPipeline : Type := {
  get_qa_pipeline : result (string -> string -> result (string * Q))
}.

Module DynAI.

Import Text.

(** A flashcard of [generate_dynamic_flashcards].  The [id] is
    [f"fc_{datetime.now().timestamp()}_{random.randint(1000,9999)}"], kept
    as its two numbers; [created_at] comes from a second
    [datetime.now()]. *)
Record flashcard := {
  id_time : Z;
  id_number : Z;
  question : string;
  answer : string;
  confidence : Q;
  topic : string;
  created_at : Z;
  difficulty : string
}.

(** The function returns a list of flashcards, or the dictionary
    [{"error": ...}] of its outer [except]. *)
Inductive outcome : Type :=
| Flashcards (l : list flashcard)
| ErrorDict (message : string).

(** [question_templates]; a template is the function of what replaces
    [{topic}]. *)
Definition question_templates : list (list (string -> string)) :=
  [ [ (fun t => "What is " +:+ t +:+ "?");
      (fun t => "Define " +:+ t +:+ "?");
      (fun t => "Explain " +:+ t +:+ " in simple terms") ];
    [ (fun t => "What are the main components of " +:+ t +:+ "?");
      (fun t => "What elements make up " +:+ t +:+ "?");
      (fun t => "List the key parts of " +:+ t) ];
    [ (fun t => "How does " +:+ t +:+ " work?");
      (fun t => "Explain the process of " +:+ t);
      (fun t => "Describe how " +:+ t +:+ " functions") ];
    [ (fun t => "Give an example of " +:+ t);
      (fun t => "Where do we see " +:+ t +:+ " in real life?");
      (fun t => "How is " +:+ t +:+ " used?") ];
    [ (fun t => "What are the benefits of " +:+ t +:+ "?");
      (fun t => "Why is " +:+ t +:+ " important?");
      (fun t => "What advantages does " +:+ t +:+ " provide?") ];
    [ (fun t => "What happens if " +:+ t +:+ " fails?");
      (fun t => "What are the consequences of " +:+ t +:+ "?");
      (fun t => "What problems does " +:+ t +:+ " solve?") ];
    [ (fun t => "Compare " +:+ t +:+ " with similar concepts");
      (fun t => "How is " +:+ t +:+ " different from alternatives?");
      (fun t => "What makes " +:+ t +:+ " unique?") ];
    [ (fun t => "What's the easiest way to remember " +:+ t +:+ "?");
      (fun t => "Create a mnemonic for " +:+ t);
      (fun t => "What's a simple way to explain " +:+ t +:+ "?") ] ].

(** The loop of [random.sample] on a population of at most 21 elements:
    [for i in range(k): j = randbelow(n - i); result[i] = pool[j];
    pool[j] = pool[n - i - 1]]. *)
Fixpoint sample_from {A} (k : nat) (pool : list A) (n : nat) : M (list A) :=
  match k with
  | O => Eff.ret []
  | S k =>
      j ← Eff.randbelow n;
      match pool !! j, pool !! (n - 1)%nat with
      | Some picked, Some last =>
          rest ← sample_from k (<[j := last]> pool) (n - 1);
          Eff.ret (picked :: rest)
      | _, _ => Eff.raise IndexError
      end
  end.

(** [random.sample(population, k)] for [len(population) <= 21] *)
Definition sample {A} (population : list A) (k : Z) : M (list A) :=
  if (0 <=? k) && (k <=? Z.of_nat (List.length population))
  then sample_from (Z.to_nat k) population (List.length population)
  else Eff.raise (ValueError "Sample larger than population or is negative").

(** [random.choice(seq)] *)
Definition choice {A} (seq : list A) : M A :=
  match seq with
  | [] => Eff.raise IndexError
  | _ => j ← Eff.randbelow (List.length seq); Eff.lift (index seq (Z.of_nat j))
  end.

(** [random.randint(a, b)] *)
Definition randint (a b : Z) : M Z :=
  j ← Eff.randbelow (Z.to_nat (b - a + 1)); Eff.ret (a + Z.of_nat j).

Section WithPipeline.
Context {pipeline : QaPipeline}.

(** The body of the loop over the selected template groups. *)
Definition dynamic_card (qa_model : string -> string -> result (string * Q))
  (content topic_ : string) (template_group : list (string -> string))
  (flashcards : list flashcard) : M (list flashcard) :=
  question_template ← choice template_group;
  let question_ :=
    if truthy topic_ then question_template topic_
    else question_template "this concept" in
  match qa_model question_ content with
  | Ok (answer_, score) =>
      id_now ← Eff.datetime_now;
      number ← randint 1000 9999;
      created ← Eff.datetime_now;
      Eff.ret (flashcards ++
               [{| id_time := id_now; id_number := number; question := question_;
                   answer := answer_; confidence := score; topic := topic_;
                   created_at := created;
                   difficulty := if Qlt_le_dec (1 # 2) score then "intermediate"
                                 else "beginner" |}])
  | Raise _ =>
      let fallback_answer :=
        "This relates to the key concepts in "
        +:+ (if truthy topic_ then topic_ else "the material") in
      id_now ← Eff.datetime_now;
      number ← randint 1000 9999;
      created ← Eff.datetime_now;
      Eff.ret (flashcards ++
               [{| id_time := id_now; id_number := number; question := question_;
                   answer := fallback_answer; confidence := 3 # 10;
                   topic := topic_; created_at := created;
                   difficulty := "beginner" |}])
  end.

Definition generate_dynamic_flashcards (content topic_ : string) (count : Z)
  : M outcome :=
  Eff.try_except
    (qa_model ← Eff.lift get_qa_pipeline;
     selected_templates ←
       sample question_templates
              (Z.min count (Z.of_nat (List.length question_templates)));
     flashcards ←
       Eff.for_each selected_templates (dynamic_card qa_model content topic_) [];
     Eff.ret (Flashcards flashcards))
    (fun e => Eff.ret (ErrorDict ("Flashcard generation failed: " +:+ str_of_exn e))).

End WithPipeline.

End DynAI.

(* ===================================================================== *)
(** * utils.py: files, syllables, cache *)
(* ===================================================================== *)

Module UtilsMore.

Import Text.

(** [filename.rsplit('.', 1)[1]] when there is a dot: the characters after
    the last dot, read from the end. *)
Fixpoint after_last_dot_rev (acc : list ascii) (reversed : list ascii)
  : option (list ascii) :=
  match reversed with
  | [] => None
  | c :: r =>
      if Nat.eqb (code c) 46 then Some acc
      else after_last_dot_rev (c :: acc) r
  end.

Definition after_last_dot (filename : string) : option string :=
  option_map text (after_last_dot_rev [] (rev (chars filename))).

Definition ALLOWED_EXTENSIONS : list string :=
  ["txt"; "pdf"; "doc"; "docx"; "md"; "rtf"].

Definition allowed_file (filename : string) : bool :=
  match after_last_dot filename with
  | Some extension => mem (lower extension) ALLOWED_EXTENSIONS
  | None => false
  end.

(** [file_types.get(extension, 'unknown')] *)
Definition file_types (extension : string) : string :=
  if String.eqb extension "pdf" then "pdf"
  else if String.eqb extension "doc" then "word"
  else if String.eqb extension "docx" then "word"
  else if String.eqb extension "txt" then "text"
  else if String.eqb extension "md" then "markdown"
  else if String.eqb extension "rtf" then "rtf"
  else "unknown".

Definition get_file_type (filename : string) : string :=
  if negb (truthy filename) then "unknown"
  else
    let extension :=
      match after_last_dot filename with
      | Some extension => lower extension
      | None => ""
      end in
    file_types extension.

(** The three extractors [process_uploaded_file] can hand the file to. *)
Inductive extractor : Type :=
| extract_text_from_pdf
| extract_text_from_word
| extract_text_from_text_file.

(** The choice [process_uploaded_file] makes before it reads the file; the
    [except] clause logs and raises the exception again. *)
Definition process_uploaded_file_choice (filepath : string) : result extractor :=
  let file_type := get_file_type filepath in
  if String.eqb file_type "pdf" then Ok extract_text_from_pdf
  else if String.eqb file_type "word" then Ok extract_text_from_word
  else if (String.eqb file_type "text" || String.eqb file_type "markdown")%bool
  then Ok extract_text_from_text_file
  else Raise (ValueError ("Unsupported file type: " +:+ file_type)).

Definition is_vowel (c : ascii) : bool :=
  existsb (Ascii.eqb c) (chars "aeiouy").

(** The loop of [count_syllables]: a vowel that does not follow a vowel
    starts a syllable. *)
Fixpoint count_groups (prev_was_vowel : bool) (word : list ascii) : Z :=
  match word with
  | [] => 0
  | char :: rest =>
      (if (is_vowel char && negb prev_was_vowel)%bool then 1 else 0)
      + count_groups (is_vowel char) rest
  end.

Definition count_syllables (word : string) : Z :=
  let word := lower word in
  let syllable_count := count_groups false (chars word) in
  let syllable_count :=
    if (endswith word "e" && (1 <? syllable_count))%bool
    then syllable_count - 1 else syllable_count in
  Z.max 1 syllable_count.

(** ** SimpleCache *)

(** [self.cache] maps a key to its value and its expiry, a datetime in
    microseconds; [self.default_ttl] is in seconds. *)
Record SimpleCache (V : Type) := {
  cache : gmap string (V * Z);
  default_ttl : Z
}.
Arguments cache {V} _.
Arguments default_ttl {V} _.


(** [SimpleCache(default_ttl)] *)
Definition new_cache {V} (ttl : Z) : SimpleCache V :=
  {| cache := ∅; default_ttl := ttl |}.



Definition cache_delete {V} (self : SimpleCache V) (key : string)
  : SimpleCache V :=
  {| cache := delete key (cache self); default_ttl := default_ttl self |}.

Definition cache_clear {V} (self : SimpleCache V) : SimpleCache V :=
  {| cache := ∅; default_ttl := default_ttl self |}.

(** The pattern of line 504, [re.match(r'^\+254[17]\d{8}, phone)], as a
    truth value.  The line has lost the end of the pattern and its
    closing quote; the pattern is taken as far as the line shows it: a
    match at the start of [+254], a 1 or a 7 and eight digits, whatever
    follows. *)
Definition kenyan_mobile (phone : string) : bool :=
  match chars phone with
  | plus :: c2 :: c5 :: c4 :: first :: rest =>
      Nat.eqb (code plus) 43 && Nat.eqb (code c2) 50 && Nat.eqb (code c5) 53
      && Nat.eqb (code c4) 52
      && (Nat.eqb (code first) 49 || Nat.eqb (code first) 55)
      && Nat.eqb (List.length (firstn 8 rest)) 8
      && forallb is_digit (firstn 8 rest)
  | _ => false
  end.

(** [validate_phone_number(phone, country_code)]; [re.sub(r'\D', '',
    phone)] keeps the digits. *)
Definition validate_phone_number (phone country_code : string)
  : result string :=
  let phone := keep_only is_digit phone in
  phone ← (if startswith phone "254" then Ok ("+" +:+ phone)
           else if startswith phone "0" then Ok (country_code +:+ drop 1 phone)
           else if len phone =? 9 then Ok (country_code +:+ phone)
           else Raise (ValueError "Invalid phone number format"));
  if negb (kenyan_mobile phone)
  then Raise (ValueError "Please enter a valid Kenyan mobile number")
  else Ok phone.

End UtilsMore.

(* ===================================================================== *)
(** * Stand-ins for the libraries *)
(* ===================================================================== *)

(** Concrete libraries and worlds, to run the embedding on examples. *)
Module Bench.

Import Text.

(** NLTK is not installed; the sentence tokenizer cuts at full stops and
    drops the empty pieces, the word tokenizer cuts at blanks. *)
Definition nltk : Nltk :=
  {| HAS_NLTK := false;
     sent_tokenize := fun s => Ok (List.filter truthy (split_on s "."));
     word_tokenize := fun s => Ok (split_ws s);
     pos_tag := fun tokens => Ok (map (fun t => (t, "NN")) tokens);
     stopwords_english := Ok [] |}.

Definition auth : Auth :=
  {| generate_password_hash := fun password => "hash:" +:+ password;
     check_password_hash := fun hash password =>
       String.eqb hash ("hash:" +:+ password);
     create_access_token := fun identity => "token:" +:+ str_of_Z identity |}.

Definition chat : ChatModel :=
  {| chat_with_user := fun message _ => "You said: " +:+ message |}.

(** A pipeline that loads and always fails to answer. *)
Definition pipeline : QaPipeline :=
  {| get_qa_pipeline := Ok (fun _ _ => Raise (ValueError "no answer")) |}.

(** A world whose generator yields 0, 1, 2, ..., whose network is down
    and whose wall clock stands still. *)
Definition world : World :=
  {| draws := fun n => n; drawn := 0;
     answers := fun _ => Raise (RequestException "connection refused");
     posted := 0; clock := 0; last_request_time := 0;
     recursion_limit := 3;
     datetimes := fun _ => 0; datetime_reads := 0 |}.

(** A service without an API key, without spaCy. *)
Definition service : AI.AIService :=
  {| AI.huggingface_api_key := AI.placeholder_key; AI.nlp := None;
     AI.stop_words := [] |}.

Definition notes : string :=
  "Photosynthesis converts light into chemical energy. Plants use chlorophyll for this. The process is important because it produces oxygen.".

Definition alice : Models.User :=
  {| Models.user_id := 1; Models.email := "alice@example.com";
     Models.password_hash := "hash:secret"; Models.user_created_at := 0;
     Models.last_active := 0 |}.

Definition bob : Models.User :=
  {| Models.user_id := 2; Models.email := "bob@example.com";
     Models.password_hash := "hash:hunter2"; Models.user_created_at := 0;
     Models.last_active := 0 |}.

Definition plain_card : Models.Flashcard :=
  {| Models.fc_user_id := 1; Models.question := "What is light?";
     Models.answer := "Energy"; Models.topic := "Physics";
     Models.difficulty := "beginner"; Models.times_reviewed := 0;
     Models.times_correct := 0; Models.last_reviewed := None;
     Models.mastery_level := 0 |}.

(** Alice and Bob, one conversation each (1 is Alice's, 2 is Bob's), one
    flashcard. *)
Definition db : Models.DB :=
  {| Models.users := [alice; bob];
     Models.conversations :=
       [ {| Models.conv_id := 1; Models.conv_user_id := 1;
            Models.title := "Welcome Chat"; Models.conv_created_at := 0;
            Models.updated_at := 0 |};
         {| Models.conv_id := 2; Models.conv_user_id := 2;
            Models.title := "Welcome Chat"; Models.conv_created_at := 0;
            Models.updated_at := 0 |} ];
     Models.messages := [];
     Models.flashcards := {[ 7 := plain_card ]} |}.

End Bench.

(* ===================================================================== *)
(** * Facts *)
(* ===================================================================== *)

Module TextFacts.
Import Text.

Lemma chars_text (l : list ascii) : chars (text l) = l.
Proof. apply list_ascii_of_string_of_list_ascii. Qed.

Lemma text_chars (s : string) : text (chars s) = s.
Proof. apply string_of_list_ascii_of_string. Qed.

(** A list of characters that does not start with a blank. *)
Definition starts_clean (l : list ascii) : Prop :=
  match l with
  | [] => True
  | c :: _ => is_space c = false
  end.

Lemma drop_while_starts_clean l : starts_clean (drop_while is_space l).
Proof.
  induction l as [|c l IH]; simpl; [exact I|].
  destruct (is_space c) eqn:E; [exact IH | exact E].
Qed.

Lemma drop_while_clean l : starts_clean l -> drop_while is_space l = l.
Proof. destruct l as [|c l]; simpl; [reflexivity|]. now intros ->. Qed.

Lemma drop_while_snoc l c :
  is_space c = false ->
  drop_while is_space (l ++ [c]) = drop_while is_space l ++ [c].
Proof.
  intros Hc. induction l as [|x l IH]; simpl.
  - now rewrite Hc.
  - destruct (is_space x); [exact IH | reflexivity].
Qed.

Lemma rstrip_cons c l :
  is_space c = false -> rstrip_chars (c :: l) = c :: rstrip_chars l.
Proof.
  intros Hc. unfold rstrip_chars. simpl.
  rewrite drop_while_snoc by exact Hc.
  now rewrite rev_app_distr.
Qed.

Lemma rstrip_starts_clean l : starts_clean l -> starts_clean (rstrip_chars l).
Proof.
  destruct l as [|c l]; simpl; intros Hc.
  - exact I.
  - rewrite rstrip_cons by exact Hc. exact Hc.
Qed.

Lemma rstrip_idempotent l : rstrip_chars (rstrip_chars l) = rstrip_chars l.
Proof.
  unfold rstrip_chars. rewrite rev_involutive.
  rewrite drop_while_clean; [reflexivity | apply drop_while_starts_clean].
Qed.

Lemma strip_idempotent s : strip (strip s) = strip s.
Proof.
  unfold strip. rewrite chars_text. unfold lstrip_chars.
  rewrite (drop_while_clean (rstrip_chars _)).
  - now rewrite rstrip_idempotent.
  - apply rstrip_starts_clean, drop_while_starts_clean.
Qed.

Lemma strip_empty : strip "" = "".
Proof. reflexivity. Qed.

Lemma truthy_false s : truthy s = false -> s = "".
Proof. destruct s; [reflexivity | discriminate]. Qed.

End TextFacts.

Module PyFacts.

Section Sorting.
Context {A : Type} (key : A -> Z).

Lemma insert_desc_perm x l : Permutation (insert_desc key x l) (x :: l).
Proof.
  induction l as [|y l IH]; simpl; [reflexivity|].
  destruct (key x <? key y).
  - rewrite IH. apply perm_swap.
  - reflexivity.
Qed.

Lemma sort_desc_perm l : Permutation (sort_desc key l) l.
Proof.
  induction l as [|x l IH]; simpl; [reflexivity|].
  rewrite insert_desc_perm. now constructor.
Qed.

(** Keys do not increase along the list. *)
Definition descending : list A -> Prop :=
  StronglySorted (fun a b => key b <= key a).

Lemma insert_desc_sorted x l : descending l -> descending (insert_desc key x l).
Proof.
  unfold descending.
  induction l as [|y l IH]; simpl; intros Hs.
  - constructor; constructor.
  - inversion Hs as [|? ? Hl Hy]; subst.
    destruct (key x <? key y) eqn:E.
    + constructor; [now apply IH|].
      apply Z.ltb_lt in E.
      rewrite (List.Forall_forall _ (insert_desc key x l)).
      intros z Hz.
      apply (Permutation_in _ (insert_desc_perm x l)) in Hz.
      destruct Hz as [<- | Hz]; [lia|].
      rewrite List.Forall_forall in Hy. now apply Hy.
    + apply Z.ltb_ge in E.
      constructor; [exact Hs|].
      constructor; [exact E|].
      rewrite List.Forall_forall in Hy |- *. intros z Hz.
      specialize (Hy z Hz). lia.
Qed.

Lemma sort_desc_sorted l : descending (sort_desc key l).
Proof.
  induction l as [|x l IH]; simpl.
  - constructor.
  - now apply insert_desc_sorted.
Qed.

End Sorting.

Lemma descending_map {A B} (f : A -> B) (ka : A -> Z) (kb : B -> Z) l :
  (forall x, In x l -> kb (f x) = ka x) ->
  descending ka l -> descending kb (map f l).
Proof.
  unfold descending. intros Hk Hs.
  induction Hs as [|x l Hl IH Hx]; simpl; [constructor|].
  constructor.
  - apply IH. intros y Hy. apply Hk. now right.
  - rewrite List.Forall_map. rewrite List.Forall_forall in Hx |- *.
    intros y Hy. rewrite (Hk x), (Hk y); [now apply Hx | now right | now left].
Qed.

End PyFacts.

Module EffFacts.

Lemma bind_eq {A B} (m : M A) (k : A -> M B) : (m ≫= k) = Eff.bind m k.
Proof. reflexivity. Qed.

Lemma bind_ok {A B} (m : M A) (k : A -> M B) w b w' :
  Eff.bind m k w = (Ok b, w') ->
  exists a w1, m w = (Ok a, w1) /\ k a w1 = (Ok b, w').
Proof.
  unfold Eff.bind. destruct (m w) as [[a|e] w1]; intros Hk.
  - eauto.
  - discriminate.
Qed.

Lemma lift_ok {A} (r : result A) w a w' :
  Eff.lift r w = (Ok a, w') -> r = Ok a /\ w' = w.
Proof. unfold Eff.lift. intros [= -> ->]. auto. Qed.

Lemma ret_ok {A} (a : A) w b w' :
  Eff.ret a w = (Ok b, w') -> b = a /\ w' = w.
Proof. unfold Eff.ret. intros [= -> ->]. auto. Qed.

(** A loop whose body adds at most one element adds at most as many
    elements as it has rounds. *)
Lemma for_each_grows {A B} (body : A -> list B -> M (list B)) (l : list A) :
  (forall x s w s' w', body x s w = (Ok s', w') ->
                       (List.length s' <= S (List.length s))%nat) ->
  forall s w s' w',
    Eff.for_each l body s w = (Ok s', w') ->
    (List.length s' <= List.length s + List.length l)%nat.
Proof.
  intros Hbody. induction l as [|x l IH]; intros s w s' w' Hrun; simpl in Hrun.
  - apply ret_ok in Hrun as [-> _]. simpl. lia.
  - apply bind_ok in Hrun as (s1 & w1 & H1 & H2).
    apply Hbody in H1. apply IH in H2. simpl. lia.
Qed.

Lemma pure_ret {A} (a : A) : Eff.pure (Eff.ret a).
Proof. exists (Ok a). reflexivity. Qed.

Lemma pure_lift {A} (r : result A) : Eff.pure (Eff.lift r).
Proof. exists r. reflexivity. Qed.

Lemma pure_bind {A B} (m : M A) (k : A -> M B) :
  Eff.pure m -> (forall a, Eff.pure (k a)) -> Eff.pure (Eff.bind m k).
Proof.
  intros [[a|e] Hm] Hk.
  - destruct (Hk a) as [r Hr]. exists r. intros w.
    unfold Eff.bind. now rewrite Hm, Hr.
  - exists (Raise e). intros w. unfold Eff.bind. now rewrite Hm.
Qed.

Lemma pure_for_each {A S} (body : A -> S -> M S) (l : list A) :
  (forall x s, Eff.pure (body x s)) -> forall s, Eff.pure (Eff.for_each l body s).
Proof.
  intros Hbody. induction l as [|x l IH]; intros s; simpl.
  - apply pure_ret.
  - apply pure_bind; [apply Hbody | exact IH].
Qed.

Lemma total_ret {A} (a : A) : Eff.total (Eff.ret a).
Proof. intros w. exists a, w. reflexivity. Qed.

Lemma total_bind {A B} (m : M A) (k : A -> M B) :
  Eff.total m -> (forall a, Eff.total (k a)) -> Eff.total (Eff.bind m k).
Proof.
  intros Hm Hk w. destruct (Hm w) as (a & w1 & H1).
  destruct (Hk a w1) as (b & w2 & H2).
  exists b, w2. unfold Eff.bind. now rewrite H1.
Qed.

Lemma total_lift {A} (r : result A) : returns r -> Eff.total (Eff.lift r).
Proof. intros [a ->] w. exists a, w. reflexivity. Qed.

Lemma total_randbelow n : Eff.total (Eff.randbelow n).
Proof. intros w. eexists _, _. reflexivity. Qed.

(** A loop returns when its body returns at every element, from every
    state that satisfies what the loop keeps true. *)
Lemma total_for_each {A S} (inv : S -> Prop) (body : A -> S -> M S) (l : list A) :
  (forall x s, In x l -> inv s ->
     forall w, exists s' w', body x s w = (Ok s', w') /\ inv s') ->
  forall s, inv s -> Eff.total (Eff.for_each l body s).
Proof.
  induction l as [|x l IH]; intros Hbody s Hs w; simpl.
  - exists s, w. reflexivity.
  - destruct (Hbody x s (or_introl eq_refl) Hs w) as (s1 & w1 & H1 & Hs1).
    destruct (IH (fun y t Hy => Hbody y t (or_intror Hy)) s1 Hs1 w1)
      as (s2 & w2 & H2).
    exists s2, w2. unfold Eff.bind. now rewrite H1.
Qed.

End EffFacts.

Module PyMore.

Lemma range_length a b : List.length (range a b) = Z.to_nat (b - a).
Proof. unfold range. now rewrite length_map, length_seq. Qed.

Lemma range_bounds a b i : In i (range a b) -> a <= i < b.
Proof.
  unfold range. rewrite in_map_iff. intros (k & <- & Hk).
  apply in_seq in Hk. lia.
Qed.

Lemma slice_to_length {A} (l : list A) n :
  0 <= n -> Z.of_nat (List.length (slice_to l n)) <= n.
Proof.
  intros Hn. unfold slice_to.
  destruct (n <? 0) eqn:E; [apply Z.ltb_lt in E; lia|].
  rewrite length_firstn. lia.
Qed.

Lemma index_ok {A} (l : list A) i :
  - Z.of_nat (List.length l) <= i < Z.of_nat (List.length l) ->
  returns (index l i).
Proof.
  intros Hi. unfold index, returns.
  set (n := Z.of_nat (List.length l)) in *.
  set (j := if i <? 0 then i + n else i).
  assert (Hj : 0 <= j < n).
  { subst j. destruct (i <? 0) eqn:E;
      [apply Z.ltb_lt in E | apply Z.ltb_ge in E]; lia. }
  assert (E1 : (0 <=? j) && (j <? n) = true).
  { apply andb_true_iff. split; [apply Z.leb_le | apply Z.ltb_lt]; lia. }
  rewrite E1.
  destruct (nth_error l (Z.to_nat j)) eqn:E2; [eauto|].
  apply nth_error_None in E2. subst n. lia.
Qed.

End PyMore.

Module UtilsFacts.
Import Text Utils TextFacts PyFacts.

Section Ranking.
Context `{Nltk}.

(** The score only looks at the stripped sentence. *)
Lemma calculate_sentence_importance_strip sentence :
  calculate_sentence_importance (strip sentence)
  = calculate_sentence_importance sentence.
Proof.
  unfold calculate_sentence_importance.
  rewrite strip_idempotent.
  destruct (truthy sentence) eqn:Es.
  - cbn [negb orb]. now rewrite orb_diag.
  - apply truthy_false in Es. subst sentence. reflexivity.
Qed.

Lemma score_sentences_spec sentences :
  score_sentences sentences
  = map (fun s => (strip s, calculate_sentence_importance s))
        (List.filter (fun s => truthy (strip s)) sentences).
Proof.
  induction sentences as [|s l IH]; simpl; [reflexivity|].
  destruct (truthy (strip s)); simpl; now rewrite IH.
Qed.

Lemma score_sentences_keys sentences p :
  In p (score_sentences sentences) ->
  calculate_sentence_importance (fst p) = snd p.
Proof.
  rewrite score_sentences_spec, in_map_iff.
  intros (s & <- & _). simpl. apply calculate_sentence_importance_strip.
Qed.

(** C8.  [rank_sentences_by_importance] returns the stripped sentences of
    its input that are not blank, in an order of non-increasing
    [calculate_sentence_importance], and the empty list for the empty
    list. *)
Theorem rank_sentences_by_importance_sorted_filter (sentences : list string) :
  Permutation (rank_sentences_by_importance sentences)
              (map strip (List.filter (fun s => truthy (strip s)) sentences))
  /\ descending calculate_sentence_importance
                (rank_sentences_by_importance sentences)
  /\ rank_sentences_by_importance [] = [].
Proof.
  assert (Hr : rank_sentences_by_importance sentences
               = map fst (sort_desc snd (score_sentences sentences))).
  { destruct sentences; reflexivity. }
  rewrite Hr. split; [|split].
  - rewrite (sort_desc_perm snd), score_sentences_spec, map_map. simpl.
    reflexivity.
  - apply (descending_map fst snd); [|apply sort_desc_sorted].
    intros p Hp. apply (score_sentences_keys sentences).
    apply (Permutation_in _ (sort_desc_perm snd (score_sentences sentences))).
    exact Hp.
  - reflexivity.
Qed.

End Ranking.

(** ** clean_extracted_text *)

(** A text with a character that is neither printable nor blank between
    two spaces: "a", space, e with acute accent, space, "b". *)
Definition accented : string := "a " +:+ String (ascii_of_nat 233) " b".

(** Two blanks in a row somewhere in the text. *)
Fixpoint double_blank (l : list ascii) : bool :=
  match l with
  | a :: ((b :: _) as r) => (is_space a && is_space b) || double_blank r
  | _ => false
  end.

(** C10, at the text [accented]: the result of [clean_extracted_text] has
    two spaces in a row, and cleaning it again changes it. *)
Theorem clean_extracted_text_accented :
  clean_extracted_text accented = "a  b"
  /\ double_blank (chars (clean_extracted_text accented)) = true
  /\ clean_extracted_text (clean_extracted_text accented) = "a b"
  /\ clean_extracted_text (clean_extracted_text accented)
     <> clean_extracted_text accented.
Proof. vm_compute. repeat split; discriminate. Qed.

End UtilsFacts.

Module RateLimiterFacts.
Import Utils.

Lemma recent_app ws l1 l2 : recent ws (l1 ++ l2) = recent ws l1 ++ recent ws l2.
Proof. apply List.filter_app. Qed.

Lemma recent_recent ws ws' l : ws <= ws' -> recent ws' (recent ws l) = recent ws' l.
Proof.
  intros Hle. unfold recent. induction l as [|x l IH]; simpl; [reflexivity|].
  destruct (ws <? x) eqn:E1; simpl; rewrite IH; [reflexivity|].
  destruct (ws' <? x) eqn:E2; [|reflexivity].
  apply Z.ltb_lt in E2. apply Z.ltb_ge in E1. lia.
Qed.

Lemma filter_length_le {A} (p : A -> bool) l :
  (List.length (List.filter p l) <= List.length l)%nat.
Proof.
  induction l as [|x l IH]; simpl; [lia|]. destruct (p x); simpl; lia.
Qed.

(** The accepted times of a window that holds [now] are all recent at
    [now]. *)
Lemma in_window_recent start wm now l :
  start <= now /\ now < start + minutes wm ->
  (List.length (in_window start wm l)
   <= List.length (recent (now - minutes wm) l))%nat.
Proof.
  intros Hnow. unfold in_window, recent.
  induction l as [|x l IH]; simpl; [lia|].
  destruct (andb (start <=? x) (x <? start + minutes wm)) eqn:E1.
  - apply andb_true_iff in E1 as [E1 _]. apply Z.leb_le in E1.
    assert (E2 : (now - minutes wm <? x) = true) by (apply Z.ltb_lt; lia).
    rewrite E2. simpl. lia.
  - destruct (now - minutes wm <? x); simpl; lia.
Qed.

Section Run.
Variables (limit window_minutes user_id : Z).
Hypothesis limit_nonneg : 0 <= limit.

(** What a run keeps true, for the limiter [self], the times [acc]
    accepted so far for [user_id], and a time [t0] no later than the calls
    to come: the stored times and the accepted times agree on what is
    recent, and no window holds more than [limit] accepted times. *)
Definition inv (self : RateLimiter) (acc : list Z) (t0 : Z) : Prop :=
  (forall t, t0 <= t ->
     recent (t - minutes window_minutes) (default [] (self !! user_id))
     = recent (t - minutes window_minutes) acc)
  /\ (forall start,
        Z.of_nat (List.length (in_window start window_minutes acc)) <= limit).

Lemma inv_step self acc t0 u now :
  inv self acc t0 -> t0 <= now ->
  let '(ok, self') := is_allowed self now u limit window_minutes in
  inv self' (acc ++ (if (ok && (u =? user_id))%bool then [now] else [])) now.
Proof.
  intros [Ha Hb] Hle. unfold is_allowed.
  set (ws := now - minutes window_minutes).
  set (self1 := match self !! u with
                | Some times => <[u:=recent ws times]> self
                | None => <[u:=[]]> self
                end).
  assert (H1 : self1 !! u = Some (recent ws (default [] (self !! u)))).
  { subst self1. destruct (self !! u) eqn:E; simpl; now rewrite lookup_insert_eq. }
  assert (H2 : forall v, v <> u -> self1 !! v = self !! v).
  { intros v Hv. subst self1. destruct (self !! u); now rewrite lookup_insert_ne. }
  rewrite H1. cbn [from_option id].
  destruct (Z.eq_dec u user_id) as [->|Hne].
  - assert (Hs : recent ws (default [] (self !! user_id)) = recent ws acc)
      by (apply Ha; exact Hle).
    rewrite Hs, Z.eqb_refl.
    destruct (Z.of_nat (List.length (recent ws acc)) <? limit) eqn:El;
      cbn [andb].
    + apply Z.ltb_lt in El. split.
      * intros t Ht. rewrite lookup_insert_eq. cbn [from_option id].
        rewrite !recent_app. f_equal.
        apply recent_recent. subst ws. lia.
      * intros start. unfold in_window. rewrite List.filter_app, length_app.
        fold (in_window start window_minutes acc). cbn [List.filter].
        destruct (andb (start <=? now) (now <? start + minutes window_minutes))
          eqn:Ew.
        -- apply andb_true_iff in Ew as [E1 E2].
           apply Z.leb_le in E1. apply Z.ltb_lt in E2.
           pose proof (in_window_recent start window_minutes now acc
                         (conj E1 E2)) as Hw.
           fold ws in Hw. cbn [List.length]. lia.
        -- specialize (Hb start). cbn [List.length]. lia.
    + rewrite app_nil_r. split; [|exact Hb].
      intros t Ht. rewrite H1. cbn [from_option id]. rewrite Hs.
      apply recent_recent. subst ws. lia.
  - assert (Eu : (u =? user_id) = false) by (now apply Z.eqb_neq).
    rewrite Eu.
    assert (Hk : forall s : RateLimiter, s !! user_id = self !! user_id ->
                 inv s acc now).
    { intros s Hs. split; [|exact Hb]. intros t Ht. rewrite Hs. apply Ha. lia. }
    destruct (Z.of_nat (List.length (recent ws (default [] (self !! u)))) <? limit);
      cbn [andb]; rewrite app_nil_r; apply Hk.
    + rewrite lookup_insert_ne by exact Hne. apply H2. congruence.
    + apply H2. congruence.
Qed.

Lemma run_calls_inv calls : forall self acc t0,
  inv self acc t0 ->
  StronglySorted Z.le (t0 :: map snd calls) ->
  forall start,
    Z.of_nat (List.length
      (in_window start window_minutes
         (acc ++ accepted_times user_id calls
                   (fst (run_calls self limit window_minutes calls)))))
    <= limit.
Proof.
  induction calls as [|[u now] calls IH]; intros self acc t0 Hinv Hs start.
  - simpl. rewrite app_nil_r. apply Hinv.
  - simpl in Hs. inversion Hs as [|? ? Hs' Hall]; subst.
    inversion Hall as [|? ? Hle _]; subst.
    pose proof (inv_step self acc t0 u now Hinv Hle) as Hstep.
    simpl.
    destruct (is_allowed self now u limit window_minutes) as [ok self'].
    specialize (IH self' _ now Hstep Hs' start).
    destruct (run_calls self' limit window_minutes calls) as [oks self''].
    simpl in *.
    destruct (ok && (u =? user_id))%bool; simpl in *.
    + now rewrite <- app_assoc in IH.
    + now rewrite app_nil_r in IH.
Qed.

End Run.

Lemma get_remaining_requests_nonneg self now user_id limit window_minutes :
  0 <= limit ->
  0 <= get_remaining_requests self now user_id limit window_minutes.
Proof.
  intros Hl. unfold get_remaining_requests.
  destruct (self !! user_id); [apply Z.le_max_l | exact Hl].
Qed.

(** C7, amended.  For a limit that is not negative and calls made in the
    order of their times, starting from a new limiter: among the calls of
    a user answered [True], those whose times fall in one window of
    [window_minutes] (from a start on, for that length) number at most
    [limit]; and [get_remaining_requests] is never negative. *)
Theorem rate_limiter_enforces_limit
  (limit window_minutes user_id : Z) (calls : list (Z * Z)) :
  0 <= limit ->
  StronglySorted Z.le (map snd calls) ->
  (forall start,
     Z.of_nat (List.length
       (in_window start window_minutes
          (accepted_times user_id calls
             (fst (run_calls new_rate_limiter limit window_minutes calls)))))
     <= limit)
  /\ (forall self now,
        0 <= get_remaining_requests self now user_id limit window_minutes).
Proof.
  intros Hl Hs. split.
  - intros start.
    set (t0 := match calls with [] => 0 | c :: _ => snd c end).
    apply (run_calls_inv limit window_minutes user_id calls
             new_rate_limiter [] t0).
    + split; [|intros; simpl; exact Hl].
      intros t _. unfold new_rate_limiter. now rewrite lookup_empty.
    + destruct calls as [|c calls]; simpl in *.
      * constructor; constructor.
      * constructor; [exact Hs|].
        inversion Hs; subst. constructor; [lia | assumption].
  - intros self now. now apply get_remaining_requests_nonneg.
Qed.

Lemma rate_limiter_enforces_limit_witness :
  0 <= 2
  /\ StronglySorted Z.le (map snd [(1, 0); (1, 5); (2, 6); (1, 7)])
  /\ (forall start,
        Z.of_nat (List.length
          (in_window start 1
             (accepted_times 1 [(1, 0); (1, 5); (2, 6); (1, 7)]
                (fst (run_calls new_rate_limiter 2 1
                        [(1, 0); (1, 5); (2, 6); (1, 7)])))))
        <= 2)
  /\ (forall self now, 0 <= get_remaining_requests self now 1 2 1).
Proof.
  assert (Hs : StronglySorted Z.le (map snd [(1, 0); (1, 5); (2, 6); (1, 7)])).
  { simpl. repeat constructor; lia. }
  split; [lia|]. split; [exact Hs|].
  apply (rate_limiter_enforces_limit 2 1 1 [(1, 0); (1, 5); (2, 6); (1, 7)]);
    [lia | exact Hs].
Defined.

(** C7 as stated fails at a negative limit: for a user the limiter has
    not seen, [get_remaining_requests] returns the limit itself. *)
Lemma get_remaining_requests_negative :
  get_remaining_requests new_rate_limiter 0 1 (-1) 60 = -1.
Proof. reflexivity. Qed.

End RateLimiterFacts.

Module ModelsFacts.
Import Models.

Lemma ratio_nonneg (a b : Z) : 0 <= a -> 0 < b -> (0 <= inject_Z a / inject_Z b)%Q.
Proof.
  intros Ha Hb. apply Qle_shift_div_l.
  - change 0%Q with (inject_Z 0). rewrite <- Zlt_Qlt. exact Hb.
  - rewrite Qmult_0_l. change 0%Q with (inject_Z 0). rewrite <- Zle_Qle. exact Ha.
Qed.

Lemma reviewed_consistent flashcard now correct :
  consistent flashcard -> consistent (reviewed flashcard now correct).
Proof.
  intros (Hc & _ & _ & _).
  assert (Hr : 0 < times_reviewed flashcard + 1) by lia.
  assert (Hn : 0 <= times_correct (reviewed flashcard now correct)
               <= times_reviewed (reviewed flashcard now correct)).
  { unfold reviewed; simpl. destruct correct; lia. }
  assert (Hm : mastery_level (reviewed flashcard now correct)
               = Qmin 1 ((inject_Z (times_correct (reviewed flashcard now correct))
                          / inject_Z (times_reviewed (reviewed flashcard now correct)))
                         * (inject_Z (times_reviewed (reviewed flashcard now correct)) / 10))%Q).
  { unfold reviewed; simpl.
    destruct (0 <? times_reviewed flashcard + 1) eqn:E; [reflexivity|].
    apply Z.ltb_ge in E. lia. }
  split; [exact Hn|].
  assert (Hr' : 0 < times_reviewed (reviewed flashcard now correct))
    by (unfold reviewed; simpl; lia).
  split; [|split].
  - rewrite Hm. apply Q.min_glb; [discriminate|].
    apply Qmult_le_0_compat.
    + apply ratio_nonneg; lia.
    + apply (ratio_nonneg _ 10); lia.
  - rewrite Hm. apply Q.le_min_l.
  - intros _. exact Hm.
Qed.

Lemma fresh_consistent flashcard : fresh flashcard -> consistent flashcard.
Proof.
  intros (Hr & Hc & Hm). unfold consistent. rewrite Hr, Hc, Hm.
  repeat split; try lia; try discriminate.
Qed.

Lemma review_all_consistent reviews : forall cards flashcard_id flashcard,
  cards !! flashcard_id = Some flashcard -> consistent flashcard ->
  exists flashcard',
    review_all cards reviews !! flashcard_id = Some flashcard'
    /\ consistent flashcard'.
Proof.
  induction reviews as [|[[fid correct] now] reviews IH];
    intros cards flashcard_id flashcard Hl Hc; simpl.
  - eauto.
  - unfold update_flashcard_performance.
    destruct (cards !! fid) as [reviewed_card|] eqn:E; simpl.
    + destruct (Z.eq_dec fid flashcard_id) as [->|Hne].
      * apply (IH _ _ (reviewed reviewed_card now correct)).
        -- apply lookup_insert_eq.
        -- apply reviewed_consistent. congruence.
      * apply (IH _ _ flashcard); [|exact Hc].
        now rewrite lookup_insert_ne.
    + now apply (IH _ _ flashcard).
Qed.

(** C9.  From a flashcard with [times_reviewed = 0], [times_correct = 0]
    and [mastery_level = 0.0], after any sequence of
    [update_flashcard_performance] calls (on this flashcard or on others)
    the flashcard is still there, [0 <= times_correct <= times_reviewed],
    [0 <= mastery_level <= 1], and [mastery_level] is
    [min(1, (times_correct / times_reviewed) * (times_reviewed / 10))]
    once [times_reviewed > 0]. *)
Theorem flashcard_metrics_consistent
  (cards : gmap Z Flashcard) (flashcard_id : Z) (flashcard : Flashcard)
  (reviews : list (Z * bool * Z)) :
  cards !! flashcard_id = Some flashcard ->
  fresh flashcard ->
  exists flashcard',
    review_all cards reviews !! flashcard_id = Some flashcard'
    /\ consistent flashcard'.
Proof.
  intros Hl Hf. apply (review_all_consistent _ _ _ flashcard Hl).
  now apply fresh_consistent.
Qed.

Lemma flashcard_metrics_consistent_witness :
  Models.flashcards Bench.db !! 7 = Some Bench.plain_card
  /\ fresh Bench.plain_card
  /\ exists flashcard',
       review_all (Models.flashcards Bench.db)
                  [(7, true, 10); (7, false, 20); (8, true, 30)] !! 7
       = Some flashcard'
       /\ consistent flashcard'.
Proof.
  assert (Hl : Models.flashcards Bench.db !! 7 = Some Bench.plain_card)
    by reflexivity.
  assert (Hf : fresh Bench.plain_card) by (repeat split).
  split; [exact Hl|]. split; [exact Hf|].
  apply (flashcard_metrics_consistent _ 7 Bench.plain_card _ Hl Hf).
Defined.

End ModelsFacts.

Module AppFacts.
Import Text Flask Models App.

Section Handlers.
Context {auth : Auth} {chat : ChatModel}.

(** C4, amended.  A signup request that carries a password and whose email
    belongs to a user is answered 409 with a JSON error, and the database
    is as it was: no user row, no conversation row is added. *)
Theorem signup_existing_user (now : Z) (db : DB) (data : signup_data)
  (e p : string) (u : User) :
  su_email data = Some e -> truthy e = true ->
  su_password data = Some p -> truthy p = true ->
  In u (users db) -> email u = e ->
  signup_view now (Some data) db
  = (Ok (jsonify [("error", JStr "User already exists")] 409), db).
Proof.
  intros He Hte Hp Htp Hin Hu.
  unfold signup_view, view, guarded, signup_body.
  rewrite He, Hp. cbn [falsy]. rewrite Hte, Htp. cbn [negb orb from_option id].
  destruct (find_user_by_email db e) as [found|] eqn:Ef; [reflexivity|].
  exfalso. unfold find_user_by_email in Ef.
  apply (find_none _ _ Ef) in Hin. rewrite Hu, String.eqb_refl in Hin.
  discriminate.
Qed.

(** The conversation [conversation_id] is not one of [user_id]'s. *)
Definition foreign (db : DB) (user_id conversation_id : Z) : Prop :=
  forall c, In c (conversations db) ->
            conv_id c = conversation_id -> conv_user_id c <> user_id.

Lemma foreign_not_found db user_id conversation_id :
  foreign db user_id conversation_id ->
  find_conversation db conversation_id user_id = None.
Proof.
  intros Hf. unfold find_conversation.
  destruct (find _ _) as [c|] eqn:E; [|reflexivity].
  apply find_some in E as [Hin Hc].
  apply andb_true_iff in Hc as [H1 H2].
  apply Z.eqb_eq in H1, H2. now destruct (Hf c Hin H1).
Qed.

(** C6, amended.  For an authenticated user and a conversation that is
    not theirs: fetching it is answered 404 'Conversation not found';
    posting to it is answered the same when the message is not blank and
    the conversation id is not 0; in both cases the database is as it
    was. *)
Theorem foreign_conversation_not_found (db : DB) (user_id conversation_id : Z) :
  foreign db user_id conversation_id ->
  get_conversation_detail_view (Some user_id) conversation_id db
  = (Ok not_found_404, db)
  /\ (forall now elapsed message,
        truthy (strip message) = true -> conversation_id <> 0 ->
        send_chat_message_view now elapsed (Some user_id)
          (Some {| ch_message := Some message;
                   ch_conversation_id := Some conversation_id |}) db
        = (Ok not_found_404, db)).
Proof.
  intros Hf. apply foreign_not_found in Hf. split.
  - unfold get_conversation_detail_view, jwt_required, view, guarded,
      get_conversation_detail_body. now rewrite Hf.
  - intros now elapsed message Hm Hc.
    unfold send_chat_message_view, jwt_required, view, guarded,
      send_chat_message_body, requested_conversation.
    cbn [ch_message ch_conversation_id from_option id]. rewrite Hm. cbn [negb].
    apply Z.eqb_neq in Hc. rewrite Hc. now rewrite Hf.
Qed.

End Handlers.

Lemma signup_existing_user_witness :
  su_email {| su_email := Some "alice@example.com"; su_password := Some "x" |}
  = Some "alice@example.com"
  /\ truthy "alice@example.com" = true
  /\ su_password {| su_email := Some "alice@example.com"; su_password := Some "x" |}
     = Some "x"
  /\ truthy "x" = true
  /\ In Bench.alice (users Bench.db)
  /\ email Bench.alice = "alice@example.com"
  /\ signup_view (auth := Bench.auth) 5
       (Some {| su_email := Some "alice@example.com"; su_password := Some "x" |})
       Bench.db
     = (Ok (jsonify [("error", JStr "User already exists")] 409), Bench.db).
Proof.
  repeat (split; [reflexivity || (left; reflexivity)|]).
  apply (signup_existing_user (auth := Bench.auth) 5 Bench.db
           {| su_email := Some "alice@example.com"; su_password := Some "x" |}
           "alice@example.com" "x" Bench.alice);
    reflexivity || (left; reflexivity).
Defined.

(** C4 as stated fails when the request has no password: the answer is
    400, whoever owns the email. *)
Lemma signup_existing_user_without_password :
  fst (signup_view (auth := Bench.auth) 5
         (Some {| su_email := Some "alice@example.com"; su_password := None |})
         Bench.db)
  = Ok (jsonify [("error", JStr "Email and password required")] 400).
Proof. reflexivity. Qed.

Lemma foreign_conversation_not_found_witness :
  foreign Bench.db 1 2
  /\ get_conversation_detail_view (Some 1) 2 Bench.db
     = (Ok not_found_404, Bench.db)
  /\ (forall now elapsed message,
        truthy (strip message) = true -> 2 <> 0 ->
        send_chat_message_view (chat := Bench.chat) now elapsed (Some 1)
          (Some {| ch_message := Some message; ch_conversation_id := Some 2 |})
          Bench.db
        = (Ok not_found_404, Bench.db)).
Proof.
  assert (Hf : foreign Bench.db 1 2).
  { intros c [<-|[<-|[]]]; simpl; intros; lia. }
  split; [exact Hf|].
  apply (foreign_conversation_not_found (chat := Bench.chat) Bench.db 1 2 Hf).
Defined.

(** C6 as stated fails when the message is blank: posting to a
    conversation of someone else is then answered 400. *)
Lemma blank_message_to_foreign_conversation :
  fst (send_chat_message_view (chat := Bench.chat) 5 0 (Some 1)
         (Some {| ch_message := Some "   "; ch_conversation_id := Some 2 |})
         Bench.db)
  = Ok (jsonify [("error", JStr "Message cannot be empty")] 400).
Proof. reflexivity. Qed.

(** C3, amended.  In app.py, when the body of a route raises, every
    route but [health_check] answers 500 with the JSON object
    [{"error": str(e)}]; an exception of [health_check] is answered by
    the 500 handler, also 500 with an ['error'] field, unless Flask
    propagates exceptions.  In backend/app.py and
    backend/payment_service.py every route but [health_check] answers
    500 too. *)
Theorem routes_answer_500 {St} (try_body : View St) (st st' : St) (e : exn) :
  try_body st = (Raise e, st') ->
  (forall r : App.route,
     (r <> App.health_check ->
      forall propagate,
        App.serve propagate r try_body st = (Ok (App.error_500 e), st'))
     /\ exists resp,
          App.serve false r try_body st = (Ok resp, st')
          /\ status resp = 500 /\ has_field "error" resp = true)
  /\ (forall r : BackendApp.route,
        r <> BackendApp.health_check ->
        exists resp,
          BackendApp.view r try_body st = (Ok resp, st')
          /\ status resp = 500).
Proof.
  intros Hb. split.
  - intros r. split.
    + intros Hr propagate. unfold serve, dispatch, App.view.
      destruct r; try congruence; unfold guarded; rewrite Hb; reflexivity.
    + unfold serve, dispatch, App.view.
      destruct r; unfold guarded; rewrite Hb; eexists; repeat split.
  - intros r Hr. unfold BackendApp.view. rewrite Hb.
    destruct r; try congruence; eexists; split; reflexivity.
Qed.

Lemma routes_answer_500_witness :
  let try_body := fun st : unit => (@Raise response (KeyError "email"), st) in
  try_body tt = (Raise (KeyError "email"), tt)
  /\ (forall r : App.route,
        (r <> App.health_check ->
         forall propagate,
           App.serve propagate r try_body tt
           = (Ok (App.error_500 (KeyError "email")), tt))
        /\ exists resp,
             App.serve false r try_body tt = (Ok resp, tt)
             /\ status resp = 500 /\ has_field "error" resp = true)
  /\ (forall r : BackendApp.route,
        r <> BackendApp.health_check ->
        exists resp,
          BackendApp.view r try_body tt = (Ok resp, tt) /\ status resp = 500).
Proof.
  intros try_body. split; [reflexivity|].
  apply (routes_answer_500 try_body tt tt (KeyError "email") eq_refl).
Defined.

(** C3 as stated fails in backend/app.py: the body of the 500 answer of
    [signup] has no ['error'] field. *)
Lemma backend_signup_500_without_error_field :
  exists resp,
    BackendApp.view BackendApp.signup
      (fun st : unit => (@Raise response (KeyError "email"), st)) tt
    = (Ok resp, tt)
    /\ status resp = 500
    /\ has_field "error" resp = false.
Proof. eexists. repeat split. Qed.

End AppFacts.

Module AIBounds.
Import Text AI EffFacts PyMore.

Section WithLibraries.
Context {nltk : Nltk}.

Lemma result_bind_ok {A B} (r : result A) (k : A -> result B) b :
  (r ≫= k) = Ok b -> exists a, r = Ok a /\ k a = Ok b.
Proof. destruct r as [a|e]; [eauto | discriminate]. Qed.

(** The first loop adds at most one card for every concept. *)
Lemma concept_cards_length content topic difficulty concepts :
  forall i used flashcards l,
    concept_cards content topic difficulty i concepts used flashcards = Ok l ->
    (List.length l <= List.length flashcards + List.length concepts)%nat.
Proof.
  induction concepts as [|c concepts IH]; intros i used flashcards l Hl;
    simpl in Hl.
  - injection Hl as <-. simpl. lia.
  - destruct (mem c used).
    + apply IH in Hl. simpl. lia.
    + apply result_bind_ok in Hl as (templates & _ & Hl).
      apply result_bind_ok in Hl as (template & _ & Hl).
      apply result_bind_ok in Hl as (answer & _ & Hl).
      apply IH in Hl. rewrite length_app in Hl. simpl in *. lia.
Qed.

Lemma sentence_card_grows key_concepts important topic difficulty i s w s' w' :
  sentence_card key_concepts important topic difficulty i s w = (Ok s', w') ->
  (List.length s' <= S (List.length s))%nat.
Proof.
  unfold sentence_card.
  destruct (_ <? _).
  - rewrite !bind_eq. intros Hrun.
    apply bind_ok in Hrun as (sentence & w1 & _ & Hrun).
    apply bind_ok in Hrun as (method & w2 & _ & Hrun).
    apply bind_ok in Hrun as (qa & w3 & _ & Hrun).
    destruct (truthy (fst qa) && truthy (snd qa))%bool;
      apply ret_ok in Hrun as [-> _]; [rewrite length_app; simpl|]; lia.
  - intros Hrun. apply ret_ok in Hrun as [-> _]. lia.
Qed.

Lemma generate_flashcards_fallback_bounded self content topic difficulty count
  key_concepts w l w' :
  0 <= count ->
  generate_flashcards_fallback self content topic difficulty count key_concepts w
  = (Ok l, w') ->
  Z.of_nat (List.length l) <= count.
Proof.
  intros Hc. unfold generate_flashcards_fallback.
  set (kc := match key_concepts with
             | Some ((_ :: _) as given) => given
             | _ => extract_key_concepts self content
             end).
  rewrite !bind_eq. intros Hrun.
  apply bind_ok in Hrun as (flashcards & w1 & H1 & Hrun).
  apply lift_ok in H1 as [H1 _].
  apply concept_cards_length in H1. rewrite length_firstn in H1. simpl in H1.
  apply bind_ok in Hrun as (sentences & w2 & _ & Hrun).
  apply for_each_grows in Hrun; [|apply sentence_card_grows].
  rewrite range_length in Hrun. lia.
Qed.

Lemma fallback_question_grows generators key_concepts sentences content topic
  difficulty i s w s' w' :
  fallback_question generators key_concepts sentences content topic difficulty
                    i s w = (Ok s', w') ->
  (List.length s' <= S (List.length s))%nat.
Proof.
  unfold fallback_question. rewrite !bind_eq. intros Hrun.
  apply bind_ok in Hrun as (generator & w1 & _ & Hrun).
  apply bind_ok in Hrun as ([question|] & w2 & _ & Hrun);
    apply ret_ok in Hrun as [-> _]; [rewrite length_app; simpl|]; lia.
Qed.

Lemma generate_questions_fallback_bounded self content topic difficulty count
  w l w' :
  0 <= count ->
  generate_questions_fallback self content topic difficulty count w = (Ok l, w') ->
  Z.of_nat (List.length l) <= count.
Proof.
  intros Hc. unfold generate_questions_fallback. rewrite !bind_eq. intros Hrun.
  apply bind_ok in Hrun as (sentences & w1 & _ & Hrun).
  apply bind_ok in Hrun as (generators & w2 & _ & Hrun).
  apply for_each_grows in Hrun; [|apply fallback_question_grows].
  rewrite range_length in Hrun. simpl in Hrun. lia.
Qed.

(** What [try: ... return l[:count]  except: return fallback] gives. *)
Lemma sliced_or_fallback {A} (attempt : M (list A)) (fallback : M (list A))
  count w l w' :
  0 <= count ->
  (forall w1 l1 w2, attempt w1 = (Ok l1, w2) -> Z.of_nat (List.length l1) <= count) ->
  (forall w1 l1 w2, fallback w1 = (Ok l1, w2) -> Z.of_nat (List.length l1) <= count) ->
  Eff.try_except attempt (fun _ => fallback) w = (Ok l, w') ->
  Z.of_nat (List.length l) <= count.
Proof.
  intros Hc Ha Hf. unfold Eff.try_except.
  destruct (attempt w) as [[found|e] w1] eqn:E.
  - intros [= <- _]. exact (Ha _ _ _ E).
  - apply Hf.
Qed.

(** C2.  For a count that is not negative, a list returned by
    [generate_flashcards] or by [generate_questions] has at most [count]
    elements, whatever the key and the network are. *)
Theorem generators_bounded (self : AIService)
  (content topic difficulty : string) (count : Z) (w : World) :
  0 <= count ->
  (forall l w', generate_flashcards self content topic difficulty count w = (Ok l, w') ->
                Z.of_nat (List.length l) <= count)
  /\ (forall l w', generate_questions self content topic difficulty count w = (Ok l, w') ->
                   Z.of_nat (List.length l) <= count).
Proof.
  intros Hc. split; intros l w'.
  - unfold generate_flashcards.
    apply sliced_or_fallback; [exact Hc| |].
    + intros w1 l1 w2. rewrite !bind_eq. intros Hrun.
      apply bind_ok in Hrun as (processed & w3 & _ & Hrun).
      apply bind_ok in Hrun as (found & w4 & _ & Hrun).
      apply ret_ok in Hrun as [-> _]. now apply slice_to_length.
    + intros w1 l1 w2. now apply generate_flashcards_fallback_bounded.
  - unfold generate_questions.
    apply sliced_or_fallback; [exact Hc| |].
    + intros w1 l1 w2. rewrite !bind_eq. intros Hrun.
      apply bind_ok in Hrun as (processed & w3 & _ & Hrun).
      apply bind_ok in Hrun as (found & w4 & _ & Hrun).
      apply ret_ok in Hrun as [-> _]. now apply slice_to_length.
    + intros w1 l1 w2. now apply generate_questions_fallback_bounded.
Qed.

End WithLibraries.

Lemma generators_bounded_witness :
  0 <= 3
  /\ (forall l w',
        generate_flashcards (nltk := Bench.nltk)
          Bench.service Bench.notes "Biology" "intermediate" 3 Bench.world
        = (Ok l, w') -> Z.of_nat (List.length l) <= 3)
  /\ (forall l w',
        generate_questions (nltk := Bench.nltk)
          Bench.service Bench.notes "Biology" "intermediate" 3 Bench.world
        = (Ok l, w') -> Z.of_nat (List.length l) <= 3).
Proof.
  split; [lia|].
  apply (generators_bounded (nltk := Bench.nltk)).
  lia.
Defined.

End AIBounds.

Module UniqueFacts.
Import Text.

Lemma mem_In x l : mem x l = true <-> In x l.
Proof.
  unfold mem. rewrite existsb_exists. split.
  - intros (y & Hy & E). apply String.eqb_eq in E. now subst.
  - intros Hx. exists x. split; [exact Hx | apply String.eqb_refl].
Qed.

Lemma mem_false x l : mem x l = false <-> ~ In x l.
Proof. rewrite <- mem_In. destruct (mem x l); split; congruence. Qed.

Lemma unique_aux_spec l : forall seen,
  List.NoDup (unique_aux seen l)
  /\ forall x, In x (unique_aux seen l) -> In x l /\ ~ In x seen.
Proof.
  induction l as [|y l IH]; intros seen; simpl.
  - split; [constructor | intros x []].
  - fold (mem y seen). destruct (mem y seen) eqn:E.
    + destruct (IH seen) as [Hn Hx]. split; [exact Hn|].
      intros x Hin. destruct (Hx x Hin). auto.
    + destruct (IH (y :: seen)) as [Hn Hx]. apply mem_false in E. split.
      * constructor; [|exact Hn]. intros Hin. apply Hx in Hin as [_ Hs].
        apply Hs. now left.
      * intros x [<-|Hin]; [auto|].
        apply Hx in Hin as [Hl Hs]. split; [auto|].
        intros Hs'. apply Hs. now right.
Qed.

Lemma unique_NoDup l : List.NoDup (unique l).
Proof. apply unique_aux_spec. Qed.

Lemma unique_In l x : In x (unique l) -> In x l.
Proof. intros Hx. now apply (unique_aux_spec l []) in Hx. Qed.

Lemma firstn_In {A} n (l : list A) x : In x (firstn n l) -> In x l.
Proof.
  revert n. induction l as [|y l IH]; intros [|n]; simpl; try tauto.
  intros [->|Hx]; [now left | right; eauto].
Qed.

Lemma firstn_NoDup {A} n (l : list A) : List.NoDup l -> List.NoDup (firstn n l).
Proof.
  intros Hl. revert n. induction Hl as [|x l Hx Hl IH]; intros [|n]; simpl;
    try constructor.
  - intros Hin. apply Hx. eapply firstn_In; eauto.
  - apply IH.
Qed.

End UniqueFacts.

Module AIFallback.
Import Text AI EffFacts PyMore PyFacts UniqueFacts AIBounds.

Section WithLibraries.
Context {nltk : Nltk}.

Lemma bind_lift_ok {A B} (a : A) (k : A -> M B) :
  Eff.bind (Eff.lift (Ok a)) k = k a.
Proof. reflexivity. Qed.

(** ** The key concepts are distinct *)

Lemma most_common_NoDup n l : List.NoDup (most_common n l).
Proof.
  unfold most_common. apply firstn_NoDup.
  apply (Permutation_NoDup (l := unique l)); [|apply unique_NoDup].
  symmetry. apply sort_desc_perm.
Qed.

Lemma extract_concepts_simple_NoDup self content :
  List.NoDup (extract_concepts_simple self content).
Proof. unfold extract_concepts_simple. apply firstn_NoDup, unique_NoDup. Qed.

Lemma extract_key_concepts_NoDup self content :
  List.NoDup (extract_key_concepts self content).
Proof.
  unfold extract_key_concepts.
  destruct (negb (truthy content)); [constructor|].
  destruct (nlp self) as [parse|].
  - destruct (parse content); cbn [mbind result_bind Py.bind].
    + unfold spacy_concepts. apply firstn_NoDup, unique_NoDup.
    + apply extract_concepts_simple_NoDup.
  - apply extract_concepts_simple_NoDup.
Qed.

(** ** The first loop *)

Lemma flashcard_templates_known difficulty :
  known_difficulty difficulty ->
  exists templates,
    flashcard_templates difficulty = Ok templates
    /\ List.length templates = 5%nat.
Proof.
  intros [-> | [-> | ->]]; eexists; split; reflexivity.
Qed.

Lemma generate_contextual_answer_returns concept topic content difficulty :
  returns (sent_tokenize content) ->
  returns (generate_contextual_answer concept topic content difficulty).
Proof.
  intros [sentences Hs]. unfold generate_contextual_answer, returns.
  rewrite Hs. cbn [mbind result_bind Py.bind].
  destruct (List.filter _ sentences); [eauto|].
  destruct (String.eqb difficulty "beginner"); [eauto|].
  destruct (String.eqb difficulty "intermediate"); eauto.
Qed.

(** With distinct concepts, none of them used yet, the first loop returns
    and adds exactly one card for every concept. *)
Lemma concept_cards_returns content topic difficulty concepts :
  known_difficulty difficulty ->
  returns (sent_tokenize content) ->
  List.NoDup concepts ->
  forall i used flashcards,
    (forall c, In c concepts -> ~ In c used) ->
    exists l,
      concept_cards content topic difficulty i concepts used flashcards = Ok l
      /\ List.length l = (List.length flashcards + List.length concepts)%nat.
Proof.
  intros Hd Hs Hn.
  destruct (flashcard_templates_known difficulty Hd) as (templates & Ht & Hlen).
  induction Hn as [|c concepts Hc Hn IH]; intros i used flashcards Hu; simpl.
  - exists flashcards. split; [reflexivity | lia].
  - assert (Em : mem c used = false).
    { apply mem_false. apply Hu. now left. }
    rewrite Em, Ht. cbn [mbind result_bind Py.bind].
    destruct (index_ok templates (i mod Z.of_nat (List.length templates)))
      as [template Hi].
    { rewrite Hlen. pose proof (Z.mod_pos_bound i 5). lia. }
    rewrite Hi.
    destruct (generate_contextual_answer_returns c topic content difficulty Hs)
      as [answer Ha].
    rewrite Ha.
    destruct (IH (i + 1) (c :: used)
                 (flashcards ++ [{| c_question := template c topic;
                                    c_answer := answer |}]))
      as (l & Hl & Hlen').
    { intros d Hd' [<-|Hin]; [contradiction|]. apply (Hu d); [now right | exact Hin]. }
    exists l. split; [exact Hl|]. rewrite Hlen', length_app. simpl. lia.
Qed.

End WithLibraries.

End AIFallback.

Module AIClaims.
Import Text AI EffFacts PyMore PyFacts UniqueFacts AIBounds AIFallback.

Section WithLibraries.
Context {nltk : Nltk}.

(** ** The question fallback never returns *)

(** The exception that leaves [generate_questions_fallback]: what
    [sent_tokenize] raises on the content, or else the [AttributeError]
    of the first method that the dictionary of generators looks up and
    that the class does not define. *)
Definition fallback_exception (content : string) : exn :=
  match sent_tokenize content with
  | Ok _ =>
      AttributeError
        "'AIService' object has no attribute 'create_identification_question'"
  | Raise e => e
  end.

Lemma generate_questions_fallback_raises self content topic difficulty count w :
  generate_questions_fallback self content topic difficulty count w
  = (Raise (fallback_exception content), w).
Proof.
  unfold generate_questions_fallback, fallback_exception.
  destruct (sent_tokenize content) as [sentences|e]; reflexivity.
Qed.

(** C1.  [generate_questions] never returns the list of a fallback.
    Without a key it raises, whatever the content, the topic, the
    difficulty and the count: the fallback of its [try] block raises, and
    so does the fallback of its handler, when they build the dictionary
    of question generators out of methods that the class does not have;
    the world is left as it was.  With a key, when the call of the API
    raises, the fallback of the handler raises in the same way, from the
    world in which the call raised.  The exception is an
    [AttributeError] (or what [sent_tokenize] raises on the content). *)
Theorem generate_questions_raises (self : AIService)
  (content topic difficulty : string) (count : Z) (w : World) :
  (key_configured self = false ->
   generate_questions self content topic difficulty count w
   = (Raise (fallback_exception content), w))
  /\ (forall processed e w1,
        key_configured self = true ->
        preprocess_content content = Ok processed ->
        generate_questions_huggingface (recursion_limit w) processed topic
          difficulty count w = (Raise e, w1) ->
        generate_questions self content topic difficulty count w
        = (Raise (fallback_exception content), w1)).
Proof.
  split.
  - intros Hk.
    assert (Hbody : forall processed,
      (questions ← generate_questions_fallback self processed topic difficulty count;
       Eff.ret (slice_to (validate_questions questions difficulty) count)) w
      = (Raise (fallback_exception processed), w)).
    { intros processed. rewrite bind_eq. unfold Eff.bind.
      now rewrite generate_questions_fallback_raises. }
    unfold generate_questions, Eff.try_except.
    rewrite Hk, bind_eq. unfold Eff.bind at 1, Eff.lift.
    destruct (preprocess_content content) as [processed|e].
    + rewrite Hbody. apply generate_questions_fallback_raises.
    + apply generate_questions_fallback_raises.
  - intros processed e w1 Hk Hp Hr.
    unfold generate_questions, Eff.try_except.
    rewrite Hk, Hp. unfold mbind, M_bind, Eff.bind, Eff.lift, Eff.get.
    rewrite Hr. apply generate_questions_fallback_raises.
Qed.

(** ** The flashcard fallback does not use the world *)

Lemma pure_missing {A B} (name : string) (k : A -> M B) :
  Eff.pure (Eff.bind (Eff.lift (missing_attribute name)) k).
Proof. eexists. intros w. reflexivity. Qed.

(** C5, amended.  [generate_flashcards_fallback] does not use the world:
    two calls with the same arguments give the same result (the same
    list, or the same exception) in any two worlds, and a call leaves the
    world as it found it. *)
Theorem generate_flashcards_fallback_stateless (self : AIService)
  (content topic difficulty : string) (count : Z)
  (key_concepts : option (list string)) :
  (forall w1 w2,
     fst (generate_flashcards_fallback self content topic difficulty count
                                       key_concepts w1)
     = fst (generate_flashcards_fallback self content topic difficulty count
                                         key_concepts w2))
  /\ (forall w,
        snd (generate_flashcards_fallback self content topic difficulty count
                                          key_concepts w) = w).
Proof.
  assert (Hp : Eff.pure (generate_flashcards_fallback self content topic
                            difficulty count key_concepts)).
  { unfold generate_flashcards_fallback. rewrite !bind_eq.
    apply pure_bind; [apply pure_lift|]. intros flashcards.
    apply pure_bind; [apply pure_lift|]. intros sentences.
    apply pure_for_each. intros i s. unfold sentence_card.
    destruct (_ <? _); [|apply pure_ret].
    rewrite !bind_eq.
    apply pure_bind; [apply pure_lift|]. intros sentence.
    apply pure_missing. }
  destruct Hp as [r Hr]. split; intros; now rewrite !Hr.
Qed.

End WithLibraries.

(** The call of the integration test (test_integration.py, lines
    165-174), with no key in the environment and a sentence tokenizer
    that returns. *)
Lemma generate_questions_raises_witness :
  key_configured Bench.service = false
  /\ generate_questions (nltk := Bench.nltk) Bench.service
       "This is a test content about machine learning algorithms."
       "Machine Learning" "intermediate" 2 Bench.world
     = (Raise (AttributeError
                 "'AIService' object has no attribute 'create_identification_question'"),
        Bench.world).
Proof.
  split; [reflexivity|].
  exact (proj1 (generate_questions_raises (nltk := Bench.nltk) Bench.service
                  "This is a test content about machine learning algorithms."
                  "Machine Learning" "intermediate" 2 Bench.world) eq_refl).
Defined.

(** [generate_flashcards] raises as well when the count is above the
    number of key concepts: the second loop of the fallback calls
    [create_question_from_sentence], which the class does not have; and
    for a difficulty that is not one of the three, the table of
    templates raises [KeyError]. *)
Lemma generate_flashcards_raises_examples :
  fst (generate_flashcards (nltk := Bench.nltk) Bench.service Bench.notes
         "Biology" "intermediate" 20 Bench.world)
  = Raise (AttributeError
             "'AIService' object has no attribute 'create_question_from_sentence'")
  /\ fst (generate_flashcards (nltk := Bench.nltk) Bench.service Bench.notes
            "Biology" "mixed" 5 Bench.world)
     = Raise (KeyError "mixed").
Proof. vm_compute. split; reflexivity. Qed.

(** C5 as stated fails for the generator that draws random numbers: a
    second call of [generate_dynamic_flashcards] with the same
    arguments, in the world the first call left, returns other
    flashcards, and the first call has moved the generator. *)
Lemma generators_use_random_state :
  let cards :=
    DynAI.generate_dynamic_flashcards (pipeline := Bench.pipeline)
      "Plants make sugar." "Biology" 1 in
  fst (cards Bench.world) <> fst (cards (snd (cards Bench.world)))
  /\ drawn (snd (cards Bench.world)) <> drawn Bench.world.
Proof. vm_compute. split; discriminate. Qed.

End AIClaims.

(* ===================================================================== *)
(** * Further properties of the code *)
(* ===================================================================== *)

Module CleanFacts.
Import Text Utils TextFacts UtilsFacts.

(** A character of the range [\x20-\x7E]. *)
Definition ascii_printable (c : ascii) : bool := between 32 126 c.

(** A text in which a character that is not of that range is a blank. *)
Definition plain (l : list ascii) : Prop :=
  Forall (fun c => is_space c = true \/ ascii_printable c = true) l.

(** In a collapsed text the only blank is the space. *)
Definition spaces_only (l : list ascii) : Prop :=
  Forall (fun c => is_space c = true -> c = " "%char) l.

Ltac to_nat :=
  unfold is_space, ascii_printable, printable, is_newline, between in *;
  repeat match goal with
         | H : _ |- _ =>
             progress rewrite ?orb_true_iff, ?andb_true_iff, ?orb_false_iff,
               ?andb_false_iff, ?Nat.leb_le, ?Nat.eqb_eq, ?Nat.leb_gt,
               ?Nat.eqb_neq in H
         end;
  rewrite ?orb_true_iff, ?andb_true_iff, ?orb_false_iff, ?andb_false_iff,
    ?Nat.leb_le, ?Nat.eqb_eq, ?Nat.leb_gt, ?Nat.eqb_neq.

Lemma code_space c : code c = 32%nat -> c = " "%char.
Proof. unfold code. intros E. rewrite <- (ascii_nat_embedding c), E. reflexivity. Qed.

Lemma printable_space c :
  is_space c = true -> ascii_printable c = true -> c = " "%char.
Proof. intros Hs Hp. apply code_space. to_nat. lia. Qed.

Lemma printable_kept c : ascii_printable c = true -> printable c = true.
Proof. intros Hp. to_nat. lia. Qed.

Lemma printable_no_newline c : ascii_printable c = true -> is_newline c = false.
Proof.
  intros Hp. destruct (is_newline c) eqn:E; [|reflexivity]. to_nat. lia.
Qed.

Lemma kept_space_printable c :
  (is_space c = true -> c = " "%char) -> printable c = true ->
  ascii_printable c = true.
Proof.
  intros Hs Hp. destruct (is_space c) eqn:E.
  - now rewrite (Hs eq_refl).
  - clear Hs. to_nat. lia.
Qed.

Lemma double_blank_cons c l :
  double_blank (c :: l)
  = (match l with
     | [] => false
     | b :: _ => (is_space c && is_space b) || double_blank l
     end)%bool.
Proof. destruct l; reflexivity. Qed.

Lemma clean_start_no_double c l :
  starts_clean l -> double_blank l = false -> double_blank (c :: l) = false.
Proof.
  intros Hs Hd. rewrite double_blank_cons. destruct l as [|b l]; [reflexivity|].
  simpl in Hs. now rewrite Hs, andb_false_r, Hd.
Qed.

(** ** The first substitution *)

Lemma collapse_ws_aux_spec l : forall in_run,
  spaces_only (collapse_ws_aux in_run l)
  /\ double_blank (collapse_ws_aux in_run l) = false
  /\ (in_run = true -> starts_clean (collapse_ws_aux in_run l)).
Proof.
  induction l as [|c l IH]; intros in_run; simpl.
  - repeat split. constructor.
  - destruct (is_space c) eqn:Ec.
    + destruct in_run.
      * apply IH.
      * destruct (IH true) as (H1 & H2 & H3). repeat split.
        -- constructor; auto.
        -- apply clean_start_no_double; auto.
        -- discriminate.
    + destruct (IH false) as (H1 & H2 & _). repeat split.
      * constructor; [congruence | exact H1].
      * rewrite double_blank_cons.
        destruct (collapse_ws_aux false l); [reflexivity|].
        now rewrite Ec.
      * intros _. exact Ec.
Qed.

Lemma collapse_ws_aux_plain l : forall in_run,
  plain l -> Forall (fun c => ascii_printable c = true) (collapse_ws_aux in_run l).
Proof.
  induction l as [|c l IH]; intros in_run Hp; simpl; [constructor|].
  inversion Hp as [|? ? Hc Hl]; subst.
  destruct (is_space c) eqn:Ec.
  - destruct in_run; [now apply IH|]. constructor; [reflexivity | now apply IH].
  - constructor; [|now apply IH]. destruct Hc; [congruence | assumption].
Qed.

(** A collapsed text is left alone by the substitution. *)
Lemma collapse_ws_aux_fixed l : forall in_run,
  spaces_only l -> double_blank l = false ->
  (in_run = true -> starts_clean l) ->
  collapse_ws_aux in_run l = l.
Proof.
  induction l as [|c l IH]; intros in_run Hs Hd Hr; simpl; [reflexivity|].
  inversion Hs as [|? ? Hc Hl]; subst.
  rewrite double_blank_cons in Hd.
  destruct (is_space c) eqn:Ec.
  - destruct in_run; [specialize (Hr eq_refl); simpl in Hr; congruence|].
    rewrite (Hc eq_refl). f_equal. destruct l as [|b l]; [reflexivity|].
    apply orb_false_iff in Hd as [Hd1 Hd2]. simpl in Hd1.
    apply IH; [exact Hl | exact Hd2 | intros _; exact Hd1].
  - f_equal. destruct l as [|b l]; [reflexivity|].
    apply orb_false_iff in Hd as [_ Hd2].
    apply IH; [exact Hl | exact Hd2 | discriminate].
Qed.

(** ** The second and the third *)

Lemma filter_printable l :
  spaces_only l -> Forall (fun c => ascii_printable c = true) (List.filter printable l).
Proof.
  intros Hs. induction Hs as [|c l Hc Hl IH]; simpl; [constructor|].
  destruct (printable c) eqn:E; [|exact IH].
  constructor; [now apply kept_space_printable | exact IH].
Qed.

Lemma filter_printable_fixed l :
  Forall (fun c => ascii_printable c = true) l -> List.filter printable l = l.
Proof.
  intros Hp. induction Hp as [|c l Hc Hl IH]; simpl; [reflexivity|].
  now rewrite (printable_kept c Hc), IH.
Qed.

(** Without a line feed there is no blank line to squeeze. *)
Lemma squeeze_blank_lines_fixed l :
  Forall (fun c => ascii_printable c = true) l -> squeeze_blank_lines O l = l.
Proof.
  intros Hp. induction Hp as [|c l Hc Hl IH]; simpl; [reflexivity|].
  now rewrite (printable_no_newline c Hc), IH.
Qed.

(** ** Stripping *)

Lemma drop_while_suffix {A} (p : A -> bool) l :
  exists dropped, l = dropped ++ drop_while p l.
Proof.
  induction l as [|x l [d IH]]; simpl; [now exists []|].
  destruct (p x).
  - exists (x :: d). simpl. now f_equal.
  - now exists [].
Qed.

(** What [strip] returns is a piece of the text. *)
Lemma strip_chars_piece l :
  exists before after, l = before ++ rstrip_chars (lstrip_chars l) ++ after.
Proof.
  unfold rstrip_chars, lstrip_chars.
  destruct (drop_while_suffix is_space l) as [before Hb].
  destruct (drop_while_suffix is_space (rev (drop_while is_space l)))
    as [after Ha].
  exists before, (rev after). rewrite <- rev_app_distr, <- Ha, rev_involutive.
  exact Hb.
Qed.

Lemma double_blank_app l1 l2 :
  double_blank (l1 ++ l2) = false ->
  double_blank l1 = false /\ double_blank l2 = false.
Proof.
  induction l1 as [|c l1 IH]; intros Hd; [now split|].
  change ((c :: l1) ++ l2) with (c :: (l1 ++ l2)) in Hd.
  rewrite double_blank_cons in Hd. rewrite double_blank_cons.
  destruct l1 as [|b l1].
  - split; [reflexivity|]. simpl in Hd. destruct l2; [reflexivity|].
    now apply orb_false_iff in Hd.
  - simpl app in Hd. apply orb_false_iff in Hd as [Hd1 Hd2].
    destruct (IH Hd2) as [H1 H2]. split; [|exact H2].
    now rewrite Hd1, H1.
Qed.

Lemma strip_chars_no_double l :
  double_blank l = false ->
  double_blank (rstrip_chars (lstrip_chars l)) = false.
Proof.
  destruct (strip_chars_piece l) as (before & after & E). intros Hd.
  rewrite E in Hd. apply double_blank_app in Hd as [_ Hd].
  now apply double_blank_app in Hd as [Hd _].
Qed.

Lemma strip_chars_Forall (P : ascii -> Prop) l :
  Forall P l -> Forall P (rstrip_chars (lstrip_chars l)).
Proof.
  destruct (strip_chars_piece l) as (before & after & E). intros Hl.
  rewrite E in Hl. apply List.Forall_app in Hl as [_ Hl].
  now apply List.Forall_app in Hl as [Hl _].
Qed.

(** No blank at either end. *)
Definition trimmed (l : list ascii) : Prop :=
  starts_clean l /\ starts_clean (rev l).

Lemma strip_chars_trimmed l : trimmed (rstrip_chars (lstrip_chars l)).
Proof.
  split.
  - apply rstrip_starts_clean, drop_while_starts_clean.
  - unfold rstrip_chars. rewrite rev_involutive. apply drop_while_starts_clean.
Qed.

Lemma strip_chars_fixed l : trimmed l -> rstrip_chars (lstrip_chars l) = l.
Proof.
  intros [H1 H2]. unfold lstrip_chars. rewrite (drop_while_clean l H1).
  unfold rstrip_chars. rewrite (drop_while_clean (rev l) H2).
  apply rev_involutive.
Qed.

(** ** The function *)

Lemma clean_extracted_text_chars s :
  chars (clean_extracted_text s)
  = if truthy s
    then rstrip_chars (lstrip_chars
           (squeeze_blank_lines O
              (List.filter printable (collapse_ws_aux false (chars s)))))
    else [].
Proof.
  unfold clean_extracted_text. destruct (truthy s); [|reflexivity].
  cbn [negb]. unfold strip, keep_only, collapse_ws. now rewrite !chars_text.
Qed.

Lemma clean_extracted_text_range (s : string) :
  Forall (fun c => ascii_printable c = true) (chars (clean_extracted_text s)).
Proof.
  rewrite clean_extracted_text_chars.
  destruct (truthy s); [|constructor].
  destruct (collapse_ws_aux_spec (chars s) false) as (Hs & _ & _).
  pose proof (filter_printable _ Hs) as Hp.
  rewrite (squeeze_blank_lines_fixed _ Hp).
  now apply strip_chars_Forall.
Qed.

Lemma clean_extracted_text_trimmed (s : string) :
  trimmed (chars (clean_extracted_text s)).
Proof.
  rewrite clean_extracted_text_chars.
  destruct (truthy s); [|repeat split; constructor].
  destruct (collapse_ws_aux_spec (chars s) false) as (Hs & _ & _).
  pose proof (filter_printable _ Hs) as Hp.
  rewrite (squeeze_blank_lines_fixed _ Hp).
  apply strip_chars_trimmed.
Qed.

(** X1.  Whatever the text, [clean_extracted_text] returns characters of the
    range [\x20-\x7E] only (no line feed, no tabulation, nothing above
    126), with no blank at either end. *)
Theorem clean_extracted_text_printable_trimmed (s : string) :
  Forall (fun c => ascii_printable c = true) (chars (clean_extracted_text s))
  /\ trimmed (chars (clean_extracted_text s)).
Proof.
  split; [apply clean_extracted_text_range | apply clean_extracted_text_trimmed].
Qed.

(** A text of printable characters, single spaces, and no blank at either
    end is returned as it is. *)
Lemma clean_extracted_text_fixed l :
  Forall (fun c => ascii_printable c = true) l ->
  double_blank l = false -> trimmed l ->
  clean_extracted_text (text l) = text l.
Proof.
  intros Hp Hd Ht. rewrite <- (text_chars (clean_extracted_text (text l))).
  f_equal. rewrite clean_extracted_text_chars, chars_text.
  destruct (truthy (text l)) eqn:E.
  - rewrite (collapse_ws_aux_fixed l false); [| |exact Hd|discriminate].
    + rewrite (filter_printable_fixed l Hp), (squeeze_blank_lines_fixed l Hp).
      now apply strip_chars_fixed.
    + eapply List.Forall_impl; [|exact Hp]. intros c Hc Hs.
      now apply printable_space.
  - apply truthy_false in E. destruct l; [reflexivity | discriminate].
Qed.

(** X2.  On a text in which every character is a blank or of the range
    [\x20-\x7E], the result of [clean_extracted_text] has no two blanks in
    a row, and cleaning it again does not change it. *)
Theorem clean_extracted_text_plain (s : string) :
  plain (chars s) ->
  double_blank (chars (clean_extracted_text s)) = false
  /\ clean_extracted_text (clean_extracted_text s) = clean_extracted_text s.
Proof.
  intros Hs.
  assert (Hd : double_blank (chars (clean_extracted_text s)) = false).
  { rewrite clean_extracted_text_chars. destruct (truthy s); [|reflexivity].
    pose proof (collapse_ws_aux_plain (chars s) false Hs) as Hp.
    rewrite (filter_printable_fixed _ Hp), (squeeze_blank_lines_fixed _ Hp).
    apply strip_chars_no_double. apply collapse_ws_aux_spec. }
  split; [exact Hd|].
  pose proof (clean_extracted_text_range s) as Hp.
  pose proof (clean_extracted_text_trimmed s) as Ht.
  rewrite <- (text_chars (clean_extracted_text s)).
  now apply clean_extracted_text_fixed.
Qed.

Lemma plain_check l :
  forallb (fun c => is_space c || ascii_printable c)%bool l = true -> plain l.
Proof.
  intros Hl. apply List.Forall_forall. intros c Hc.
  rewrite forallb_forall in Hl. apply orb_true_iff. now apply Hl.
Qed.

Lemma clean_extracted_text_plain_witness :
  plain (chars "  Cells   divide. ")
  /\ double_blank (chars (clean_extracted_text "  Cells   divide. ")) = false
  /\ clean_extracted_text (clean_extracted_text "  Cells   divide. ")
     = clean_extracted_text "  Cells   divide. ".
Proof.
  assert (Hp : plain (chars "  Cells   divide. ")).
  { apply plain_check. reflexivity. }
  split; [exact Hp|].
  apply (clean_extracted_text_plain "  Cells   divide. " Hp).
Defined.

End CleanFacts.

Module RateLimiterMore.
Import Utils RateLimiterFacts.

(** X3.  [is_allowed] accepts a call exactly when [get_remaining_requests],
    asked at the same time with the same limit and window, is positive. *)
Theorem is_allowed_iff_remaining (self : RateLimiter)
  (now user_id limit window_minutes : Z) :
  fst (is_allowed self now user_id limit window_minutes)
  = (0 <? get_remaining_requests self now user_id limit window_minutes).
Proof.
  unfold is_allowed, get_remaining_requests.
  destruct (self !! user_id) as [times|] eqn:E; rewrite lookup_insert_eq;
    cbn [from_option id].
  - destruct (_ <? limit) eqn:El at 1; cbn [fst]; symmetry.
    + apply Z.ltb_lt in El. apply Z.ltb_lt. lia.
    + apply Z.ltb_ge in El. apply Z.ltb_ge. lia.
  - change (Z.of_nat (List.length [])) with 0. now destruct (0 <? limit).
Qed.

(** X4.  With a window that is positive, a call that is accepted takes one
    request off what remains, seen at the same time. *)
Theorem accepted_call_counts (self : RateLimiter)
  (now user_id limit window_minutes : Z) :
  0 < window_minutes ->
  fst (is_allowed self now user_id limit window_minutes) = true ->
  get_remaining_requests (snd (is_allowed self now user_id limit window_minutes))
                         now user_id limit window_minutes
  = get_remaining_requests self now user_id limit window_minutes - 1.
Proof.
  intros Hw. unfold is_allowed, get_remaining_requests.
  assert (Hnow : (now - minutes window_minutes <? now) = true).
  { apply Z.ltb_lt. unfold minutes. lia. }
  destruct (self !! user_id) as [times|] eqn:E; rewrite lookup_insert_eq;
    cbn [from_option id].
  - destruct (_ <? limit) eqn:El; cbn [fst snd]; [intros _|discriminate].
    apply Z.ltb_lt in El. rewrite lookup_insert_eq.
    rewrite recent_app, (recent_recent _ _ times) by lia.
    unfold recent at 2. cbn [List.filter]. rewrite Hnow, length_app.
    cbn [List.length]. lia.
  - change (Z.of_nat (List.length [])) with 0.
    destruct (0 <? limit) eqn:El; cbn [fst snd];
      [intros _|discriminate].
    apply Z.ltb_lt in El. rewrite lookup_insert_eq.
    unfold recent. cbn [app List.filter]. rewrite Hnow. cbn [List.length]. lia.
Qed.

Lemma accepted_call_counts_witness :
  0 < 60
  /\ fst (is_allowed new_rate_limiter 1000 7 5 60) = true
  /\ get_remaining_requests (snd (is_allowed new_rate_limiter 1000 7 5 60))
                            1000 7 5 60
     = get_remaining_requests new_rate_limiter 1000 7 5 60 - 1.
Proof.
  assert (Ha : fst (is_allowed new_rate_limiter 1000 7 5 60) = true)
    by reflexivity.
  split; [lia|]. split; [exact Ha|].
  apply (accepted_call_counts new_rate_limiter 1000 7 5 60); [lia | exact Ha].
Defined.

(** X5.  A call of one user does not change what remains for another user,
    whenever and with whatever limit and window that is asked. *)
Theorem other_users_unaffected (self : RateLimiter)
  (now user_id limit window_minutes : Z)
  (now' other limit' window_minutes' : Z) :
  other <> user_id ->
  get_remaining_requests (snd (is_allowed self now user_id limit window_minutes))
                         now' other limit' window_minutes'
  = get_remaining_requests self now' other limit' window_minutes'.
Proof.
  intros Hne. unfold is_allowed, get_remaining_requests.
  assert (H1 : forall m : RateLimiter, forall times,
             <[user_id := times]> m !! other = m !! other).
  { intros m times. now apply lookup_insert_ne. }
  destruct (self !! user_id) as [times|]; rewrite lookup_insert_eq;
    cbn [from_option id]; destruct (_ <? limit); cbn [snd];
    now rewrite ?H1.
Qed.

Lemma other_users_unaffected_witness :
  2 <> 1
  /\ get_remaining_requests (snd (is_allowed new_rate_limiter 0 1 5 60)) 3 2 5 60
     = get_remaining_requests new_rate_limiter 3 2 5 60.
Proof.
  split; [lia|].
  apply (other_users_unaffected new_rate_limiter 0 1 5 60 3 2 5 60). lia.
Defined.

End RateLimiterMore.

Module SortFacts.
Import PyFacts.

Section Stable.
Context {A : Type} (key : A -> Z).

Lemma insert_desc_same_key x l k :
  List.filter (fun y => key y =? k) (insert_desc key x l)
  = List.filter (fun y => key y =? k) (x :: l).
Proof.
  induction l as [|y l IH]; [reflexivity|].
  cbn [insert_desc]. destruct (key x <? key y) eqn:E; [|reflexivity].
  apply Z.ltb_lt in E. cbn [List.filter] in *. rewrite IH.
  destruct (key x =? k) eqn:Ex; [|reflexivity].
  apply Z.eqb_eq in Ex.
  assert (Ey : (key y =? k) = false) by (apply Z.eqb_neq; lia).
  now rewrite Ey.
Qed.

(** The sort is stable: the elements of one key come out in the order in
    which they went in. *)
Lemma sort_desc_stable l k :
  List.filter (fun y => key y =? k) (sort_desc key l)
  = List.filter (fun y => key y =? k) l.
Proof.
  induction l as [|x l IH]; [reflexivity|].
  cbn [sort_desc]. rewrite insert_desc_same_key. cbn [List.filter].
  now rewrite IH.
Qed.

End Stable.

Lemma filter_map_swap {A B} (f : A -> B) (p : B -> bool) l :
  List.filter p (map f l) = map f (List.filter (fun x => p (f x)) l).
Proof.
  induction l as [|x l IH]; simpl; [reflexivity|].
  destruct (p (f x)); simpl; now rewrite IH.
Qed.

End SortFacts.

Module RankingMore.
Import Text Utils TextFacts PyFacts SortFacts UtilsFacts.

Section Ranking.
Context {nltk : Nltk}.

(** X6.  Sentences of equal score keep the order of the input:
    [rank_sentences_by_importance] lists the sentences of one score as the
    input does, stripped, the blank ones left out. *)
Theorem rank_sentences_by_importance_stable (sentences : list string) (score : Z) :
  List.filter (fun s => calculate_sentence_importance s =? score)
              (rank_sentences_by_importance sentences)
  = List.filter (fun s => calculate_sentence_importance s =? score)
                (map strip (List.filter (fun s => truthy (strip s)) sentences)).
Proof.
  assert (Hr : rank_sentences_by_importance sentences
               = map fst (sort_desc snd (score_sentences sentences))).
  { destruct sentences; reflexivity. }
  rewrite Hr, filter_map_swap.
  rewrite (List.filter_ext_in _ (fun p => snd p =? score)).
  - rewrite sort_desc_stable, score_sentences_spec, filter_map_swap.
    rewrite filter_map_swap, map_map. cbn [fst snd].
    f_equal. apply List.filter_ext. intros s.
    now rewrite calculate_sentence_importance_strip.
  - intros p Hp. rewrite (score_sentences_keys sentences); [reflexivity|].
    apply (Permutation_in _ (sort_desc_perm snd (score_sentences sentences))).
    exact Hp.
Qed.

End Ranking.

End RankingMore.

Module CacheFacts.
Import UtilsMore.


Section Cache.
Context {V : Type}.


End Cache.

End CacheFacts.

Module SyllableFacts.
Import Text UtilsMore.

(** The number of vowels of a word. *)
Definition vowels (word : list ascii) : Z :=
  Z.of_nat (List.length (List.filter is_vowel word)).

Lemma count_groups_bounds word : forall prev,
  0 <= count_groups prev word <= vowels word.
Proof.
  unfold vowels. induction word as [|c word IH]; intros prev; simpl; [lia|].
  specialize (IH (is_vowel c)).
  destruct (is_vowel c); destruct prev; simpl in *; lia.
Qed.

(** X8.  [count_syllables] is at least 1, also for the empty word and for a
    word without vowels, and at most the number of vowels of the word in
    lower case when there is one. *)
Theorem count_syllables_bounds (word : string) :
  1 <= count_syllables word
  <= Z.max 1 (vowels (chars (lower word))).
Proof.
  unfold count_syllables.
  pose proof (count_groups_bounds (chars (lower word)) false) as Hb.
  destruct (endswith (lower word) "e" && _)%bool; lia.
Qed.

End SyllableFacts.

Module FileFacts.
Import Text UtilsMore.

Lemma mem_allowed extension :
  mem extension ALLOWED_EXTENSIONS = true ->
  extension = "txt" \/ extension = "pdf" \/ extension = "doc"
  \/ extension = "docx" \/ extension = "md" \/ extension = "rtf".
Proof.
  unfold mem, ALLOWED_EXTENSIONS. cbn [existsb].
  rewrite !orb_true_iff, !String.eqb_eq. intuition discriminate.
Qed.

(** X9.  A file name that [allowed_file] accepts has a type that
    [get_file_type] knows; [process_uploaded_file] goes on to an
    extractor for it unless the extension is rtf, in any case of the
    letters: an rtf file is allowed and then refused with a
    [ValueError]. *)
Theorem allowed_file_has_type (filename : string) :
  allowed_file filename = true ->
  get_file_type filename <> "unknown"
  /\ (get_file_type filename = "rtf"
      /\ process_uploaded_file_choice filename
         = Raise (ValueError "Unsupported file type: rtf")
      \/ get_file_type filename <> "rtf"
         /\ returns (process_uploaded_file_choice filename)).
Proof.
  unfold allowed_file, process_uploaded_file_choice, get_file_type.
  destruct filename as [|c filename]; [discriminate|]. cbn [truthy negb].
  destruct (after_last_dot (String c filename)) as [extension|]; [|discriminate].
  intros Hm. apply mem_allowed in Hm.
  destruct Hm as [-> | [-> | [-> | [-> | [-> | ->]]]]]; cbn;
    (split; [discriminate|]);
    try (right; split; [discriminate | eexists; reflexivity]).
  left. split; reflexivity.
Qed.

Lemma allowed_file_has_type_witness :
  allowed_file "notes.final.RTF" = true
  /\ get_file_type "notes.final.RTF" <> "unknown"
  /\ (get_file_type "notes.final.RTF" = "rtf"
      /\ process_uploaded_file_choice "notes.final.RTF"
         = Raise (ValueError "Unsupported file type: rtf")
      \/ get_file_type "notes.final.RTF" <> "rtf"
         /\ returns (process_uploaded_file_choice "notes.final.RTF")).
Proof.
  split; [reflexivity|].
  apply (allowed_file_has_type "notes.final.RTF"). reflexivity.
Defined.

End FileFacts.

Module StringFacts.
Import Text TextFacts CleanFacts.

Lemma chars_length s : List.length (chars s) = String.length s.
Proof. induction s as [|c s IH]; simpl; [reflexivity | now rewrite IH]. Qed.

Lemma len_chars s : len s = Z.of_nat (List.length (chars s)).
Proof. unfold len. now rewrite chars_length. Qed.

Lemma chars_app a b : chars (a +:+ b) = chars a ++ chars b.
Proof. induction a as [|c a IH]; simpl; [reflexivity | now rewrite IH]. Qed.

Lemma len_app a b : len (a +:+ b) = len a + len b.
Proof. rewrite !len_chars, chars_app, length_app. lia. Qed.

Lemma len_text l : len (text l) = Z.of_nat (List.length l).
Proof. now rewrite len_chars, chars_text. Qed.

Lemma len_take n s : len (take n s) <= Z.of_nat n.
Proof. unfold take. rewrite len_text, length_firstn. lia. Qed.

Lemma endswith_app s p : endswith (s +:+ p) p = true.
Proof.
  unfold endswith. rewrite chars_app, rev_app_distr.
  induction (rev (chars p)) as [|c l IH]; simpl; [reflexivity|].
  now rewrite Ascii.eqb_refl.
Qed.

Lemma len_strip s : len (strip s) <= len s.
Proof.
  unfold strip. rewrite len_text, len_chars.
  destruct (strip_chars_piece (chars s)) as (before & after & E).
  rewrite E at 2. rewrite !length_app. lia.
Qed.

End StringFacts.

Module ValidateFacts.
Import Text AI StringFacts.

(** What [validate_flashcards] lets through. *)
Definition valid_card (difficulty : string) (card : card) : Prop :=
  endswith (c_question card) "?" = true
  /\ 10 <= len (c_question card)
  /\ 15 <= len (c_answer card)
  /\ (difficulty = "beginner" -> len (c_answer card) <= 103).

Lemma enhance_answer_quality_len answer difficulty :
  15 <= len answer ->
  15 <= len (enhance_answer_quality answer difficulty)
  /\ (difficulty = "beginner" ->
      len (enhance_answer_quality answer difficulty) <= 103).
Proof.
  intros Ha. unfold enhance_answer_quality.
  destruct (String.eqb difficulty "beginner") eqn:Eb.
  - destruct (100 <? len answer) eqn:El.
    + apply Z.ltb_lt in El. rewrite len_app.
      change (len "...") with 3.
      pose proof (len_take 100 answer) as Ht.
      assert (len (take 100 answer) = 100).
      { unfold take. rewrite len_text, length_firstn.
        rewrite len_chars in El. lia. }
      lia.
    + apply Z.ltb_ge in El. lia.
  - split; [|intros ->; discriminate].
    destruct (String.eqb difficulty "advanced"); [|exact Ha].
    destruct (len answer <? 50); [|exact Ha].
    rewrite len_app. unfold len at 2. lia.
Qed.

(** X10.  Every card that [validate_flashcards] returns has a question of at
    least 10 characters that ends with a question mark and an answer of
    at least 15 characters, of at most 103 for the difficulty 'beginner';
    and the method returns no more cards than it is given. *)
Theorem validate_flashcards_valid (flashcards : list card) (difficulty : string) :
  Forall (valid_card difficulty) (validate_flashcards flashcards difficulty)
  /\ (List.length (validate_flashcards flashcards difficulty)
      <= List.length flashcards)%nat.
Proof.
  induction flashcards as [|card rest [IH1 IH2]]; cbn [validate_flashcards].
  - split; [constructor | reflexivity].
  - cbn [List.length].
    destruct (negb (truthy (c_question card)) || negb (truthy (c_answer card)))%bool;
      [split; [exact IH1 | lia]|].
    destruct ((len (strip (c_question card)) <? 10)
              || (len (strip (c_answer card)) <? 15)) eqn:El;
      [split; [exact IH1 | lia]|].
    destruct (String.eqb _ _); [split; [exact IH1 | lia]|].
    apply orb_false_iff in El as [Hq Ha].
    apply Z.ltb_ge in Hq, Ha.
    split; [|cbn [List.length]; lia].
    constructor; [|exact IH1].
    destruct (enhance_answer_quality_len (strip (c_answer card)) difficulty Ha)
      as [H1 H2].
    unfold valid_card. cbn [c_question c_answer].
    destruct (endswith (strip (c_question card)) "?") eqn:Ee.
    + auto.
    + rewrite endswith_app, len_app. unfold len at 2. cbn [String.length].
      repeat split; auto; lia.
Qed.

(** What [validate_questions] lets through. *)
Definition valid_quiz (question : quiz) : Prop :=
  exists text_ options correct,
    question = {| q_question := Some text_; q_options := Some options;
                  q_correct_answer := Some correct |}
    /\ endswith text_ "?" = true /\ 10 <= len text_
    /\ List.length options = 4%nat
    /\ Forall (fun opt => 3 <= len opt) options
    /\ 0 <= correct < 4.

(** X11.  Every question that [validate_questions] returns has the three keys,
    a text of at least 10 characters that ends with a question mark,
    exactly four options of at least 3 characters each, and a
    [correct_answer] between 0 and 3; the method returns no more
    questions than it is given. *)
Theorem validate_questions_valid (questions : list quiz) (difficulty : string) :
  Forall valid_quiz (validate_questions questions difficulty)
  /\ (List.length (validate_questions questions difficulty)
      <= List.length questions)%nat.
Proof.
  induction questions as [|question rest [IH1 IH2]]; cbn [validate_questions].
  - split; [constructor | reflexivity].
  - cbn [List.length].
    destruct (q_question question) as [text_|]; [|split; [exact IH1 | lia]].
    destruct (q_options question) as [options|]; [|split; [exact IH1 | lia]].
    destruct (q_correct_answer question) as [correct|];
      [|split; [exact IH1 | lia]].
    destruct (Z.of_nat (List.length options) =? 4) eqn:E4; cbn [negb];
      [|split; [exact IH1 | lia]].
    destruct ((0 <=? correct) && (correct <? 4)) eqn:Ec; cbn [negb];
      [|split; [exact IH1 | lia]].
    destruct (len (strip text_) <? 10) eqn:El; [split; [exact IH1 | lia]|].
    destruct (existsb _ _) eqn:Eo; [split; [exact IH1 | lia]|].
    split; [|cbn [List.length]; lia].
    constructor; [|exact IH1].
    apply Z.eqb_eq in E4. apply andb_true_iff in Ec as [Hc1 Hc2].
    apply Z.leb_le in Hc1. apply Z.ltb_lt in Hc2. apply Z.ltb_ge in El.
    eexists _, _, _. split; [reflexivity|].
    assert (Ho : Forall (fun opt => 3 <= len opt) (map strip options)).
    { apply List.Forall_forall. intros opt Hopt.
      destruct (len opt <? 3) eqn:E3; [|now apply Z.ltb_ge in E3].
      exfalso. assert (existsb (fun opt => len opt <? 3) (map strip options) = true).
      { apply existsb_exists. eauto. }
      congruence. }
    rewrite length_map.
    destruct (endswith (strip text_) "?") eqn:Ee.
    + repeat split; auto; lia.
    + rewrite endswith_app, len_app. unfold len at 2. cbn [String.length].
      repeat split; auto; lia.
Qed.

End ValidateFacts.

Module ConceptFacts.
Import Text AI TextFacts CleanFacts StringFacts PyFacts SortFacts UniqueFacts
  AIFallback EffFacts PyMore.

Section WithLibraries.
Context {nltk : Nltk}.

(** X12.  [extract_key_concepts] returns at most 25 concepts, all distinct, with
    or without spaCy and NLTK and whether or not they fail; and no
    concept for the empty content. *)
Theorem extract_key_concepts_distinct (self : AIService) (content : string) :
  List.NoDup (extract_key_concepts self content)
  /\ (List.length (extract_key_concepts self content) <= 25)%nat
  /\ extract_key_concepts self "" = [].
Proof.
  split; [apply extract_key_concepts_NoDup|]. split; [|reflexivity].
  assert (Hs : (List.length (extract_concepts_simple self content) <= 25)%nat).
  { unfold extract_concepts_simple. rewrite length_firstn. lia. }
  unfold extract_key_concepts.
  destruct (negb (truthy content)); [simpl; lia|].
  destruct (nlp self) as [parse|].
  - destruct (parse content); cbn [mbind result_bind Py.bind]; [|exact Hs].
    unfold spacy_concepts. rewrite length_firstn. lia.
  - exact Hs.
Qed.

(** ** preprocess_content *)

(** The content after the two substitutions of [preprocess_content]. *)
Definition cleaned (content : string) : string :=
  keep_only kept_char (collapse_ws (strip content)).

(** X13.  [preprocess_content] returns when the content, cleaned by its two
    substitutions, has at most 1500 characters: the result is the cleaned
    content stripped, of at most 1500 characters and with no blank at
    either end.  A longer content is never cut: the method raises the
    [NameError] of [HAS_NLTK], which the file does not bind. *)
Theorem preprocess_content_short (content : string) :
  match preprocess_content content with
  | Ok processed =>
      len (cleaned content) <= 1500
      /\ processed = strip (cleaned content)
      /\ len processed <= 1500
      /\ trimmed (chars processed)
  | Raise e =>
      e = NameError "name 'HAS_NLTK' is not defined"
      /\ 1500 < len (cleaned content)
  end.
Proof.
  unfold preprocess_content.
  destruct content as [|c content]; [vm_compute; repeat split; discriminate|].
  cbn [truthy negb]. fold (cleaned (String c content)).
  destruct (max_length <? len (cleaned (String c content))) eqn:E.
  - apply Z.ltb_lt in E. unfold max_length in E.
    cbn [HAS_NLTK mbind result_bind Py.bind]. split; [reflexivity | exact E].
  - apply Z.ltb_ge in E. unfold max_length in E.
    cbn [mbind result_bind Py.bind].
    pose proof (len_strip (cleaned (String c content))).
    split; [exact E|]. split; [reflexivity|]. split; [lia|].
    unfold strip. rewrite chars_text. apply strip_chars_trimmed.
Qed.

(** ** rank_sentences_by_importance *)

(** X14.  [AIService.rank_sentences_by_importance] returns the sentences it is
    given, in an order of non-increasing score, the sentences of one
    score in the order of the input. *)
Theorem rank_sentences_by_importance_sorted (sentences : list string)
  (topic : string) :
  Permutation (rank_sentences_by_importance sentences topic) sentences
  /\ descending (sentence_score topic)
                (rank_sentences_by_importance sentences topic)
  /\ (forall score,
        List.filter (fun s => sentence_score topic s =? score)
                    (rank_sentences_by_importance sentences topic)
        = List.filter (fun s => sentence_score topic s =? score) sentences).
Proof.
  unfold rank_sentences_by_importance.
  set (scored := map (fun s => (s, sentence_score topic s)) sentences).
  assert (Hk : forall p, In p (sort_desc snd scored) ->
                         sentence_score topic (fst p) = snd p).
  { intros p Hp.
    apply (Permutation_in _ (sort_desc_perm snd scored)) in Hp.
    subst scored. apply in_map_iff in Hp as (s & <- & _). reflexivity. }
  assert (Hm : map fst scored = sentences).
  { subst scored. rewrite map_map. apply map_id. }
  split; [|split].
  - rewrite (sort_desc_perm snd scored). now rewrite Hm.
  - apply (descending_map fst snd); [exact Hk | apply sort_desc_sorted].
  - intros score. rewrite filter_map_swap.
    rewrite (List.filter_ext_in _ (fun p => snd p =? score)).
    + rewrite sort_desc_stable. subst scored.
      rewrite filter_map_swap, map_map. cbn [fst snd]. now rewrite map_id.
    + intros p Hp. now rewrite Hk.
Qed.

(** ** The first loop is enough when there are enough concepts *)

(** X15.  When the content has at least [count] key concepts, the fallback
    returns exactly [count] flashcards and does not reach the call of
    [create_question_from_sentence], a method that the class does not
    have: the call returns and leaves the world as it is. *)
Theorem generate_flashcards_fallback_from_concepts (self : AIService)
  (content topic difficulty : string) (count : Z) (w : World) :
  known_difficulty difficulty ->
  returns (sent_tokenize content) ->
  0 <= count <= Z.of_nat (List.length (extract_key_concepts self content)) ->
  exists l,
    generate_flashcards_fallback self content topic difficulty count None w
    = (Ok l, w)
    /\ Z.of_nat (List.length l) = count.
Proof.
  intros Hd Hs Hc. unfold generate_flashcards_fallback.
  set (kc := extract_key_concepts self content) in *.
  set (n := Z.to_nat (Z.min count (Z.of_nat (List.length kc)))).
  destruct (concept_cards_returns content topic difficulty (firstn n kc) Hd Hs
              (firstn_NoDup n kc (extract_key_concepts_NoDup self content))
              0 [] [] (fun c _ H => H))
    as (flashcards & Hf & Hlen).
  rewrite length_firstn in Hlen. simpl in Hlen.
  rewrite Hf. destruct Hs as [sentences Hs]. rewrite Hs.
  unfold mbind, M_bind. rewrite !bind_lift_ok.
  assert (Hr : range (Z.of_nat (List.length flashcards)) count = []).
  { unfold range. replace (Z.to_nat (count - _)) with 0%nat by lia. reflexivity. }
  rewrite Hr. exists flashcards. split; [reflexivity | lia].
Qed.

End WithLibraries.

Lemma generate_flashcards_fallback_from_concepts_witness :
  known_difficulty "advanced"
  /\ returns (sent_tokenize (Nltk := Bench.nltk) Bench.notes)
  /\ 0 <= 4 <= Z.of_nat (List.length
                (extract_key_concepts (nltk := Bench.nltk) Bench.service Bench.notes))
  /\ exists l,
       generate_flashcards_fallback (nltk := Bench.nltk)
         Bench.service Bench.notes "Biology" "advanced" 4 None Bench.world
       = (Ok l, Bench.world)
       /\ Z.of_nat (List.length l) = 4.
Proof.
  assert (Hd : known_difficulty "advanced") by (right; right; reflexivity).
  assert (Hs : returns (sent_tokenize (Nltk := Bench.nltk) Bench.notes))
    by (eexists; reflexivity).
  assert (Hc : 0 <= 4 <= Z.of_nat (List.length
                (extract_key_concepts (nltk := Bench.nltk) Bench.service Bench.notes)))
    by (vm_compute; split; discriminate).
  split; [exact Hd|]. split; [exact Hs|]. split; [exact Hc|].
  apply (generate_flashcards_fallback_from_concepts (nltk := Bench.nltk)
           Bench.service Bench.notes "Biology" "advanced" 4 Bench.world Hd Hs Hc).
Defined.

End ConceptFacts.

Module ShuffleFacts.
Import Text AI EffFacts PyMore.

Section WithLibraries.
Context {nltk : Nltk}.

(** ** The calls of the API *)

Lemma rate_limit_check_effect (w : World) :
  exists w',
    rate_limit_check w = (Ok tt, w')
    /\ last_request_time w' = clock w'
    /\ last_request_time w + rate_limit_delay <= clock w'
    /\ clock w <= clock w'
    /\ drawn w' = drawn w /\ posted w' = posted w /\ answers w' = answers w.
Proof.
  unfold rate_limit_check, mbind, M_bind.
  unfold Eff.bind, Eff.get, Eff.sleep, Eff.ret, Eff.stamp_request. cbv beta iota.
  destruct (clock w - last_request_time w <? rate_limit_delay) eqn:E;
    eexists; (split; [reflexivity|]); cbn.
  - apply Z.ltb_lt in E. unfold rate_limit_delay in *. repeat split; lia.
  - apply Z.ltb_ge in E. unfold rate_limit_delay in *. repeat split; lia.
Qed.

(** X17.  [rate_limit_check] always returns; afterwards the time of the last
    request is the time of the clock, which is at least two seconds after
    the time of the request before; the clock does not go back, nothing
    is drawn and nothing is sent. *)
Theorem rate_limit_check_spaces_requests (w : World) :
  exists w',
    rate_limit_check w = (Ok tt, w')
    /\ last_request_time w' = clock w'
    /\ last_request_time w + rate_limit_delay <= clock w'
    /\ clock w <= clock w'
    /\ drawn w' = drawn w /\ posted w' = posted w.
Proof.
  destruct (rate_limit_check_effect w) as (w' & Hr & Hl & Hd & Hc & Hn & Hp & _).
  exists w'. auto 10.
Qed.

(** A world in which, from the next request on, the API answers 503. *)
Definition always_loading (w : World) : Prop :=
  forall n, (posted w <= n)%nat ->
            exists response,
              answers w n = Ok response /\ Http.status_code response = 503.

Lemma huggingface_retry {A} (prompt : string) (parse : Http.generated -> list A)
  (retry : M (list A)) w :
  always_loading w ->
  exists w1,
    huggingface_call (Ok prompt) parse retry w = retry w1
    /\ always_loading w1
    /\ posted w1 = S (posted w)
    /\ clock w + 10000000 <= clock w1
    /\ answers w1 = answers w.
Proof.
  intros Hl. destruct (Hl (posted w) (le_n _)) as (response & Ha & Hst).
  unfold huggingface_call. rewrite !bind_eq.
  destruct (rate_limit_check_effect w)
    as (w0 & Hr & _ & _ & Hc & _ & Hp & Hans).
  unfold Eff.bind at 1. rewrite Hr.
  unfold Eff.bind at 1, Eff.lift at 1.
  unfold Eff.bind at 1, Eff.post. rewrite Hans, Hp, Ha, Hst.
  cbn [Z.eqb Pos.eqb]. unfold Eff.bind, Eff.sleep.
  eexists. split; [reflexivity|]. cbn.
  repeat split; try lia; try assumption.
  intros n Hn. cbn in Hn. apply Hl. lia.
Qed.

(** X18.  While the API keeps answering 503, [generate_flashcards_huggingface]
    calls itself again after ten seconds, with no bound of its own: it
    ends with the [RecursionError] of the interpreter, after as many
    requests as the depth allows and at least ten seconds for each. *)
Theorem generate_flashcards_huggingface_always_loading
  (depth : nat) (content topic difficulty : string) (count : Z) (w : World) :
  known_difficulty difficulty ->
  always_loading w ->
  exists w',
    generate_flashcards_huggingface depth content topic difficulty count w
    = (Raise RecursionError, w')
    /\ posted w' = (posted w + depth)%nat
    /\ clock w + 10000000 * Z.of_nat depth <= clock w'.
Proof.
  intros Hd. 
  assert (Hp : exists prompt,
            build_flashcard_prompt content topic difficulty count = Ok prompt).
  { unfold build_flashcard_prompt.
    destruct Hd as [-> | [-> | ->]]; eexists; reflexivity. }
  destruct Hp as [prompt Hp].
  revert w. induction depth as [|depth IH]; intros w Hl.
  - exists w. cbn. repeat split; lia.
  - cbn [generate_flashcards_huggingface]. rewrite Hp.
    destruct (huggingface_retry prompt parse_flashcards_response
                (generate_flashcards_huggingface depth content topic difficulty count)
                w Hl) as (w1 & Hr & Hl1 & Hp1 & Hc1 & _).
    destruct (IH w1 Hl1) as (w' & Hrun & Hp' & Hc').
    exists w'. rewrite Hr. split; [exact Hrun|]. split; lia.
Qed.

End WithLibraries.

(** A world whose network answers 503 to every request. *)
Definition loading_world : World :=
  {| draws := fun n => n; drawn := 0;
     answers := fun _ => Ok {| Http.status_code := 503;
                               Http.json := Raise (ValueError "not JSON");
                               Http.text := "Model is loading" |};
     posted := 0; clock := 0; last_request_time := 0; recursion_limit := 3;
     datetimes := fun _ => 0; datetime_reads := 0 |}.

Lemma generate_flashcards_huggingface_always_loading_witness :
  known_difficulty "beginner"
  /\ always_loading loading_world
  /\ exists w',
       generate_flashcards_huggingface 3 Bench.notes
         "Biology" "beginner" 5 loading_world
       = (Raise RecursionError, w')
       /\ posted w' = (posted loading_world + 3)%nat
       /\ clock loading_world + 10000000 * Z.of_nat 3 <= clock w'.
Proof.
  assert (Hd : known_difficulty "beginner") by (left; reflexivity).
  assert (Hl : always_loading loading_world).
  { intros n _. eexists. split; reflexivity. }
  split; [exact Hd|]. split; [exact Hl|].
  apply (generate_flashcards_huggingface_always_loading
           3 Bench.notes "Biology" "beginner" 5 loading_world Hd Hl).
Defined.

End ShuffleFacts.

Module AppMore.
Import Text Flask Models App PyFacts.

Lemma next_id_fresh ids x : In x ids -> x < next_id ids.
Proof.
  unfold next_id. induction ids as [|y ids IH]; cbn [fold_right]; intros Hx.
  - destruct Hx.
  - destruct Hx as [->|Hx]; [lia|]. specialize (IH Hx). lia.
Qed.

Lemma next_id_app ids : next_id (ids ++ [next_id ids]) = next_id ids + 1.
Proof.
  unfold next_id. set (x := 1 + fold_right Z.max 0 ids).
  assert (H : forall l, fold_right Z.max 0 (l ++ [x])
                        = Z.max (fold_right Z.max 0 l) x).
  { induction l as [|y l IH]; cbn [fold_right app]; [lia|]. rewrite IH. lia. }
  rewrite H. subst x. lia.
Qed.

Lemma NoDup_snoc {A} (l : list A) x :
  List.NoDup l -> ~ In x l -> List.NoDup (l ++ [x]).
Proof.
  intros Hl Hx. apply (Permutation_NoDup (Permutation_cons_append l x)).
  now constructor.
Qed.

Section Handlers.
Context {auth : Auth} {chat : ChatModel}.

(** No user has the email [e]. *)
Definition unknown_email (db : DB) (e : string) : Prop :=
  forall u, In u (users db) -> email u <> e.

Lemma unknown_not_found db e :
  unknown_email db e -> find_user_by_email db e = None.
Proof.
  intros Hu. unfold find_user_by_email.
  destruct (find _ _) as [u|] eqn:E; [|reflexivity].
  apply find_some in E as [Hin He]. apply String.eqb_eq in He.
  now destruct (Hu u Hin).
Qed.

(** X19.  A signup with an email and a password that are not empty, for an
    email no user has, is answered 201 with the new user and a token for
    their id; the database gains that user, with the hash of the password
    and an id above all the others, and one conversation 'Welcome Chat'
    of theirs; the messages and the flashcards are as they were. *)
Theorem signup_creates_account (now : Z) (db : DB) (data : signup_data)
  (e p : string) :
  su_email data = Some e -> truthy e = true ->
  su_password data = Some p -> truthy p = true ->
  unknown_email db e ->
  exists user conversation,
    signup_view now (Some data) db
    = (Ok (jsonify
             [("message", JStr "User created successfully");
              ("user", JObj [("id", JInt (user_id user)); ("email", JStr e);
                             ("created_at", JDate now)]);
              ("access_token", JStr (create_access_token (user_id user)));
              ("conversation_id", JInt (conv_id conversation))] 201),
       {| users := users db ++ [user];
          conversations := conversations db ++ [conversation];
          messages := messages db; flashcards := flashcards db |})
    /\ email user = e
    /\ password_hash user = generate_password_hash p
    /\ (forall u, In u (users db) -> user_id u < user_id user)
    /\ conv_user_id conversation = user_id user
    /\ title conversation = "Welcome Chat"
    /\ (forall c, In c (conversations db) -> conv_id c < conv_id conversation).
Proof.
  intros He Hte Hp Htp Hu.
  unfold signup_view, view, guarded, signup_body.
  rewrite He, Hp. cbn [falsy]. rewrite Hte, Htp. cbn [negb orb from_option id].
  rewrite (unknown_not_found _ _ Hu).
  unfold create_conversation.
  cbn [users conversations messages flashcards user_id email user_created_at
       conv_id try_except].
  exists {| user_id := next_id (map user_id (users db)); email := e;
            password_hash := generate_password_hash p;
            user_created_at := now; last_active := now |},
         {| conv_id := next_id (map conv_id (conversations db));
            conv_user_id := next_id (map user_id (users db));
            title := "Welcome Chat"; conv_created_at := now; updated_at := now |}.
  split; [reflexivity|].
  cbn [email password_hash user_id conv_user_id title conv_id].
  repeat split.
  - intros u Hin. apply next_id_fresh. now apply in_map.
  - intros c Hin. apply next_id_fresh. now apply in_map.
Qed.

(** X20.  In a database in which no two users share an id or an email, they
    still do not after a signup request, whatever it carries. *)
Theorem signup_keeps_users_distinct (now : Z) (db : DB)
  (payload : option signup_data) :
  List.NoDup (map user_id (users db)) ->
  List.NoDup (map email (users db)) ->
  let db' := snd (signup_view now payload db) in
  List.NoDup (map user_id (users db')) /\ List.NoDup (map email (users db')).
Proof.
  intros Hid Hem.
  unfold signup_view, view, guarded, signup_body.
  destruct payload as [data|]; [|now split].
  destruct (falsy (su_email data) || falsy (su_password data))%bool; [now split|].
  cbv zeta.
  destruct (find_user_by_email db _) as [found|] eqn:Ef; [now split|].
  unfold create_conversation. cbn [snd users].
  rewrite !map_app. cbn [map user_id email]. split.
  - apply NoDup_snoc; [exact Hid|]. intros Hin.
    apply next_id_fresh in Hin. lia.
  - apply NoDup_snoc; [exact Hem|]. intros Hin.
    apply in_map_iff in Hin as (u & Hu & Hin).
    unfold find_user_by_email in Ef. apply (find_none _ _ Ef) in Hin.
    rewrite Hu, String.eqb_refl in Hin. discriminate.
Qed.

(** The messages of the conversation [cid], oldest first. *)
Definition ascending : list Message -> Prop :=
  StronglySorted (fun a b => timestamp a <= timestamp b).

(** X21.  Fetching a conversation of one's own is answered 200 with the
    conversation and its messages: the messages of the database that
    belong to it, each once, the oldest first; the database is as it
    was. *)
Theorem get_conversation_detail_lists_messages
  (db : DB) (user_id cid : Z) (c : Conversation) :
  find_conversation db cid user_id = Some c ->
  exists listed,
    get_conversation_detail_view (Some user_id) cid db
    = (Ok (jsonify
             [("conversation",
               JObj [("id", JInt cid); ("title", JStr (title c));
                     ("created_at", JDate (conv_created_at c));
                     ("updated_at", JDate (updated_at c))]);
              ("messages", JArr (map message_json listed))] 200), db)
    /\ Permutation listed
         (List.filter (fun m => conversation_id m =? cid) (messages db))
    /\ ascending listed
    /\ conv_user_id c = user_id.
Proof.
  intros Hf. exists (get_conversation_messages db cid).
  assert (Hc : conv_id c = cid /\ conv_user_id c = user_id).
  { unfold find_conversation in Hf. apply find_some in Hf as [_ Hc].
    apply andb_true_iff in Hc as [H1 H2]. apply Z.eqb_eq in H1, H2. now split. }
  destruct Hc as [Hc Ho].
  unfold get_conversation_detail_view, jwt_required, view, guarded,
    get_conversation_detail_body.
  rewrite Hf, Hc. cbn [try_except]. split; [reflexivity|].
  unfold get_conversation_messages. split; [apply sort_desc_perm|].
  split; [|exact Ho].
  generalize (sort_desc_sorted (fun m => - timestamp m)
                (List.filter (fun m => conversation_id m =? cid) (messages db))).
  unfold descending, ascending.
  generalize (sort_desc (fun m => - timestamp m)
                (List.filter (fun m => conversation_id m =? cid) (messages db))).
  intros l Hs. induction Hs as [|x l Hl IH Hx]; constructor; [exact IH|].
  rewrite List.Forall_forall in Hx |- *. intros y Hy. specialize (Hx y Hy). lia.
Qed.

End Handlers.

(** Alice has written to her conversation and got a reply; Bob has
    written to his. *)
Definition chatty_db : DB :=
  {| users := users Bench.db;
     conversations := conversations Bench.db;
     messages :=
       [ {| msg_id := 1; conversation_id := 1; content := "What is a cell?";
            is_user := true; timestamp := 10; ai_model := None;
            confidence := None; processing_time := None |};
         {| msg_id := 2; conversation_id := 2; content := "Hello";
            is_user := true; timestamp := 12; ai_model := None;
            confidence := None; processing_time := None |};
         {| msg_id := 3; conversation_id := 1; content := "The unit of life.";
            is_user := false; timestamp := 11; ai_model := Some "huggingface";
            confidence := Some (7 # 10)%Q; processing_time := Some (1 # 2)%Q |} ];
     flashcards := flashcards Bench.db |}.

Definition carol_signs_up : signup_data :=
  {| su_email := Some "carol@example.com"; su_password := Some "pw" |}.

Lemma users_distinct_check :
  List.NoDup (map user_id (users Bench.db))
  /\ List.NoDup (map email (users Bench.db)).
Proof.
  split; cbn;
    repeat (constructor; [cbn; intuition (discriminate || lia)|]); constructor.
Defined.

Lemma signup_creates_account_witness :
  su_email carol_signs_up = Some "carol@example.com"
  /\ truthy "carol@example.com" = true
  /\ su_password carol_signs_up = Some "pw"
  /\ truthy "pw" = true
  /\ unknown_email Bench.db "carol@example.com"
  /\ exists user conversation,
       signup_view (auth := Bench.auth) 100 (Some carol_signs_up) Bench.db
       = (Ok (jsonify
                [("message", JStr "User created successfully");
                 ("user", JObj [("id", JInt (user_id user));
                                ("email", JStr "carol@example.com");
                                ("created_at", JDate 100)]);
                 ("access_token",
                  JStr (create_access_token (Auth := Bench.auth) (user_id user)));
                 ("conversation_id", JInt (conv_id conversation))] 201),
          {| users := users Bench.db ++ [user];
             conversations := conversations Bench.db ++ [conversation];
             messages := messages Bench.db; flashcards := flashcards Bench.db |})
       /\ email user = "carol@example.com"
       /\ password_hash user = generate_password_hash (Auth := Bench.auth) "pw"
       /\ (forall u, In u (users Bench.db) -> user_id u < user_id user)
       /\ conv_user_id conversation = user_id user
       /\ title conversation = "Welcome Chat"
       /\ (forall c, In c (conversations Bench.db) ->
                     conv_id c < conv_id conversation).
Proof.
  assert (Hu : unknown_email Bench.db "carol@example.com").
  { intros u Hin. cbn in Hin. destruct Hin as [<-|[<-|[]]]; discriminate. }
  split; [reflexivity|]. split; [reflexivity|].
  split; [reflexivity|]. split; [reflexivity|]. split; [exact Hu|].
  exact (signup_creates_account (auth := Bench.auth) 100 Bench.db carol_signs_up
           "carol@example.com" "pw" eq_refl eq_refl eq_refl eq_refl Hu).
Defined.

Lemma signup_keeps_users_distinct_witness :
  List.NoDup (map user_id (users Bench.db))
  /\ List.NoDup (map email (users Bench.db))
  /\ (let db' := snd (signup_view (auth := Bench.auth) 100
                        (Some carol_signs_up) Bench.db) in
      List.NoDup (map user_id (users db')) /\ List.NoDup (map email (users db'))).
Proof.
  destruct users_distinct_check as [Hid Hem].
  split; [exact Hid|]. split; [exact Hem|].
  exact (signup_keeps_users_distinct (auth := Bench.auth) 100 Bench.db
           (Some carol_signs_up) Hid Hem).
Defined.

Lemma get_conversation_detail_lists_messages_witness :
  find_conversation chatty_db 1 1
  = Some {| conv_id := 1; conv_user_id := 1; title := "Welcome Chat";
            conv_created_at := 0; updated_at := 0 |}
  /\ exists listed,
       get_conversation_detail_view (Some 1) 1 chatty_db
       = (Ok (jsonify
                [("conversation",
                  JObj [("id", JInt 1); ("title", JStr "Welcome Chat");
                        ("created_at", JDate 0); ("updated_at", JDate 0)]);
                 ("messages", JArr (map message_json listed))] 200), chatty_db)
       /\ Permutation listed
            (List.filter (fun m => conversation_id m =? 1) (messages chatty_db))
       /\ ascending listed
       /\ 1 = 1.
Proof.
  split; [reflexivity|].
  exact (get_conversation_detail_lists_messages chatty_db 1 1 _ eq_refl).
Defined.

End AppMore.

Module ChatFacts.
Import Text Flask Models App PyFacts StringFacts AppMore.

Lemma sort_desc_snoc_max {A} (key : A -> Z) x l :
  (forall y, In y l -> key y < key x) ->
  sort_desc key (l ++ [x]) = x :: sort_desc key l.
Proof.
  induction l as [|y l IH]; intros Hk; [reflexivity|].
  cbn [app sort_desc]. rewrite IH by (intros z Hz; apply Hk; now right).
  cbn [insert_desc]. 
  replace (key y <? key x) with true; [reflexivity|].
  symmetry. apply Z.ltb_lt. apply Hk. now left.
Qed.

Lemma slice_to_all_but_last {A} (x : A) l :
  slice_to (x :: l) (-1) = match l with [] => [] | _ => x :: removelast l end.
Proof.
  unfold slice_to. change (-1 <? 0) with true. cbv iota.
  cbn [List.length].
  replace (Z.to_nat (Z.of_nat (S (List.length l)) + -1)) with (List.length l) by lia.
  destruct l as [|y l]; [reflexivity|].
  cbn [List.length firstn]. f_equal.
  now rewrite removelast_firstn_len.
Qed.

Section Handlers.
Context {auth : Auth} {chat : ChatModel}.

(** What a message contributes to the history: who wrote it, and its
    content. *)
Definition said (msg : Message) : bool * string := (is_user msg, content msg).

(** The messages of a conversation. *)
Definition messages_of (db : DB) (cid : Z) : list Message :=
  List.filter (fun m => conversation_id m =? cid) (messages db).

(** The user message that [send_chat_message] saves. *)
Definition user_message (db : DB) (now cid : Z) (m : string) : Message :=
  {| msg_id := next_id (map msg_id (messages db)); conversation_id := cid;
     content := m; is_user := true; timestamp := now; ai_model := None;
     confidence := None; processing_time := None |}.

(** The reply that it saves. *)
Definition ai_message (db : DB) (now cid : Z) (elapsed : Q) (reply : string)
  : Message :=
  {| msg_id := next_id (map msg_id (messages db)) + 1; conversation_id := cid;
     content := reply; is_user := false; timestamp := now;
     ai_model := Some "huggingface"; confidence := Some (7 # 10)%Q;
     processing_time := Some elapsed |}.

(** The history that the model is given, as the handler reads it. *)
Definition history_read (db : DB) (now cid : Z) (m : string)
  : list (bool * string) :=
  map said
      (rev (slice_to
              (firstn 6 (sort_desc timestamp
                           (messages_of db cid ++ [user_message db now cid m])))
              (-1))).

Lemma exchange_shape now elapsed m cid db :
  exchange now elapsed m cid db
  = (let um := user_message db now cid m in
     let am := ai_message db now cid elapsed
                 (chat_with_user m (history_read db now cid m)) in
     (Ok (jsonify
            [("user_message",
              JObj [("id", JInt (msg_id um)); ("content", JStr m);
                    ("timestamp", JDate now)]);
             ("ai_response",
              JObj [("id", JInt (msg_id am)); ("content", JStr (content am));
                    ("timestamp", JDate now);
                    ("confidence", JNum (7 # 10)%Q);
                    ("processing_time", JNum elapsed)]);
             ("conversation_id", JInt cid)] 200),
      touch_conversation
        {| users := users db; conversations := conversations db;
           messages := messages db ++ [um; am]; flashcards := flashcards db |}
        cid now)).
Proof.
  unfold exchange, add_message, history_read, messages_of.
  cbn [messages users conversations flashcards].
  rewrite List.filter_app. cbn [List.filter conversation_id].
  rewrite Z.eqb_refl. rewrite map_app. cbn [map msg_id].
  rewrite next_id_app. rewrite <- app_assoc. reflexivity.
Qed.

(** The history when the message is the latest of its conversation: the
    five latest messages before it but the oldest of them, in the order
    of time, and then the message itself; nothing when the conversation
    is new. *)
Definition history_given (old : list Message) (m : string)
  : list (bool * string) :=
  match old with
  | [] => []
  | _ => map said (rev (removelast (firstn 5 (sort_desc timestamp old))))
         ++ [(true, m)]
  end.

Lemma history_read_given db now cid m :
  (forall x, In x (messages_of db cid) -> timestamp x < now) ->
  history_read db now cid m = history_given (messages_of db cid) m.
Proof.
  intros Hold. unfold history_read.
  rewrite sort_desc_snoc_max by exact Hold.
  cbn [firstn]. rewrite slice_to_all_but_last.
  unfold history_given.
  assert (Hlen : List.length (sort_desc timestamp (messages_of db cid))
                 = List.length (messages_of db cid))
    by (apply Permutation_length, sort_desc_perm).
  destruct (messages_of db cid) as [|x old] eqn:E.
  - reflexivity.
  - destruct (sort_desc timestamp (x :: old)) as [|y sorted]; [discriminate|].
    cbn [firstn]. cbn [rev]. rewrite map_app. reflexivity.
Qed.

(** X22.  A message that is not blank, sent to a conversation of one's own, is
    answered 200; the database gains two messages of that conversation,
    the message stripped and then the reply of the model, with ids above
    all the others; the users, the flashcards, and the ids and owners of
    the conversations are as they were. *)
Theorem send_chat_message_stores_exchange
  (now : Z) (elapsed : Q) (db : DB) (uid cid : Z) (m : string)
  (c : Conversation) :
  truthy (strip m) = true -> cid <> 0 ->
  find_conversation db cid uid = Some c ->
  exists r db' reply,
    send_chat_message_view now elapsed (Some uid)
      (Some {| ch_message := Some m; ch_conversation_id := Some cid |}) db
    = (Ok r, db')
    /\ status r = 200
    /\ messages db' = messages db ++ [user_message db now cid (strip m);
                                      ai_message db now cid elapsed reply]
    /\ (forall x, In x (messages db) ->
                  msg_id x < msg_id (user_message db now cid (strip m)))
    /\ users db' = users db /\ flashcards db' = flashcards db
    /\ map conv_id (conversations db') = map conv_id (conversations db)
    /\ map conv_user_id (conversations db') = map conv_user_id (conversations db).
Proof.
  intros Hm Hc Hf.
  unfold send_chat_message_view, jwt_required, view, guarded,
    send_chat_message_body, requested_conversation.
  cbn [ch_message ch_conversation_id from_option id]. rewrite Hm. cbn [negb].
  apply Z.eqb_neq in Hc. rewrite Hc, Hf. rewrite exchange_shape. cbv zeta.
  cbn [try_except].
  eexists _, _, _. split; [reflexivity|].
  cbn [status jsonify touch_conversation messages users flashcards conversations].
  split; [reflexivity|]. split; [reflexivity|].
  split.
  { intros x Hx. cbn [user_message msg_id]. apply next_id_fresh. now apply in_map. }
  split; [reflexivity|]. split; [reflexivity|].
  rewrite !map_map. split; apply map_ext; intros x;
    destruct (conv_id x =? cid); reflexivity.
Qed.

(** X23.  When the messages of the conversation are all older than the
    request, the reply saved is what the model says of the message and
    of a history that ends with the message itself, after the latest
    messages before it. *)
Theorem send_chat_message_history
  (now : Z) (elapsed : Q) (db : DB) (uid cid : Z) (m : string)
  (c : Conversation) :
  truthy (strip m) = true -> cid <> 0 ->
  find_conversation db cid uid = Some c ->
  (forall x, In x (messages_of db cid) -> timestamp x < now) ->
  exists r db',
    send_chat_message_view now elapsed (Some uid)
      (Some {| ch_message := Some m; ch_conversation_id := Some cid |}) db
    = (Ok r, db')
    /\ List.last (messages db') (user_message db now cid (strip m))
       = ai_message db now cid elapsed
           (chat_with_user (strip m)
              (history_given (messages_of db cid) (strip m))).
Proof.
  intros Hm Hc Hf Hold.
  unfold send_chat_message_view, jwt_required, view, guarded,
    send_chat_message_body, requested_conversation.
  cbn [ch_message ch_conversation_id from_option id]. rewrite Hm. cbn [negb].
  apply Z.eqb_neq in Hc. rewrite Hc, Hf. rewrite exchange_shape. cbv zeta.
  cbn [try_except].
  eexists _, _. split; [reflexivity|].
  cbn [touch_conversation messages].
  rewrite (history_read_given _ _ _ _ Hold).
  change [user_message db now cid (strip m);
          ai_message db now cid elapsed
            (chat_with_user (strip m) (history_given (messages_of db cid) (strip m)))]
    with ([user_message db now cid (strip m)]
          ++ [ai_message db now cid elapsed
                (chat_with_user (strip m)
                   (history_given (messages_of db cid) (strip m)))]).
  rewrite app_assoc. apply List.last_last.
Qed.

(** The title of a conversation opened by a message. *)
Definition title_of (m : string) : string :=
  if 50 <? len m then take 50 m +:+ "..." else m.

Lemma title_of_short m : len (title_of m) <= 53.
Proof.
  unfold title_of. destruct (50 <? len m) eqn:E.
  - rewrite len_app. pose proof (len_take 50 m).
    change (len "...") with 3. lia.
  - apply Z.ltb_ge in E. lia.
Qed.

(** X24.  A message that is not blank, sent without a conversation id (or with
    the id 0), is answered 200 and opens a conversation of the user, with
    an id above all the others and a title of at most 53 characters made
    of the message; the two messages saved belong to it, and the
    conversations there were are as they were. *)
Theorem send_chat_message_opens_conversation
  (now : Z) (elapsed : Q) (db : DB) (uid : Z) (m : string)
  (given : option Z) :
  truthy (strip m) = true ->
  given = None \/ given = Some 0 ->
  exists r db' opened reply,
    send_chat_message_view now elapsed (Some uid)
      (Some {| ch_message := Some m; ch_conversation_id := given |}) db
    = (Ok r, db')
    /\ status r = 200
    /\ conversations db' = conversations db ++ [opened]
    /\ conv_user_id opened = uid
    /\ title opened = title_of (strip m)
    /\ len (title opened) <= 53
    /\ (forall c, In c (conversations db) -> conv_id c < conv_id opened)
    /\ messages db'
       = messages db ++ [user_message db now (conv_id opened) (strip m);
                         ai_message db now (conv_id opened) elapsed reply]
    /\ users db' = users db /\ flashcards db' = flashcards db.
Proof.
  intros Hm Hg.
  assert (Hr : requested_conversation
                 {| ch_message := Some m; ch_conversation_id := given |} = None).
  { unfold requested_conversation. now destruct Hg as [-> | ->]. }
  unfold send_chat_message_view, jwt_required, view, guarded,
    send_chat_message_body.
  rewrite Hr. cbn [ch_message from_option id]. rewrite Hm. cbn [negb].
  fold (title_of (strip m)).
  unfold create_conversation. cbn [conv_id].
  rewrite exchange_shape. cbv zeta. cbn [try_except].
  set (new_id := next_id (map conv_id (conversations db))).
  exists (jsonify
            [("user_message",
              JObj [("id", JInt (msg_id (user_message db now new_id (strip m))));
                    ("content", JStr (strip m)); ("timestamp", JDate now)]);
             ("ai_response",
              JObj [("id", JInt (msg_id (ai_message db now new_id elapsed
                       (chat_with_user (strip m)
                          (history_read db now new_id (strip m))))));
                    ("content", JStr (content (ai_message db now new_id elapsed
                       (chat_with_user (strip m)
                          (history_read db now new_id (strip m))))));
                    ("timestamp", JDate now);
                    ("confidence", JNum (7 # 10)%Q);
                    ("processing_time", JNum elapsed)]);
             ("conversation_id", JInt new_id)] 200).
  eexists.
  exists {| conv_id := new_id; conv_user_id := uid; title := title_of (strip m);
            conv_created_at := now; updated_at := now |}.
  exists (chat_with_user (strip m) (history_read db now new_id (strip m))).
  split; [reflexivity|].
  cbn [status jsonify touch_conversation messages users flashcards conversations
       conv_id conv_user_id title].
  split; [reflexivity|]. split.
  { rewrite map_app. cbn [map conv_id]. rewrite Z.eqb_refl. f_equal.
    rewrite <- (map_id (conversations db)) at 2.
    apply map_ext_in. intros c Hc.
    assert (conv_id c < new_id) by (apply next_id_fresh; now apply in_map).
    replace (conv_id c =? new_id) with false; [reflexivity|].
    symmetry. apply Z.eqb_neq. lia. }
  split; [reflexivity|]. split; [reflexivity|].
  split; [apply title_of_short|].
  split.
  { intros c Hc. apply next_id_fresh. now apply in_map. }
  repeat split.
Qed.

End Handlers.

Lemma send_chat_message_stores_exchange_witness :
  truthy (strip "  And a nucleus? ") = true
  /\ 1 <> 0
  /\ find_conversation chatty_db 1 1
     = Some {| conv_id := 1; conv_user_id := 1; title := "Welcome Chat";
               conv_created_at := 0; updated_at := 0 |}
  /\ exists r db' reply,
       send_chat_message_view (chat := Bench.chat) 20 (1 # 2)%Q (Some 1)
         (Some {| ch_message := Some "  And a nucleus? ";
                  ch_conversation_id := Some 1 |}) chatty_db
       = (Ok r, db')
       /\ status r = 200
       /\ messages db'
          = messages chatty_db
            ++ [user_message chatty_db 20 1 (strip "  And a nucleus? ");
                ai_message chatty_db 20 1 (1 # 2)%Q reply]
       /\ (forall x, In x (messages chatty_db) ->
                     msg_id x
                     < msg_id (user_message chatty_db 20 1
                                 (strip "  And a nucleus? ")))
       /\ users db' = users chatty_db /\ flashcards db' = flashcards chatty_db
       /\ map conv_id (conversations db') = map conv_id (conversations chatty_db)
       /\ map conv_user_id (conversations db')
          = map conv_user_id (conversations chatty_db).
Proof.
  assert (Hm : truthy (strip "  And a nucleus? ") = true) by (vm_compute; reflexivity).
  assert (Hc : 1 <> 0) by lia.
  split; [exact Hm|]. split; [exact Hc|]. split; [reflexivity|].
  exact (send_chat_message_stores_exchange (chat := Bench.chat) 20 (1 # 2)%Q
           chatty_db 1 1 "  And a nucleus? " _ Hm Hc eq_refl).
Defined.

Lemma send_chat_message_history_witness :
  truthy (strip "  And a nucleus? ") = true
  /\ 1 <> 0
  /\ find_conversation chatty_db 1 1
     = Some {| conv_id := 1; conv_user_id := 1; title := "Welcome Chat";
               conv_created_at := 0; updated_at := 0 |}
  /\ (forall x, In x (messages_of chatty_db 1) -> timestamp x < 20)
  /\ exists r db',
       send_chat_message_view (chat := Bench.chat) 20 (1 # 2)%Q (Some 1)
         (Some {| ch_message := Some "  And a nucleus? ";
                  ch_conversation_id := Some 1 |}) chatty_db
       = (Ok r, db')
       /\ List.last (messages db')
            (user_message chatty_db 20 1 (strip "  And a nucleus? "))
          = ai_message chatty_db 20 1 (1 # 2)%Q
              (chat_with_user (ChatModel := Bench.chat)
                 (strip "  And a nucleus? ")
                 (history_given (messages_of chatty_db 1)
                    (strip "  And a nucleus? "))).
Proof.
  assert (Hm : truthy (strip "  And a nucleus? ") = true) by (vm_compute; reflexivity).
  assert (Hc : 1 <> 0) by lia.
  assert (Hold : forall x, In x (messages_of chatty_db 1) -> timestamp x < 20).
  { intros x Hx. cbn in Hx. destruct Hx as [<-|[<-|[]]]; cbn; lia. }
  split; [exact Hm|]. split; [exact Hc|]. split; [reflexivity|].
  split; [exact Hold|].
  exact (send_chat_message_history (chat := Bench.chat) 20 (1 # 2)%Q
           chatty_db 1 1 "  And a nucleus? " _ Hm Hc eq_refl Hold).
Defined.

Lemma send_chat_message_opens_conversation_witness :
  truthy (strip "What is osmosis?") = true
  /\ (Some 0 = None \/ Some 0 = Some 0)
  /\ exists r db' opened reply,
       send_chat_message_view (chat := Bench.chat) 20 (1 # 2)%Q (Some 2)
         (Some {| ch_message := Some "What is osmosis?";
                  ch_conversation_id := Some 0 |}) chatty_db
       = (Ok r, db')
       /\ status r = 200
       /\ conversations db' = conversations chatty_db ++ [opened]
       /\ conv_user_id opened = 2
       /\ title opened = title_of (strip "What is osmosis?")
       /\ len (title opened) <= 53
       /\ (forall c, In c (conversations chatty_db) -> conv_id c < conv_id opened)
       /\ messages db'
          = messages chatty_db
            ++ [user_message chatty_db 20 (conv_id opened)
                  (strip "What is osmosis?");
                ai_message chatty_db 20 (conv_id opened) (1 # 2)%Q reply]
       /\ users db' = users chatty_db /\ flashcards db' = flashcards chatty_db.
Proof.
  assert (Hm : truthy (strip "What is osmosis?") = true) by (vm_compute; reflexivity).
  assert (Hg : Some 0 = None \/ Some 0 = Some 0) by (right; reflexivity).
  split; [exact Hm|]. split; [exact Hg|].
  exact (send_chat_message_opens_conversation (chat := Bench.chat) 20 (1 # 2)%Q
           chatty_db 2 "What is osmosis?" (Some 0) Hm Hg).
Defined.

End ChatFacts.

Module DynFacts.
Import Text DynAI EffFacts PyMore.

(** The requests sent and the time of the last one, which the generator
    of random numbers and the wall clock leave alone. *)
Definition same_outside (w w' : World) : Prop :=
  posted w' = posted w /\ last_request_time w' = last_request_time w.

Lemma same_outside_refl w : same_outside w w.
Proof. repeat split. Qed.

Lemma same_outside_trans w1 w2 w3 :
  same_outside w1 w2 -> same_outside w2 w3 -> same_outside w1 w3.
Proof. unfold same_outside. intros (?&?) (?&?). split; congruence. Qed.

Lemma randbelow_run n w :
  exists w', Eff.randbelow n w = (Ok (draws w (drawn w) mod n)%nat, w')
             /\ same_outside w w'.
Proof. eexists. split; [reflexivity|]. repeat split. Qed.

Lemma In_insert {A} (x y : A) : forall l j, In x (<[j := y]> l) -> x = y \/ In x l.
Proof.
  induction l as [|z l IH]; intros [|j] Hx; cbn in Hx; auto.
  - destruct Hx as [<-|Hx]; [now left | right; now right].
  - destruct Hx as [<-|Hx]; [right; now left|].
    destruct (IH j Hx); [now left | right; now right].
Qed.

Lemma lookup_In {A} (l : list A) j x : l !! j = Some x -> In x l.
Proof.
  revert j. induction l as [|y l IH]; intros [|j] Hj; try discriminate.
  - injection Hj as <-. now left.
  - right. exact (IH j Hj).
Qed.

(** [random.sample]'s loop returns as many elements as asked, all from
    the pool. *)
Lemma sample_from_ok {A} (k : nat) : forall (pool : list A) n w,
  (k <= n)%nat -> (n <= List.length pool)%nat ->
  exists l w',
    sample_from k pool n w = (Ok l, w')
    /\ List.length l = k
    /\ (forall x, In x l -> In x pool)
    /\ same_outside w w'.
Proof.
  induction k as [|k IH]; intros pool n w Hk Hn.
  - exists [], w. cbn. repeat split. intros x [].
  - cbn [sample_from]. rewrite bind_eq. unfold Eff.bind at 1.
    destruct (randbelow_run n w) as (w1 & -> & Hw1).
    set (j := (draws w (drawn w) mod n)%nat).
    assert (Hj : (j < n)%nat) by (apply Nat.mod_upper_bound; lia).
    destruct (lookup_lt_is_Some_2 pool j ltac:(lia)) as [picked Hp].
    destruct (lookup_lt_is_Some_2 pool (n - 1)%nat ltac:(lia)) as [final Hl].
    rewrite Hp, Hl. rewrite bind_eq. unfold Eff.bind.
    destruct (IH (<[j := final]> pool) (n - 1)%nat w1)
      as (l & w' & -> & Hlen & Hin & Hw'); [lia | rewrite length_insert; lia |].
    exists (picked :: l), w'. unfold Eff.ret. split; [reflexivity|].
    split; [cbn; lia|]. split; [|exact (same_outside_trans _ _ _ Hw1 Hw')].
    intros x [<-|Hx]; [exact (lookup_In _ _ _ Hp)|].
    destruct (In_insert _ _ _ _ (Hin x Hx)) as [->|H]; [|exact H].
    exact (lookup_In _ _ _ Hl).
Qed.

Lemma choice_ok {A} (seq : list A) w :
  seq <> [] ->
  exists x w', choice seq w = (Ok x, w') /\ In x seq /\ same_outside w w'.
Proof.
  intros Hne. unfold choice. destruct seq as [|a seq]; [contradiction|].
  set (l := a :: seq). rewrite bind_eq. unfold Eff.bind.
  destruct (randbelow_run (List.length l) w) as (w1 & -> & Hw1).
  set (j := (draws w (drawn w) mod List.length l)%nat).
  assert (Hj : (j < List.length l)%nat)
    by (apply Nat.mod_upper_bound; subst l; cbn; lia).
  unfold Eff.lift, index.
  replace (Z.of_nat j <? 0) with false by (symmetry; apply Z.ltb_ge; lia).
  replace ((0 <=? Z.of_nat j) && (Z.of_nat j <? Z.of_nat (List.length l)))
    with true
    by (symmetry; apply andb_true_iff; split;
        [apply Z.leb_le | apply Z.ltb_lt]; lia).
  rewrite Nat2Z.id.
  destruct (nth_error l j) as [x|] eqn:E.
  - exists x, w1. split; [reflexivity|]. split; [|exact Hw1].
    exact (nth_error_In _ _ E).
  - apply nth_error_None in E. lia.
Qed.

Lemma randint_ok a b w :
  a <= b ->
  exists n w', randint a b w = (Ok n, w') /\ a <= n <= b /\ same_outside w w'.
Proof.
  intros Hab. unfold randint. rewrite bind_eq. unfold Eff.bind.
  destruct (randbelow_run (Z.to_nat (b - a + 1)) w) as (w1 & -> & Hw1).
  eexists _, w1. unfold Eff.ret. split; [reflexivity|]. split; [|exact Hw1].
  pose proof (Nat.mod_upper_bound (draws w (drawn w)) (Z.to_nat (b - a + 1))
                ltac:(lia)). lia.
Qed.

Section WithPipeline.
Context {pipeline : QaPipeline}.

(** What every flashcard of [generate_dynamic_flashcards] satisfies. *)
Definition well_formed (topic_ : string) (card : flashcard) : Prop :=
  topic card = topic_
  /\ 1000 <= id_number card <= 9999
  /\ (difficulty card = "beginner" \/ difficulty card = "intermediate")
  /\ (difficulty card = "intermediate" -> (1 # 2 < confidence card)%Q).

Lemma datetime_now_run w :
  exists w', Eff.datetime_now w = (Ok (datetimes w (datetime_reads w)), w')
             /\ same_outside w w'
             /\ draws w' = draws w /\ drawn w' = drawn w.
Proof. eexists. split; [reflexivity|]. repeat split. Qed.

Lemma dynamic_card_ok qa_model content topic_ template_group flashcards w :
  template_group <> [] ->
  exists card w',
    dynamic_card qa_model content topic_ template_group flashcards w
    = (Ok (flashcards ++ [card]), w')
    /\ well_formed topic_ card
    /\ same_outside w w'.
Proof.
  intros Hne. unfold dynamic_card. rewrite bind_eq. unfold Eff.bind at 1.
  destruct (choice_ok template_group w Hne) as (template & w1 & -> & _ & Hw1).
  set (question_ := if truthy topic_ then template topic_
                    else template "this concept").
  destruct (datetime_now_run w1) as (w2 & Hd2 & Hw2 & _).
  destruct (randint_ok 1000 9999 w2 ltac:(lia)) as (n & w3 & Hr & Hn & Hw3).
  destruct (datetime_now_run w3) as (w4 & Hd4 & Hw4 & _).
  assert (Hw : same_outside w w4).
  { apply (same_outside_trans _ _ _ Hw1).
    apply (same_outside_trans _ _ _ Hw2).
    exact (same_outside_trans _ _ _ Hw3 Hw4). }
  destruct (qa_model question_ content) as [[answer_ score]|e];
    unfold mbind, M_bind, Eff.bind; rewrite Hd2, Hr, Hd4; unfold Eff.ret;
    eexists _, w4; (split; [reflexivity|]); (split; [|exact Hw]);
    unfold well_formed; cbn [topic id_number difficulty confidence];
    (split; [reflexivity|]); (split; [lia|]).
  - destruct (Qlt_le_dec (1 # 2) score) as [Hs|Hs].
    + split; [now right | intros _; exact Hs].
    + split; [now left | discriminate].
  - split; [now left | discriminate].
Qed.

Lemma for_each_dynamic_card qa_model content topic_ selected :
  Forall (fun group => group <> []) selected ->
  forall flashcards w,
  exists cards w',
    Eff.for_each selected (dynamic_card qa_model content topic_) flashcards w
    = (Ok (flashcards ++ cards), w')
    /\ List.length cards = List.length selected
    /\ Forall (well_formed topic_) cards
    /\ same_outside w w'.
Proof.
  induction 1 as [|group selected Hg _ IH]; intros flashcards w.
  - exists [], w. cbn [Eff.for_each]. unfold Eff.ret. rewrite app_nil_r.
    split; [reflexivity|]. split; [reflexivity|].
    split; [constructor | apply same_outside_refl].
  - cbn [Eff.for_each]. unfold Eff.bind.
    destruct (dynamic_card_ok qa_model content topic_ group flashcards w Hg)
      as (card & w1 & -> & Hcard & Hw1).
    destruct (IH (flashcards ++ [card]) w1) as (cards & w' & -> & Hlen & Hall & Hw').
    exists (card :: cards), w'. rewrite <- app_assoc.
    split; [reflexivity|]. split; [cbn; lia|].
    split; [|exact (same_outside_trans _ _ _ Hw1 Hw')].
    constructor; [exact Hcard | exact Hall].
Qed.

Lemma question_templates_not_empty :
  forall group, In group question_templates -> group <> [].
Proof.
  intros group Hin. cbn in Hin.
  repeat (destruct Hin as [<-|Hin]; [discriminate|]). destruct Hin.
Qed.

(** X27.  When the pipeline loads and the count is not negative,
    [generate_dynamic_flashcards] returns [min(count, 8)] flashcards,
    whatever the model answers and whatever the wall clock shows: each
    has the topic asked, a number between 1000 and 9999, and the
    difficulty 'beginner' or 'intermediate', the latter only for a score
    above 0.5.  It sends no request. *)
Theorem generate_dynamic_flashcards_count
  (qa_model : string -> string -> result (string * Q))
  (content topic_ : string) (count : Z) (w : World) :
  get_qa_pipeline = Ok qa_model ->
  0 <= count ->
  exists cards w',
    generate_dynamic_flashcards content topic_ count w = (Ok (Flashcards cards), w')
    /\ Z.of_nat (List.length cards) = Z.min count 8
    /\ Forall (well_formed topic_) cards
    /\ same_outside w w'.
Proof.
  intros Hq Hcount.
  unfold generate_dynamic_flashcards, Eff.try_except.
  unfold mbind, M_bind. unfold Eff.bind at 1. rewrite Hq. unfold Eff.lift.
  unfold Eff.bind at 1. unfold sample.
  change (Z.of_nat (List.length question_templates)) with 8.
  replace ((0 <=? Z.min count 8) && (Z.min count 8 <=? 8)) with true
    by (symmetry; apply andb_true_iff; split; apply Z.leb_le; lia).
  destruct (sample_from_ok (Z.to_nat (Z.min count 8)) question_templates
              (List.length question_templates) w)
    as (selected & w1 & -> & Hlen & Hin & Hw1);
    [change (List.length question_templates) with 8%nat; lia | lia |].
  assert (Hne : Forall (fun group => group <> []) selected).
  { apply List.Forall_forall. intros group Hg.
    apply question_templates_not_empty, Hin, Hg. }
  unfold Eff.bind.
  destruct (for_each_dynamic_card qa_model content topic_ selected Hne [] w1)
    as (cards & w' & -> & Hcards & Hall & Hw').
  exists cards, w'. unfold Eff.ret. split; [reflexivity|].
  split; [lia|]. split; [exact Hall|].
  exact (same_outside_trans _ _ _ Hw1 Hw').
Qed.

(** X28.  When the pipeline does not load, or when the count is negative,
    [generate_dynamic_flashcards] does not raise: it returns the
    dictionary of an error, and the world is as it was. *)
Theorem generate_dynamic_flashcards_error
  (content topic_ : string) (count : Z) (w : World) :
  ~ returns get_qa_pipeline \/ count < 0 ->
  exists message,
    generate_dynamic_flashcards content topic_ count w
    = (Ok (ErrorDict ("Flashcard generation failed: " +:+ message)), w).
Proof.
  intros Hcase.
  unfold generate_dynamic_flashcards, Eff.try_except.
  unfold mbind, M_bind. unfold Eff.bind at 1.
  destruct get_qa_pipeline as [qa_model|e] eqn:Hq; unfold Eff.lift.
  - destruct Hcase as [Hr|Hneg]; [destruct Hr; now exists qa_model|].
    unfold Eff.bind at 1. unfold sample.
    replace (0 <=? Z.min count (Z.of_nat (List.length question_templates)))
      with false by (symmetry; apply Z.leb_gt; lia).
    cbn [andb]. unfold Eff.raise, Eff.ret. eexists. reflexivity.
  - unfold Eff.ret. eexists. reflexivity.
Qed.

End WithPipeline.

Lemma generate_dynamic_flashcards_count_witness :
  get_qa_pipeline (QaPipeline := Bench.pipeline)
  = Ok (fun _ _ => Raise (ValueError "no answer"))
  /\ 0 <= 12
  /\ exists cards w',
       generate_dynamic_flashcards (pipeline := Bench.pipeline)
         Bench.notes "Photosynthesis" 12 Bench.world
       = (Ok (Flashcards cards), w')
       /\ Z.of_nat (List.length cards) = Z.min 12 8
       /\ Forall (well_formed "Photosynthesis") cards
       /\ same_outside Bench.world w'.
Proof.
  assert (Hc : 0 <= 12) by lia.
  split; [reflexivity|]. split; [exact Hc|].
  exact (generate_dynamic_flashcards_count (pipeline := Bench.pipeline)
           _ Bench.notes "Photosynthesis" 12 Bench.world eq_refl Hc).
Defined.

Lemma generate_dynamic_flashcards_error_witness :
  (~ returns (get_qa_pipeline (QaPipeline := Bench.pipeline)) \/ -1 < 0)
  /\ exists message,
       generate_dynamic_flashcards (pipeline := Bench.pipeline)
         Bench.notes "Photosynthesis" (-1) Bench.world
       = (Ok (ErrorDict ("Flashcard generation failed: " +:+ message)),
          Bench.world).
Proof.
  assert (Hc : ~ returns (get_qa_pipeline (QaPipeline := Bench.pipeline))
               \/ -1 < 0) by (right; lia).
  split; [exact Hc|].
  exact (generate_dynamic_flashcards_error (pipeline := Bench.pipeline)
           Bench.notes "Photosynthesis" (-1) Bench.world Hc).
Defined.

End DynFacts.

Module PhoneFacts.
Import Text UtilsMore TextFacts StringFacts.

(** The nine digits of a Kenyan mobile number after the country code:
    a 1 or a 7, then eight digits. *)
Definition subscriber (l : list ascii) : Prop :=
  match l with
  | first :: rest =>
      (first = "1"%char \/ first = "7"%char)
      /\ List.length rest = 8%nat /\ forallb is_digit rest = true
  | [] => False
  end.

Definition country : list ascii := ["+"; "2"; "5"; "4"]%char.

Lemma code_eq c n : (n < 256)%nat -> Nat.eqb (code c) n = true -> c = ascii_of_nat n.
Proof.
  intros Hn H. apply Nat.eqb_eq in H. unfold code in H.
  rewrite <- H. symmetry. apply ascii_nat_embedding.
Qed.

Lemma subscriber_digits l : subscriber l -> forallb is_digit l = true.
Proof.
  destruct l as [|first rest]; [intros []|].
  intros ([-> | ->] & _ & Hr); cbn [forallb]; rewrite Hr; reflexivity.
Qed.

Lemma subscriber_length l : subscriber l -> List.length l = 9%nat.
Proof.
  destruct l as [|first rest]; [intros []|]. intros (_ & Hl & _). cbn. lia.
Qed.

Lemma filter_all {A} (p : A -> bool) l : forallb p l = true -> List.filter p l = l.
Proof.
  induction l as [|x l IH]; cbn; [reflexivity|].
  intros H. apply andb_true_iff in H as [Hx Hl]. now rewrite Hx, IH.
Qed.

Lemma forallb_filter {A} (p : A -> bool) l : forallb p (List.filter p l) = true.
Proof.
  induction l as [|x l IH]; cbn; [reflexivity|].
  destruct (p x) eqn:E; cbn; [now rewrite E|exact IH].
Qed.

(** What the pattern, as far as the line shows it, asks of the digits
    after the country code: a 1 or a 7, then eight digits or more. *)
Definition mobile_digits (l : list ascii) : Prop :=
  match l with
  | first :: rest =>
      (first = "1"%char \/ first = "7"%char)
      /\ (8 <= List.length rest)%nat /\ forallb is_digit rest = true
  | [] => False
  end.

Lemma subscriber_mobile_digits l : subscriber l -> mobile_digits l.
Proof.
  destruct l as [|first rest]; [intros []|].
  intros (Hf & Hl & Hd). split; [exact Hf|]. split; [lia | exact Hd].
Qed.

Lemma mobile_digits_digits l : mobile_digits l -> forallb is_digit l = true.
Proof.
  destruct l as [|first rest]; [intros []|].
  intros ([-> | ->] & _ & Hr); cbn [forallb]; rewrite Hr; reflexivity.
Qed.

Lemma forallb_firstn {A} (p : A -> bool) n l :
  forallb p l = true -> forallb p (firstn n l) = true.
Proof.
  intros H. rewrite forallb_forall in H |- *. intros x Hx.
  apply H. rewrite <- (firstn_skipn n l). apply in_or_app. now left.
Qed.

(** A string of digits after [+254] that the pattern accepts. *)
Lemma kenyan_mobile_shape tail :
  forallb is_digit tail = true ->
  kenyan_mobile (text (country ++ tail)) = true -> mobile_digits tail.
Proof.
  intros Hd. unfold kenyan_mobile. rewrite chars_text. cbn [country app].
  destruct tail as [|first rest]; [discriminate|].
  change (Nat.eqb (code "+") 43) with true. change (Nat.eqb (code "2") 50) with true.
  change (Nat.eqb (code "5") 53) with true. change (Nat.eqb (code "4") 52) with true.
  cbn [andb]. intros H.
  apply andb_true_iff in H as [H Hdig]. apply andb_true_iff in H as [Hfirst Hlen].
  cbn [forallb] in Hd. apply andb_true_iff in Hd as [_ Hd].
  apply Nat.eqb_eq in Hlen. rewrite length_firstn in Hlen.
  cbn [mobile_digits]. split; [|split; [lia | exact Hd]].
  apply orb_true_iff in Hfirst as [H1 | H7].
  - left. exact (code_eq _ 49 ltac:(lia) H1).
  - right. exact (code_eq _ 55 ltac:(lia) H7).
Qed.

Lemma kenyan_mobile_digits tail :
  mobile_digits tail -> kenyan_mobile (text (country ++ tail)) = true.
Proof.
  destruct tail as [|first rest]; [intros []|]. intros (Hf & Hl & Hd).
  unfold kenyan_mobile. rewrite chars_text. cbn [country app].
  change (Nat.eqb (code "+") 43) with true. change (Nat.eqb (code "2") 50) with true.
  change (Nat.eqb (code "5") 53) with true. change (Nat.eqb (code "4") 52) with true.
  cbn [andb].
  rewrite (forallb_firstn _ 8 _ Hd), length_firstn.
  replace (Nat.min 8 (List.length rest)) with 8%nat by lia.
  destruct Hf as [-> | ->]; reflexivity.
Qed.

Lemma kenyan_mobile_subscriber tail :
  subscriber tail -> kenyan_mobile (text (country ++ tail)) = true.
Proof. intros Hs. now apply kenyan_mobile_digits, subscriber_mobile_digits. Qed.

Lemma prefix_chars_app p l : prefix_chars p l = true -> exists r, l = p ++ r.
Proof.
  revert l. induction p as [|a p IH]; intros l H; [now exists l|].
  destruct l as [|b l]; [discriminate|]. cbn in H.
  destruct (Ascii.eqb a b) eqn:E; [|discriminate].
  apply Ascii.eqb_eq in E. subst b.
  destruct (IH l H) as [r ->]. now exists r.
Qed.

Lemma text_app a b : text (a ++ b) = text a +:+ text b.
Proof. induction a as [|c a IH]; cbn; [reflexivity | now rewrite IH]. Qed.

(** The number [+254] and digits that the pattern accepts is accepted as
    it is. *)
Lemma validate_international tail :
  mobile_digits tail ->
  validate_phone_number (text (country ++ tail)) "+254"
  = Ok (text (country ++ tail)).
Proof.
  intros Hs. unfold validate_phone_number, keep_only.
  rewrite chars_text. cbn [country app List.filter].
  change (is_digit "+") with false. change (is_digit "2") with true.
  change (is_digit "5") with true. change (is_digit "4") with true. cbv iota.
  rewrite (filter_all _ _ (mobile_digits_digits _ Hs)).
  unfold startswith. rewrite chars_text.
  change (prefix_chars (chars "254") ("2"%char :: "5"%char :: "4"%char :: tail))
    with true. cbv iota.
  change (Ok ("+" +:+ text ("2"%char :: "5"%char :: "4"%char :: tail)) ≫= ?k)
    with (k (text (country ++ tail))).
  cbv beta. now rewrite (kenyan_mobile_digits _ Hs).
Qed.

(** X29.  A number that [validate_phone_number] accepts with the country code
    of Kenya comes back as [+254], a 1 or a 7, and eight characters or
    more that [\d] matches, and nothing else: thirteen characters at
    least (the pattern, as far as line 504 shows it, does not end the
    number); and it is accepted as it is when validated again. *)
Theorem validate_phone_number_normal_form (phone formatted : string) :
  validate_phone_number phone "+254" = Ok formatted ->
  (exists tail, formatted = text (country ++ tail) /\ mobile_digits tail)
  /\ 13 <= len formatted
  /\ validate_phone_number formatted "+254" = Ok formatted.
Proof.
  intros Hv.
  assert (Hshape : exists tail, formatted = text (country ++ tail)
                                /\ mobile_digits tail).
  { revert Hv. unfold validate_phone_number, keep_only.
    set (ds := List.filter is_digit (chars phone)).
    assert (Hds : forallb is_digit ds = true) by apply forallb_filter.
    unfold startswith, drop, len. rewrite !chars_text.
    destruct (prefix_chars (chars "254") ds) eqn:E254.
    - apply prefix_chars_app in E254 as [tail Htail].
      change (chars "254") with ["2"; "5"; "4"]%char in Htail.
      change (Ok ("+" +:+ text ds) ≫= ?k) with (k ("+" +:+ text ds)). cbv beta.
      assert (Ht : "+" +:+ text ds = text (country ++ tail))
        by (rewrite Htail; reflexivity).
      rewrite Ht.
      destruct (kenyan_mobile (text (country ++ tail))) eqn:Ek; [|discriminate].
      cbn [negb]. intros [= <-]. exists tail. split; [reflexivity|].
      apply kenyan_mobile_shape; [|exact Ek].
      rewrite Htail in Hds. cbn [app forallb] in Hds.
      repeat (apply andb_true_iff in Hds as [_ Hds]). exact Hds.
    - destruct (prefix_chars (chars "0") ds) eqn:E0.
      + apply prefix_chars_app in E0 as [tail Htail].
        change (chars "0") with ["0"]%char in Htail.
        change (Ok ("+254" +:+ text (skipn 1 ds)) ≫= ?k)
          with (k ("+254" +:+ text (skipn 1 ds))). cbv beta.
        assert (Ht : "+254" +:+ text (skipn 1 ds) = text (country ++ tail))
          by (rewrite Htail; reflexivity).
        rewrite Ht.
        destruct (kenyan_mobile (text (country ++ tail))) eqn:Ek; [|discriminate].
        cbn [negb]. intros [= <-]. exists tail. split; [reflexivity|].
        apply kenyan_mobile_shape; [|exact Ek].
        rewrite Htail in Hds. cbn [app forallb] in Hds.
        apply andb_true_iff in Hds as [_ Hds]. exact Hds.
      + destruct (Z.of_nat (String.length (text ds)) =? 9) eqn:E9.
        * change (Ok ("+254" +:+ text ds) ≫= ?k) with (k ("+254" +:+ text ds)).
          cbv beta.
          assert (Ht : "+254" +:+ text ds = text (country ++ ds)) by reflexivity.
          rewrite Ht.
          destruct (kenyan_mobile (text (country ++ ds))) eqn:Ek; [|discriminate].
          cbn [negb]. intros [= <-]. exists ds. split; [reflexivity|].
          now apply kenyan_mobile_shape.
        * discriminate. }
  destruct Hshape as (tail & -> & Hs). split; [eauto|]. split.
  - rewrite len_text, length_app. cbn [country List.length].
    destruct tail as [|first rest]; [destruct Hs|].
    destruct Hs as (_ & Hl & _). cbn [List.length]. lia.
  - now apply validate_international.
Qed.

(** X30.  A Kenyan mobile number is accepted in its four notations, with the
    same result: the nine digits alone, after a 0, after 254, and after
    +254. *)
Theorem validate_phone_number_notations (tail : list ascii) :
  subscriber tail ->
  let formatted := Ok (text (country ++ tail)) in
  validate_phone_number (text tail) "+254" = formatted
  /\ validate_phone_number ("0" +:+ text tail) "+254" = formatted
  /\ validate_phone_number ("254" +:+ text tail) "+254" = formatted
  /\ validate_phone_number ("+254" +:+ text tail) "+254" = formatted.
Proof.
  intros Hs formatted. subst formatted.
  pose proof (subscriber_digits _ Hs) as Hd.
  pose proof (kenyan_mobile_subscriber _ Hs) as Hk.
  pose proof (subscriber_length _ Hs) as Hl.
  assert (Hfirst : exists first rest, tail = first :: rest
                   /\ (first = "1"%char \/ first = "7"%char)).
  { destruct tail as [|first rest]; [destruct Hs|].
    exists first, rest. split; [reflexivity | apply Hs]. }
  destruct Hfirst as (first & rest & Htail & Hf).
  split; [|split; [|split]].
  - unfold validate_phone_number, keep_only. rewrite chars_text, (filter_all _ _ Hd).
    unfold startswith, len. rewrite !chars_text.
    replace (prefix_chars (chars "254") tail) with false
      by (rewrite Htail; destruct Hf as [-> | ->]; reflexivity).
    replace (prefix_chars (chars "0") tail) with false
      by (rewrite Htail; destruct Hf as [-> | ->]; reflexivity).
    replace (Z.of_nat (String.length (text tail)) =? 9) with true
      by (fold (len (text tail)); rewrite len_text, Hl; reflexivity).
    change (Ok ("+254" +:+ text tail) ≫= ?k) with (k (text (country ++ tail))).
    cbv beta. now rewrite Hk.
  - unfold validate_phone_number, keep_only.
    change (chars ("0" +:+ text tail)) with ("0"%char :: chars (text tail)).
    rewrite chars_text. cbn [List.filter]. change (is_digit "0") with true.
    cbv iota. rewrite (filter_all _ _ Hd).
    unfold startswith, drop. rewrite !chars_text.
    replace (prefix_chars (chars "254") ("0"%char :: tail)) with false by reflexivity.
    change (prefix_chars (chars "0") ("0"%char :: tail)) with true. cbv iota.
    change (skipn 1 ("0"%char :: tail)) with tail.
    change (Ok ("+254" +:+ text tail) ≫= ?k) with (k (text (country ++ tail))).
    cbv beta. now rewrite Hk.
  - unfold validate_phone_number, keep_only.
    change (chars ("254" +:+ text tail))
      with ("2"%char :: "5"%char :: "4"%char :: chars (text tail)).
    rewrite chars_text. cbn [List.filter].
    change (is_digit "2") with true. change (is_digit "5") with true.
    change (is_digit "4") with true. cbv iota. rewrite (filter_all _ _ Hd).
    unfold startswith. rewrite !chars_text.
    change (prefix_chars (chars "254") ("2"%char :: "5"%char :: "4"%char :: tail))
      with true. cbv iota.
    change (Ok ("+" +:+ text ("2"%char :: "5"%char :: "4"%char :: tail)) ≫= ?k)
      with (k (text (country ++ tail))).
    cbv beta. now rewrite Hk.
  - change ("+254" +:+ text tail) with (text (country ++ tail)).
    now apply validate_international, subscriber_mobile_digits.
Qed.

Lemma subscriber_check : subscriber (chars "712345678").
Proof. cbn. split; [now right|]. split; reflexivity. Defined.

Lemma validate_phone_number_normal_form_witness :
  validate_phone_number "0712 345-678" "+254" = Ok "+254712345678"
  /\ (exists tail, "+254712345678" = text (country ++ tail) /\ mobile_digits tail)
  /\ 13 <= len "+254712345678"
  /\ validate_phone_number "+254712345678" "+254" = Ok "+254712345678".
Proof.
  assert (Hv : validate_phone_number "0712 345-678" "+254" = Ok "+254712345678")
    by (vm_compute; reflexivity).
  split; [exact Hv|].
  exact (validate_phone_number_normal_form "0712 345-678" "+254712345678" Hv).
Defined.

Lemma validate_phone_number_notations_witness :
  subscriber (chars "712345678")
  /\ (let formatted := Ok (text (country ++ chars "712345678")) in
      validate_phone_number (text (chars "712345678")) "+254" = formatted
      /\ validate_phone_number ("0" +:+ text (chars "712345678")) "+254" = formatted
      /\ validate_phone_number ("254" +:+ text (chars "712345678")) "+254" = formatted
      /\ validate_phone_number ("+254" +:+ text (chars "712345678")) "+254"
         = formatted).
Proof.
  split; [exact subscriber_check|].
  exact (validate_phone_number_notations (chars "712345678") subscriber_check).
Defined.

End PhoneFacts.
